(** * Double-entry ledger of the ecobacgiang backend

    A shallow embedding of the accounting core found in
    [routes/accounting.js], [routes/orders.js] (COGS posting),
    [services/accountingService.js] (sale posting) and
    [middleware/lockDateCheck.js], followed by the properties the
    specification states about it.

    Conventions of the embedding.
    - A JavaScript [Number] holding money or a quantity is an exact
      rational ([Q]).  The amounts of journal lines that a request
      supplies are the exception: the handlers add them up and compare
      the totals in double precision, and the verdict depends on the
      rounding, so they are IEEE 754 doubles (the kernel's primitive
      floats) and [parseFloat(x) || 0], the sums and the comparison are
      those of the doubles.
    - A MongoDB collection is a list of documents in insertion order;
      [findOne] returns the first match.
    - A handler is a computation over a [World]: the committed store, the
      store as seen through the open transaction (if any), the supply of
      fresh [_id]s and a fault plan telling which write the datastore
      rejects.  Every read and write carries the [session] argument the
      source passes (or omits).
    - Free-text and audit fields (memo, description, notes, createdBy,
      postingDate, updatedAt stamps written by handlers) carry no logic
      and are left out of the documents. *)

From Stdlib Require Import List String Ascii ZArith QArith Qabs Qminmax.
From Stdlib Require Import Bool Lia Lqa Permutation.
From Stdlib Require Import PrimFloat SpecFloat FloatOps.
Import ListNotations.

Set Warnings "-inexact-float".

Open Scope string_scope.
Open Scope list_scope.
Open Scope Q_scope.

Set Implicit Arguments.

(* ================================================================== *)
(** ** JavaScript number idioms *)
(* ================================================================== *)

Module Js.

(** [parseFloat(x) || 0] on the double [parseFloat] made of the field
    ([NaN] for an absent or unparsable one): [NaN] and the two zeros are
    falsy. *)
Definition parseFloatOr0 (x : float) : float :=
  if PrimFloat.is_nan x || PrimFloat.is_zero x then 0%float else x.

(** The exact value of a finite double, [(-1)^s * m * 2^e], in lowest
    terms.  An infinite double has no rational value; it is given [0]
    here, and what is said about the stored amount of a line is said of
    finite amounts. *)
Definition toQ (x : float) : Q :=
  match Prim2SF x with
  | S754_finite s m e =>
      let v := if (0 <=? e)%Z then inject_Z (Z.pos m * 2 ^ e)
               else Z.pos m # Pos.shiftl 1 (Z.to_N (- e)) in
      Qred (if s then - v else v)
  | _ => 0
  end.

Definition isFinite (x : float) : bool :=
  negb (PrimFloat.is_nan x || PrimFloat.is_infinity x).

(** [x || d] on a numeric field: [undefined], [NaN] and [0] are falsy. *)
Definition numOr (x : option Q) (d : Q) : Q :=
  match x with
  | Some q => if Qeq_bool q 0 then d else q
  | None => d
  end.

(** [a > b] and [a <= b] as booleans. *)
Definition gt (a b : Q) : bool := negb (Qle_bool a b).
Definition le (a b : Q) : bool := Qle_bool a b.
Definition lt (a b : Q) : bool := negb (Qle_bool b a).
Definition ge (a b : Q) : bool := Qle_bool b a.

Definition Math_abs (a : Q) : Q := Qabs a.
Definition Math_max (a b : Q) : Q := Qmax a b.
Definition Math_min (a b : Q) : Q := Qmin a b.

(** [x || d] on an optional object or string-like value. *)
Definition orElse {A : Type} (x : option A) (d : A) : A :=
  match x with
  | Some a => a
  | None => d
  end.

(** Truthiness of a string: the empty string is falsy. *)
Definition truthyStr (s : string) : bool :=
  match s with
  | EmptyString => false
  | _ => true
  end.

(** [x || d] on an optional string. *)
Definition strOr (x : option string) (d : string) : string :=
  match x with
  | Some s => if truthyStr s then s else d
  | None => d
  end.

(** [x || null] on a string-valued field that may be absent or null. *)
Definition orNull (x : option (option string)) : option string :=
  match x with
  | Some (Some s) => if truthyStr s then Some s else None
  | _ => None
  end.

(** A field of a JSON body that a handler takes as it comes: a string, or
    a value of another type -- absent, [null], a number, a boolean, an
    array, an object -- of which the handler uses the truthiness and the
    text [String(v)] gives. *)
Inductive value :=
| str (s : string)
| other (truthy : bool) (text : string).

(** [!!v]. *)
Definition truthy (v : value) : bool :=
  match v with
  | str s => truthyStr s
  | other t _ => t
  end.

(** [typeof v === 'string']. *)
Definition isString (v : value) : bool :=
  match v with
  | str _ => true
  | other _ _ => false
  end.

(** [String(v)]. *)
Definition toString (v : value) : string :=
  match v with
  | str s => s
  | other _ text => text
  end.

End Js.

(* ================================================================== *)
(** ** Documents *)
(* ================================================================== *)

Definition ObjectId := string.

(** Milliseconds since the epoch, as a JavaScript [Date] holds them. *)
Definition Date := Z.

Definition dayMs : Z := 86400000%Z.

(** [d.setDate(d.getDate() + n)]. *)
Definition addDays (d : Date) (n : Z) : Date := (d + n * dayMs)%Z.

Record Line := mkLine {
  accountCode : string;
  debit : Q;
  credit : Q;
  partner : option ObjectId;
  partnerType : option string
}.

Record JournalEntry := mkJournalEntry {
  je_id : ObjectId;
  referenceNo : string;
  je_date : Date;
  entryType : string;
  sourceId : option ObjectId;
  sourceType : option string;
  lines : list Line;
  je_status : string;
  adjustedDate : option Date
}.

Record Account := mkAccount {
  acc_id : ObjectId;
  code : string;
  acc_name : string;
  accountType : string;
  level : nat;
  parentCode : option string;
  acc_status : string
}.

Record Receivable := mkReceivable {
  rcv_id : ObjectId;
  rcv_journalEntry : ObjectId;
  customer : option ObjectId;
  rcv_order : option ObjectId;
  rcv_originalAmount : Q;
  rcv_remainingAmount : Q;
  rcv_paymentStatus : string;
  rcv_dueDate : Date;
  rcv_invoiceDate : Date
}.

Record Payable := mkPayable {
  pay_id : ObjectId;
  pay_journalEntry : ObjectId;
  supplier : ObjectId;
  billType : string;
  pay_originalAmount : Q;
  pay_remainingAmount : Q;
  pay_paymentStatus : string;
  pay_dueDate : Date;
  pay_invoiceDate : Date
}.

Record Product := mkProduct {
  prod_id : ObjectId;
  stock : option Q;
  averageCost : option Q;
  price : option Q
}.

Record OrderItem := mkOrderItem {
  product : ObjectId;
  quantity : option Q
}.

(** The [paymentMethod] and [status] enums of the Order schema. *)
Inductive PaymentMethod := COD | BankTransfer | Sepay | MoMo.
Inductive OrderStatus := pending | paid | shipped | delivered | cancelled.

Record Order := mkOrder {
  ord_id : ObjectId;
  user : option ObjectId;
  orderItems : list OrderItem;
  finalTotal : Q;
  paymentMethod : PaymentMethod;
  ord_status : OrderStatus;
  createdAt : option Date
}.

(** [order.updatedAt]: the Order schema declares no such path and sets no
    [timestamps] option, so the read gives [undefined] on every order
    document. *)
Definition updatedAt (order : Order) : option Date := None.

Record DepreciationRow := mkDepreciationRow {
  dep_month : string;
  dep_amount : Q;
  dep_journalEntry : ObjectId
}.

(** [usefulLife] is a positive number of months: the creating handler
    parses it with [parseInt] and refuses [NaN] and values [<= 0]. *)
Record FixedAsset := mkFixedAsset {
  fa_id : ObjectId;
  assetCode : string;
  originalCost : Q;
  usefulLife : positive;
  monthlyDepreciation : option Q;
  accumulatedDepreciation : Q;
  bookValue : Q;
  depreciationHistory : list DepreciationRow;
  fa_status : string
}.

Record AccountingPeriod := mkAccountingPeriod {
  per_id : ObjectId;
  periodName : string;
  startDate : Date;
  endDate : Date;
  lockDate : option Date;
  per_status : string;
  closedAt : option Date;
  closedBy : option ObjectId
}.

Record Transaction := mkTransaction {
  txn_id : ObjectId;
  txn_type : string;
  txn_amount : Q;
  txn_category : string;
  txn_date : Date;
  txn_reference : string;
  txn_paymentStatus : string
}.

Record User := mkUser {
  usr_id : ObjectId;
  usr_name : string;
  email : string;
  phone : option string;
  role : string
}.

Record Store := mkStore {
  accounts : list Account;
  journalEntries : list JournalEntry;
  receivables : list Receivable;
  payables : list Payable;
  products : list Product;
  orders : list Order;
  fixedAssets : list FixedAsset;
  periods : list AccountingPeriod;
  transactions : list Transaction;
  users : list User
}.

Definition emptyStore : Store :=
  mkStore [] [] [] [] [] [] [] [] [] [].

(** Field setters, one per collection a handler writes. *)
Definition setAccounts (f : list Account -> list Account) (s : Store) : Store :=
  mkStore (f (accounts s)) (journalEntries s) (receivables s) (payables s)
          (products s) (orders s) (fixedAssets s) (periods s)
          (transactions s) (users s).

Definition setJournalEntries (f : list JournalEntry -> list JournalEntry)
    (s : Store) : Store :=
  mkStore (accounts s) (f (journalEntries s)) (receivables s) (payables s)
          (products s) (orders s) (fixedAssets s) (periods s)
          (transactions s) (users s).

Definition setReceivables (f : list Receivable -> list Receivable)
    (s : Store) : Store :=
  mkStore (accounts s) (journalEntries s) (f (receivables s)) (payables s)
          (products s) (orders s) (fixedAssets s) (periods s)
          (transactions s) (users s).

Definition setPayables (f : list Payable -> list Payable) (s : Store) : Store :=
  mkStore (accounts s) (journalEntries s) (receivables s) (f (payables s))
          (products s) (orders s) (fixedAssets s) (periods s)
          (transactions s) (users s).

Definition setProducts (f : list Product -> list Product) (s : Store) : Store :=
  mkStore (accounts s) (journalEntries s) (receivables s) (payables s)
          (f (products s)) (orders s) (fixedAssets s) (periods s)
          (transactions s) (users s).

Definition setFixedAssets (f : list FixedAsset -> list FixedAsset)
    (s : Store) : Store :=
  mkStore (accounts s) (journalEntries s) (receivables s) (payables s)
          (products s) (orders s) (f (fixedAssets s)) (periods s)
          (transactions s) (users s).

Definition setPeriods (f : list AccountingPeriod -> list AccountingPeriod)
    (s : Store) : Store :=
  mkStore (accounts s) (journalEntries s) (receivables s) (payables s)
          (products s) (orders s) (fixedAssets s) (f (periods s))
          (transactions s) (users s).

Definition setTransactions (f : list Transaction -> list Transaction)
    (s : Store) : Store :=
  mkStore (accounts s) (journalEntries s) (receivables s) (payables s)
          (products s) (orders s) (fixedAssets s) (periods s)
          (f (transactions s)) (users s).

Definition setUsers (f : list User -> list User) (s : Store) : Store :=
  mkStore (accounts s) (journalEntries s) (receivables s) (payables s)
          (products s) (orders s) (fixedAssets s) (periods s)
          (transactions s) (f (users s)).

(** Generic collection operations. *)
Section Collections.
Context {A : Type}.

(** [Model.findOne(query)]. *)
Definition findOne (q : A -> bool) (l : list A) : option A := find q l.

(** [insert]: a saved new document goes to the end. *)
Definition insertDoc (d : A) (l : list A) : list A := l ++ [d].

(** [findByIdAndUpdate] / [doc.save()] on a loaded document: the first
    document satisfying [q] is replaced by its image. *)
Fixpoint updateFirst (q : A -> bool) (f : A -> A) (l : list A) : list A :=
  match l with
  | [] => []
  | x :: r => if q x then f x :: r else x :: updateFirst q f r
  end.

(** [findByIdAndDelete]. *)
Fixpoint deleteFirst (q : A -> bool) (l : list A) : list A :=
  match l with
  | [] => []
  | x :: r => if q x then r else x :: deleteFirst q r
  end.

(** [deleteMany]. *)
Definition deleteMany (q : A -> bool) (l : list A) : list A :=
  filter (fun x => negb (q x)) l.

Definition countDocs (q : A -> bool) (l : list A) : nat :=
  List.length (filter q l).
End Collections.

Definition optEqb (a : option string) (b : string) : bool :=
  match a with
  | Some x => String.eqb x b
  | None => false
  end.

(* ================================================================== *)
(** ** Handlers as computations over the datastore *)
(* ================================================================== *)

(** An exception: whether it carries [code === 11000] (a unique-index
    violation), and its message. *)
Record Exn := mkExn {
  code11000 : bool;
  message : string
}.

(** [new Error(msg)]. *)
Definition Error (msg : string) : Exn := mkExn false msg.

(** The driver's duplicate-key error. *)
Definition DuplicateKey : Exn := mkExn true "E11000 duplicate key error".

(** [error.code === 11000]. *)
Definition isDuplicate (e : Exn) : bool := code11000 e.

(** [s.includes(sub)]. *)
Fixpoint includes (sub s : string) : bool :=
  prefix sub s
  || match s with
     | EmptyString => false
     | String _ r => includes sub r
     end.

Record World := mkWorld {
  committed : Store;
  staged : option Store;
  nextId : nat;
  idSupply : nat -> ObjectId;
  writeCount : nat;
  faults : nat -> option Exn
}.

(** The plan under which the datastore accepts every write. *)
Definition noFaults : nat -> option Exn := fun _ => None.

(** The store a read sees: through the session while its transaction is
    open, the committed store otherwise. *)
Definition view (session : bool) (w : World) : Store :=
  if session then
    match staged w with
    | Some s => s
    | None => committed w
    end
  else committed w.

Definition applyWrite (session : bool) (f : Store -> Store) (w : World) : World :=
  if session then
    match staged w with
    | Some s => mkWorld (committed w) (Some (f s)) (nextId w) (idSupply w)
                        (writeCount w) (faults w)
    | None => mkWorld (f (committed w)) None (nextId w) (idSupply w)
                      (writeCount w) (faults w)
    end
  else mkWorld (f (committed w)) (staged w) (nextId w) (idSupply w)
               (writeCount w) (faults w).

Definition countWrite (w : World) : World :=
  mkWorld (committed w) (staged w) (nextId w) (idSupply w)
          (S (writeCount w)) (faults w).

(** The three ways a statement ends: it falls through with a value, the
    enclosing function [return]s, or an exception propagates. *)
Inductive Outcome (R A : Type) :=
| Next (a : A)
| Returned (r : R)
| Thrown (e : Exn).

Arguments Next {R A} a.
Arguments Returned {R A} r.
Arguments Thrown {R A} e.

Definition M (R A : Type) := World -> Outcome R A * World.

Definition ret {R A} (a : A) : M R A := fun w => (Next a, w).

Definition bind {R A B} (m : M R A) (k : A -> M R B) : M R B :=
  fun w =>
    match m w with
    | (Next a, w') => k a w'
    | (Returned r, w') => (Returned r, w')
    | (Thrown e, w') => (Thrown e, w')
    end.

Definition return_ {R A} (r : R) : M R A := fun w => (Returned r, w).

Definition throw {R A} (e : Exn) : M R A := fun w => (Thrown e, w).

Declare Scope js_scope.
Delimit Scope js_scope with js.
Notation "x <- m ;; k" := (bind m (fun x => k))
  (at level 61, m at next level, right associativity) : js_scope.
Notation "m ;;; k" := (bind m (fun _ => k))
  (at level 61, right associativity) : js_scope.
Open Scope js_scope.

(** Calling an [async function] and awaiting it: its [return] value is the
    value of the call; its exception propagates. *)
Definition call {R R'} (body : M R' R') : M R R' :=
  fun w =>
    match body w with
    | (Next a, w') => (Next a, w')
    | (Returned a, w') => (Next a, w')
    | (Thrown e, w') => (Thrown e, w')
    end.

(** Awaiting an [async function] from outside the model: its value, or
    the exception it rejects with. *)
Definition await {A} (body : M A A) (w : World) : (A + Exn) * World :=
  match body w with
  | (Next a, w') => (inl a, w')
  | (Returned a, w') => (inl a, w')
  | (Thrown e, w') => (inr e, w')
  end.

(** [try { body } catch (e) { handler e }]. *)
Definition tryCatch {R A} (body : M R A) (handler : Exn -> M R A) : M R A :=
  fun w =>
    match body w with
    | (Thrown e, w') => handler e w'
    | r => r
    end.

Definition when_ {R} (b : bool) (m : M R unit) : M R unit :=
  if b then m else ret tt.

(** [for (const x of xs) { body }] with an accumulator standing for the
    local variables the body updates. *)
Fixpoint forOf {R X S} (xs : list X) (body : X -> S -> M R S) (acc : S) : M R S :=
  match xs with
  | [] => ret acc
  | x :: r => acc' <- body x acc ;; forOf r body acc'
  end.

(** [Model.find(...).session(session)] and friends. *)
Definition dbRead {R A} (session : bool) (q : Store -> A) : M R A :=
  fun w => (Next (q (view session w)), w).

(** [doc.save({ session })], [findByIdAndUpdate(..., { session })]: the
    datastore may reject the write. *)
Definition dbWrite {R} (session : bool) (f : Store -> Store) : M R unit :=
  fun w =>
    match faults w (writeCount w) with
    | Some e => (Thrown e, countWrite w)
    | None => (Next tt, applyWrite session f (countWrite w))
    end.

(** [new Model(...)] draws the document's [_id]. *)
Definition freshId {R} : M R ObjectId :=
  fun w => (Next (idSupply w (nextId w)),
            mkWorld (committed w) (staged w) (S (nextId w)) (idSupply w)
                    (writeCount w) (faults w)).

Definition startTransaction (w : World) : World :=
  mkWorld (committed w) (Some (committed w)) (nextId w) (idSupply w)
          (writeCount w) (faults w).

Definition commitTransaction {R} : M R unit :=
  fun w =>
    (Next tt,
     match staged w with
     | Some s => mkWorld s None (nextId w) (idSupply w) (writeCount w) (faults w)
     | None => w
     end).

Definition abortTransaction {R} : M R unit :=
  fun w => (Next tt, mkWorld (committed w) None (nextId w) (idSupply w)
                             (writeCount w) (faults w)).

(** [session.endSession()]: a transaction still open is discarded. *)
Definition endSession (w : World) : World :=
  mkWorld (committed w) None (nextId w) (idSupply w) (writeCount w) (faults w).

Record Response (P : Type) := mkResponse {
  statusCode : nat;
  payload : option P
}.

Arguments mkResponse {P} statusCode payload.

(** A route handler of the shape
    [startSession; startTransaction; try { body } catch { abort; 500 or
    400 } finally { endSession }]. *)
Definition withSession {P} (body : M (Response P) (Response P))
    (onError : Exn -> Response P) (w : World) : Response P * World :=
  match body (startTransaction w) with
  | (Next r, w') => (r, endSession w')
  | (Returned r, w') => (r, endSession w')
  | (Thrown e, w') => (onError e, endSession (snd (@abortTransaction unit w')))
  end.

(** A route handler without a session:
    [try { body } catch { 500 }]. *)
Definition withoutSession {P} (body : M (Response P) (Response P))
    (onError : Exn -> Response P) (w : World) : Response P * World :=
  match body w with
  | (Next r, w') => (r, w')
  | (Returned r, w') => (r, w')
  | (Thrown e, w') => (onError e, w')
  end.

(* ================================================================== *)
(** ** Journal-entry arithmetic *)
(* ================================================================== *)

(** [lines.reduce((sum, line) => sum + line.debit, 0)]. *)
Definition totalDebitOf (ls : list Line) : Q :=
  fold_left (fun sum line => sum + debit line) ls 0.

Definition totalCreditOf (ls : list Line) : Q :=
  fold_left (fun sum line => sum + credit line) ls 0.

Definition tolerance : Q := 1 # 100.

(** [Math.abs(totalDebit - totalCredit) > 0.01] on lines the server
    built itself, a debit line and a credit line for one amount: each
    total is that amount added to zeros, so the comparison comes out the
    same over the rationals as over the doubles. *)
Definition unbalanced (ls : list Line) : bool :=
  Js.gt (Js.Math_abs (totalDebitOf ls - totalCreditOf ls)) tolerance.

Definition byId {A} (proj : A -> ObjectId) (id : ObjectId) (x : A) : bool :=
  String.eqb (proj x) id.

Definition byReferenceNo (r : string) (e : JournalEntry) : bool :=
  String.eqb (referenceNo e) r.

Definition codeIn (cs : list string) (a : Account) : bool :=
  existsb (String.eqb (code a)) cs.

(* ================================================================== *)
(** ** Cost-of-goods-sold posting ([routes/orders.js]) *)
(* ================================================================== *)

Record ProductUpdate := mkProductUpdate {
  pu_productId : ObjectId;
  pu_quantitySold : Q;
  pu_averageCost : Q;
  pu_itemCOGS : Q;
  pu_newStock : Q
}.

Record CogsResult := mkCogsResult {
  journalEntry : JournalEntry;
  productsUpdated : list ProductUpdate
}.

(** The query of the existing-entry guard:
    [{ sourceId: orderId, sourceType: 'order',
       'lines.accountCode': '632', status: 'posted' }]. *)
Definition isCOGSEntryOf (orderId : ObjectId) (e : JournalEntry) : bool :=
  optEqb (sourceId e) orderId
  && optEqb (sourceType e) "order"
  && existsb (fun l => String.eqb (accountCode l) "632") (lines e)
  && String.eqb (je_status e) "posted".

Definition setStock (newStock : Q) (p : Product) : Product :=
  mkProduct (prod_id p) (Some newStock) (averageCost p) (price p).

(** One turn of the loop over [order.orderItems]; the accumulator is
    [(totalCOGS, productsUpdated)]. *)
Definition cogsItem {R} (session : bool) (item : OrderItem)
    (acc : Q * list ProductUpdate) : M R (Q * list ProductUpdate) :=
  let productId := product item in
  let quantitySold := Js.numOr (quantity item) 0 in
  if Js.le quantitySold 0 then ret acc
  else
    found <- dbRead session
               (fun s => findOne (byId prod_id productId) (products s)) ;;
    match found with
    | None => ret acc
    | Some p =>
        let avgCost := Js.numOr (averageCost p) (Js.numOr (price p) 0) in
        let currentStock := Js.numOr (stock p) 0 in
        let itemCOGS := avgCost * quantitySold in
        let newStock := Js.Math_max 0 (currentStock - quantitySold) in
        dbWrite session
          (setProducts (updateFirst (byId prod_id productId) (setStock newStock))) ;;;
        ret (fst acc + itemCOGS,
             snd acc ++ [mkProductUpdate productId quantitySold avgCost
                                          itemCOGS newStock])
    end.

Definition cogsLines (totalCOGS : Q) : list Line :=
  [ mkLine "632" totalCOGS 0 None None;
    mkLine "156" 0 totalCOGS None None ].

(** [postCOGSEntry(orderId, userId, session)].  [refSuffix] is the part of
    the reference number the runtime supplies
    ([`${year}${month}-${randomStr}`]); [now] is [new Date()]. *)
Definition postCOGSEntry (orderId : ObjectId) (session : bool)
    (refSuffix : string) (now : Date) : M CogsResult CogsResult :=
  found <- dbRead session (fun s => findOne (byId ord_id orderId) (orders s)) ;;
  match found with
  | None => throw (Error "Khong tim thay don hang")
  | Some order =>
      existingCOGSEntry <- dbRead session
        (fun s => findOne (isCOGSEntryOf orderId) (journalEntries s)) ;;
      match existingCOGSEntry with
      | Some e => return_ (mkCogsResult e [])
      | None =>
          if (List.length (orderItems order) =? 0)%nat
          then throw (Error "Don hang khong co san pham")
          else
            acc <- forOf (orderItems order) (cogsItem session) (0, []) ;;
            let totalCOGS := fst acc in
            if Js.le totalCOGS 0
            then throw (Error "Tong gia von phai lon hon 0")
            else
              accs <- dbRead session
                        (fun s => filter (codeIn ["632"; "156"]) (accounts s)) ;;
              if negb (List.length accs =? 2)%nat
              then throw (Error "Tai khoan (632, 156) khong ton tai")
              else
                let refNo := ("COGS-" ++ refSuffix)%string in
                existingEntry <- dbRead session
                  (fun s => findOne (byReferenceNo refNo) (journalEntries s)) ;;
                match existingEntry with
                | Some _ => throw (Error "So chung tu da ton tai")
                | None =>
                    let ls := cogsLines totalCOGS in
                    if unbalanced ls
                    then throw (Error "Chung tu khong can bang")
                    else
                      newId <- freshId ;;
                      let entry :=
                        mkJournalEntry newId refNo
                          (Js.orElse (createdAt order) now) "inventory"
                          (Some orderId) (Some "order") ls "posted" None in
                      dbWrite session (setJournalEntries (insertDoc entry)) ;;;
                      return_ (mkCogsResult entry (snd acc))
                end
      end
  end.

(** [POST /api/orders/post-cogs]. *)
Definition postCogsRoute (orderId : string) (refSuffix : string) (now : Date)
  : World -> Response CogsResult * World :=
  withSession
    (if negb (Js.truthyStr orderId)
     then abortTransaction ;;; return_ (mkResponse 400 None)
     else
       result <- call (postCOGSEntry orderId true refSuffix now) ;;
       commitTransaction ;;;
       return_ (mkResponse 201 (Some result)))
    (fun _ => mkResponse 500 None).

(* ================================================================== *)
(** ** Manual journal entries ([/journal-entries]) *)
(* ================================================================== *)

(** A line as it arrives in a request body: [debit] and [credit] are
    the doubles [parseFloat] makes of them, [NaN] when the field is
    absent or holds no number. *)
Record LineInput := mkLineInput {
  li_accountCode : string;
  li_debit : float;
  li_credit : float;
  li_partner : option ObjectId;
  li_partnerType : option string
}.

(** [lines.reduce((sum, line) => sum + (parseFloat(line.debit) || 0), 0)],
    added from left to right in double precision. *)
Definition inputDebit (ls : list LineInput) : float :=
  fold_left (fun sum line => (sum + Js.parseFloatOr0 (li_debit line))%float)
            ls 0%float.

Definition inputCredit (ls : list LineInput) : float :=
  fold_left (fun sum line => (sum + Js.parseFloatOr0 (li_credit line))%float)
            ls 0%float.

(** The literal [0.01]: the double nearest to one hundredth. *)
Definition tolerance64 : float := 0.01%float.

(** [Math.abs(totalDebit - totalCredit) > 0.01] on the doubles; a [NaN]
    difference (infinite totals on both sides) compares false. *)
Definition inputUnbalanced (ls : list LineInput) : bool :=
  (tolerance64 <? abs (inputDebit ls - inputCredit ls))%float.

(** [lines.map(line => ({ accountCode, debit: parseFloat(..) || 0, ... }))]. *)
Definition toLine (li : LineInput) : Line :=
  mkLine (li_accountCode li) (Js.toQ (Js.parseFloatOr0 (li_debit li)))
         (Js.toQ (Js.parseFloatOr0 (li_credit li)))
         (li_partner li) (li_partnerType li).

(** [[...new Set(lines.map(line => line.accountCode))]]. *)
Definition accountCodesOf (ls : list LineInput) : list string :=
  nodup string_dec (map li_accountCode ls).

Record JournalEntryBody := mkJournalEntryBody {
  b_referenceNo : string;
  b_date : option Date;
  b_memo : string;
  b_entryType : option string;
  b_lines : option (list LineInput);
  b_sourceId : option (option ObjectId);
  b_sourceType : option (option string)
}.

Definition onDuplicate400 {P} (e : Exn) : Response P :=
  if isDuplicate e then mkResponse 400 None else mkResponse 500 None.

(** [POST /api/accounting/journal-entries]. *)
Definition postJournalEntry (b : JournalEntryBody)
  : World -> Response JournalEntry * World :=
  withoutSession
    (match b_date b, b_lines b with
     | Some date, Some ls =>
         if negb (Js.truthyStr (b_referenceNo b))
            || negb (Js.truthyStr (b_memo b))
            || (List.length ls =? 0)%nat
         then return_ (mkResponse 400 None)
         else if inputUnbalanced ls
         then return_ (mkResponse 400 None)
         else
           let accountCodes := accountCodesOf ls in
           accs <- dbRead false
                     (fun s => filter (codeIn accountCodes) (accounts s)) ;;
           if negb (List.length accs =? List.length accountCodes)%nat
           then return_ (mkResponse 400 None)
           else
             newId <- freshId ;;
             let entry :=
               mkJournalEntry newId (b_referenceNo b) date
                 (Js.strOr (b_entryType b) "manual")
                 (Js.orNull (b_sourceId b))
                 (Js.orNull (b_sourceType b))
                 (map toLine ls) "posted" None in
             dbWrite false (setJournalEntries (insertDoc entry)) ;;;
             return_ (mkResponse 201 (Some entry))
     | _, _ => return_ (mkResponse 400 None)
     end)
    onDuplicate400.

Definition applyIf {A B} (x : option B) (f : B -> A -> A) (a : A) : A :=
  match x with
  | Some v => f v a
  | None => a
  end.

Definition withLines (ls : list Line) (e : JournalEntry) : JournalEntry :=
  mkJournalEntry (je_id e) (referenceNo e) (je_date e) (entryType e)
    (sourceId e) (sourceType e) ls (je_status e) (adjustedDate e).

(** The field assignments of the update handler, after the lines. *)
Definition assignHeader (b : JournalEntryBody) (e : JournalEntry) : JournalEntry :=
  mkJournalEntry (je_id e)
    (if Js.truthyStr (b_referenceNo b) then b_referenceNo b else referenceNo e)
    (Js.orElse (b_date b) (je_date e))
    (Js.strOr (b_entryType b) (entryType e))
    (Js.orElse (b_sourceId b) (sourceId e))
    (Js.orElse (b_sourceType b) (sourceType e))
    (lines e) (je_status e) (adjustedDate e).

(** [PUT /api/accounting/journal-entries/:id].  The source carries the
    comment [// TODO: Implement lock date check] where a lock-date guard
    would stand; no guard is called. *)
Definition putJournalEntry (id : ObjectId) (b : JournalEntryBody)
  : World -> Response JournalEntry * World :=
  withoutSession
    (found <- dbRead false
                (fun s => findOne (byId je_id id) (journalEntries s)) ;;
     match found with
     | None => return_ (mkResponse 404 None)
     | Some entry =>
         entry1 <-
           match b_lines b with
           | Some ls =>
               if (0 <? List.length ls)%nat then
                 if inputUnbalanced ls
                 then return_ (mkResponse 400 None)
                 else
                   let accountCodes := accountCodesOf ls in
                   accs <- dbRead false
                             (fun s => filter (codeIn accountCodes) (accounts s)) ;;
                   if negb (List.length accs =? List.length accountCodes)%nat
                   then return_ (mkResponse 400 None)
                   else ret (withLines (map toLine ls) entry)
               else ret entry
           | None => ret entry
           end ;;
         let entry2 := assignHeader b entry1 in
         dbWrite false
           (setJournalEntries (updateFirst (byId je_id id) (fun _ => entry2))) ;;;
         return_ (mkResponse 200 (Some entry2))
     end)
    onDuplicate400.

(** [DELETE /api/accounting/journal-entries/:id].  Same [TODO] in place of
    the lock-date guard; the referential guard on Receivable/Payable is
    present. *)
Definition deleteJournalEntry (id : ObjectId)
  : World -> Response unit * World :=
  withoutSession
    (found <- dbRead false
                (fun s => findOne (byId je_id id) (journalEntries s)) ;;
     match found with
     | None => return_ (mkResponse 404 None)
     | Some entry =>
         receivable <- dbRead false
           (fun s => findOne (byId rcv_journalEntry id) (receivables s)) ;;
         payable <- dbRead false
           (fun s => findOne (byId pay_journalEntry id) (payables s)) ;;
         match receivable, payable with
         | None, None =>
             dbWrite false (setJournalEntries (deleteFirst (byId je_id id))) ;;;
             return_ (mkResponse 200 (Some tt))
         | _, _ => return_ (mkResponse 400 None)
         end
     end)
    (fun _ => mkResponse 500 None).

(* ================================================================== *)
(** ** Lock-date guard ([middleware/lockDateCheck.js]) *)
(* ================================================================== *)

Record LockCheck := mkLockCheck {
  isLocked : bool;
  lc_lockDate : option Date;
  lc_periodName : option string
}.

(** The query of the guard:
    [{ startDate: {$lte: d}, endDate: {$gte: d}, lockDate: {$ne: null},
       status: 'closed' }]. *)
Definition lockingPeriod (d : Date) (p : AccountingPeriod) : bool :=
  (startDate p <=? d)%Z && (d <=? endDate p)%Z
  && match lockDate p with Some _ => true | None => false end
  && String.eqb (per_status p) "closed".

(** [checkLockDate(transactionDate)]; its [catch] answers "not locked". *)
Definition checkLockDate {R} (transactionDate : Date) : M R LockCheck :=
  tryCatch
    (found <- dbRead false
                (fun s => findOne (lockingPeriod transactionDate) (periods s)) ;;
     match found with
     | Some period =>
         match lockDate period with
         | Some ld =>
             if (transactionDate <=? ld)%Z
             then ret (mkLockCheck true (Some ld) (Some (periodName period)))
             else ret (mkLockCheck false None None)
         | None => ret (mkLockCheck false None None)
         end
     | None => ret (mkLockCheck false None None)
     end)
    (fun _ => ret (mkLockCheck false None None)).

(** [DELETE /api/accounting/transactions/:id]: the one handler that calls
    the guard. *)
Definition deleteTransaction (id : ObjectId)
  : World -> Response unit * World :=
  withoutSession
    (found <- dbRead false
                (fun s => findOne (byId txn_id id) (transactions s)) ;;
     match found with
     | None => return_ (mkResponse 404 None)
     | Some transaction =>
         lockCheck <- checkLockDate (txn_date transaction) ;;
         if isLocked lockCheck
         then return_ (mkResponse 403 None)
         else
           dbWrite false (setTransactions (deleteFirst (byId txn_id id))) ;;;
           return_ (mkResponse 200 (Some tt))
     end)
    (fun _ => mkResponse 500 None).

(* ================================================================== *)
(** ** Internal transfer and adjusting entry *)
(* ================================================================== *)

Record TransferBody := mkTransferBody {
  fromAccountCode : string;
  toAccountCode : string;
  tf_amount : option Q;
  tf_date : option Date;
  tf_reference : string
}.

(** [amount] missing, not a number, zero or negative: the two amount
    checks of a posting handler taken together
    ([!amount], then [isNaN(amountNum) || amountNum <= 0]). *)
Definition validAmount (amount : option Q) : option Q :=
  match amount with
  | Some a => if Js.le a 0 then None else Some a
  | None => None
  end.

Definition transferLines (toCode fromCode : string) (amountNum : Q) : list Line :=
  [ mkLine toCode amountNum 0 None None;
    mkLine fromCode 0 amountNum None None ].

Definition accountTypeIs (t : string) (a : option Account) : bool :=
  match a with
  | Some acc => String.eqb (accountType acc) t
  | None => false
  end.

(** [POST /api/accounting/internal-transfer].  [refAuto] is the generated
    reference number used when the body gives none. *)
Definition internalTransfer (b : TransferBody) (refAuto : string)
  : World -> Response JournalEntry * World :=
  withSession
    (match tf_date b with
     | None => abortTransaction ;;; return_ (mkResponse 400 None)
     | Some date =>
       if negb (Js.truthyStr (fromAccountCode b))
          || negb (Js.truthyStr (toAccountCode b))
       then abortTransaction ;;; return_ (mkResponse 400 None)
       else
       match tf_amount b with
       | None => abortTransaction ;;; return_ (mkResponse 400 None)
       | Some rawAmount =>
       if Qeq_bool rawAmount 0
       then abortTransaction ;;; return_ (mkResponse 400 None)
       else if String.eqb (fromAccountCode b) (toAccountCode b)
       then abortTransaction ;;; return_ (mkResponse 400 None)
       else
         match validAmount (tf_amount b) with
         | None => abortTransaction ;;; return_ (mkResponse 400 None)
         | Some amountNum =>
             accs <- dbRead true
               (fun s => filter (codeIn [fromAccountCode b; toAccountCode b])
                                (accounts s)) ;;
             if negb (List.length accs =? 2)%nat
             then abortTransaction ;;; return_ (mkResponse 400 None)
             else
               let fromAccount :=
                 find (fun a => String.eqb (code a) (fromAccountCode b)) accs in
               let toAccount :=
                 find (fun a => String.eqb (code a) (toAccountCode b)) accs in
               match fromAccount, toAccount with
               | Some fromAcc, Some toAcc =>
                 if negb (String.eqb (accountType fromAcc) "asset")
                    || negb (String.eqb (accountType toAcc) "asset")
                 then abortTransaction ;;; return_ (mkResponse 400 None)
                 else
                   let refNo := if Js.truthyStr (tf_reference b)
                                then tf_reference b else refAuto in
                   existingEntry <- dbRead true
                     (fun s => findOne (byReferenceNo refNo) (journalEntries s)) ;;
                   match existingEntry with
                   | Some _ => abortTransaction ;;; return_ (mkResponse 400 None)
                   | None =>
                       let ls := transferLines (toAccountCode b)
                                               (fromAccountCode b) amountNum in
                       if unbalanced ls
                       then abortTransaction ;;; return_ (mkResponse 400 None)
                       else
                         newId <- freshId ;;
                         let entry :=
                           mkJournalEntry newId refNo date "transfer" None
                             (Some "MANUAL") ls "posted" None in
                         dbWrite true (setJournalEntries (insertDoc entry)) ;;;
                         commitTransaction ;;;
                         return_ (mkResponse 201 (Some entry))
                   end
               | _, _ =>
                 (* [fromAccount.accountType] on [undefined] raises a TypeError *)
                 throw (Error "TypeError")
               end
         end
       end
     end)
    onDuplicate400.

Record AdjustingBody := mkAdjustingBody {
  adj_referenceNo : string;
  adj_date : option Date;
  adj_adjustedDate : option Date;
  adj_lines : option (list LineInput)
}.

(** [lines.map(line => ({ accountCode, debit, credit, description }))]:
    the adjusting handler keeps no partner on a line. *)
Definition toPlainLine (li : LineInput) : Line :=
  mkLine (li_accountCode li) (Js.toQ (Js.parseFloatOr0 (li_debit li)))
         (Js.toQ (Js.parseFloatOr0 (li_credit li))) None None.

(** [POST /api/accounting/adjusting-entry]. *)
Definition adjustingEntry (b : AdjustingBody) (refAuto : string)
  : World -> Response JournalEntry * World :=
  withSession
    (match adj_date b, adj_adjustedDate b, adj_lines b with
     | Some date, Some adjusted, Some ls =>
         if (List.length ls <? 2)%nat
         then abortTransaction ;;; return_ (mkResponse 400 None)
         else if inputUnbalanced ls
         then abortTransaction ;;; return_ (mkResponse 400 None)
         else
           let accountCodes := accountCodesOf ls in
           accs <- dbRead true
                     (fun s => filter (codeIn accountCodes) (accounts s)) ;;
           if negb (List.length accs =? List.length accountCodes)%nat
           then abortTransaction ;;; return_ (mkResponse 400 None)
           else
             let refNo := if Js.truthyStr (adj_referenceNo b)
                          then adj_referenceNo b else refAuto in
             existingEntry <- dbRead true
               (fun s => findOne (byReferenceNo refNo) (journalEntries s)) ;;
             match existingEntry with
             | Some _ => abortTransaction ;;; return_ (mkResponse 400 None)
             | None =>
                 newId <- freshId ;;
                 let entry :=
                   mkJournalEntry newId refNo date "adjusting" None
                     (Some "adjusting_entry") (map toPlainLine ls) "posted"
                     (Some adjusted) in
                 dbWrite true (setJournalEntries (insertDoc entry)) ;;;
                 commitTransaction ;;;
                 return_ (mkResponse 201 (Some entry))
             end
     | _, _, _ => abortTransaction ;;; return_ (mkResponse 400 None)
     end)
    onDuplicate400.

(* ================================================================== *)
(** ** Aggregation pipeline stages *)
(* ================================================================== *)

(** [{ status: 'posted', date: { $gte: from, $lte: to } }]; a bound that
    is absent is not part of the query. *)
Definition inRange (from to : option Date) (e : JournalEntry) : bool :=
  String.eqb (je_status e) "posted"
  && match from with Some f => (f <=? je_date e)%Z | None => true end
  && match to with Some t => (je_date e <=? t)%Z | None => true end.

(** [{ $unwind: '$lines' }]. *)
Definition unwindLines (es : list JournalEntry) : list Line :=
  flat_map lines es.

Section Group.
Variable V : Type.
Variable init : V.
Variable step : V -> Line -> V.

(** One document entering [{ $group: { _id: '$lines.accountCode', ... } }]:
    it joins the group of its account code, or opens one. *)
Fixpoint addToGroup (l : Line) (gs : list (string * V)) : list (string * V) :=
  match gs with
  | [] => [(accountCode l, step init l)]
  | (k, v) :: r =>
      if String.eqb k (accountCode l)
      then (k, step v l) :: r
      else (k, v) :: addToGroup l r
  end.

Definition groupByAccount (ls : list Line) : list (string * V) :=
  fold_left (fun gs l => addToGroup l gs) ls [].
End Group.

(** The regular expressions [/^5|^7/] and [/^6|^8/]. *)
Definition startsWithOneOf (c1 c2 : ascii) (s : string) : bool :=
  match s with
  | String c _ => Ascii.eqb c c1 || Ascii.eqb c c2
  | EmptyString => false
  end.

(* ================================================================== *)
(** ** Period closing ([POST /close-period]) *)
(* ================================================================== *)

Definition isWhitespace (c : ascii) : bool :=
  let n := nat_of_ascii c in
  ((9 <=? n) && (n <=? 13))%nat || (n =? 32)%nat.

(** [s.replace(/\s+/g, sep)]: each run of white space becomes one [sep]. *)
Fixpoint replaceWhitespace (sep : ascii) (inRun : bool) (s : string) : string :=
  match s with
  | EmptyString => EmptyString
  | String c r =>
      if isWhitespace c
      then if inRun then replaceWhitespace sep true r
           else String sep (replaceWhitespace sep true r)
      else String c (replaceWhitespace sep false r)
  end.

Definition dashWhitespace (s : string) : string :=
  replaceWhitespace "-" false s.

(** [`KC-DT-${periodName.replace(/\s+/g, '-')}-${stamp}`], [stamp] being
    the last six digits of [Date.now()]. *)
Definition closingRef (prefix name stamp : string) : string :=
  (prefix ++ dashWhitespace name ++ "-" ++ stamp)%string.

Definition revenueGroups (from to : Date) (s : Store) : list (string * Q) :=
  groupByAccount 0 (fun total l => total + credit l)
    (filter (fun l => startsWithOneOf "5" "7" (accountCode l)
                      && Js.gt (credit l) 0)
            (unwindLines (filter (inRange (Some from) (Some to))
                                 (journalEntries s)))).

Definition expenseGroups (from to : Date) (s : Store) : list (string * Q) :=
  groupByAccount 0 (fun total l => total + debit l)
    (filter (fun l => startsWithOneOf "6" "8" (accountCode l)
                      && Js.gt (debit l) 0)
            (unwindLines (filter (inRange (Some from) (Some to))
                                 (journalEntries s)))).

(** [let total = 0; groups.forEach(item => { total += item.total; ... })]. *)
Definition grandTotal (gs : list (string * Q)) : Q :=
  fold_left (fun total item => total + snd item) gs 0.

Definition revenueClosingLines (gs : list (string * Q)) : list Line :=
  map (fun item => mkLine (fst item) (snd item) 0 None None) gs
  ++ (if Js.gt (grandTotal gs) 0
      then [mkLine "911" 0 (grandTotal gs) None None] else []).

Definition expenseClosingLines (gs : list (string * Q)) : list Line :=
  map (fun item => mkLine (fst item) 0 (snd item) None None) gs
  ++ (if Js.gt (grandTotal gs) 0
      then [mkLine "911" (grandTotal gs) 0 None None] else []).

Definition profitClosingLines (netProfit : Q) : list Line :=
  if Js.gt netProfit 0 then
    [ mkLine "911" netProfit 0 None None;
      mkLine "421" 0 netProfit None None ]
  else if Js.lt netProfit 0 then
    [ mkLine "421" (Js.Math_abs netProfit) 0 None None;
      mkLine "911" 0 (Js.Math_abs netProfit) None None ]
  else [].

Record ClosingSummary := mkClosingSummary {
  cs_period : AccountingPeriod;
  totalRevenue : Q;
  totalExpense : Q;
  netProfit : Q;
  closingEntries : list JournalEntry
}.

Record ClosePeriodBody := mkClosePeriodBody {
  cp_periodId : string;
  cp_lockDate : option Date
}.

(** [if (ls.length > 0) { const e = new JournalEntry({...});
     await e.save({ session }); closingEntries.push(e); }]. *)
Definition saveClosingEntry {R} (refNo : string) (date : Date) (ls : list Line)
    (closing : list JournalEntry) : M R (list JournalEntry) :=
  if (0 <? List.length ls)%nat then
    newId <- freshId ;;
    let entry := mkJournalEntry newId refNo date "closing" None
                   (Some "period_closing") ls "posted" None in
    dbWrite true (setJournalEntries (insertDoc entry)) ;;;
    ret (closing ++ [entry])
  else ret closing.

Definition closeFields (lockDateObj today : Date) (userId : option ObjectId)
    (p : AccountingPeriod) : AccountingPeriod :=
  mkAccountingPeriod (per_id p) (periodName p) (startDate p) (endDate p)
    (Some lockDateObj) "closed" (Some today) userId.

(** [POST /api/accounting/close-period].  [stampDT], [stampCP], [stampLN]
    are the three readings of [Date.now().toString().slice(-6)]; [today]
    is [new Date()]; [userId] is [req.userId || null]. *)
Definition closePeriod (b : ClosePeriodBody) (userId : option ObjectId)
    (today : Date) (stampDT stampCP stampLN : string)
  : World -> Response ClosingSummary * World :=
  withSession
    (if negb (Js.truthyStr (cp_periodId b))
     then abortTransaction ;;; return_ (mkResponse 400 None)
     else
       found <- dbRead true
                  (fun s => findOne (byId per_id (cp_periodId b)) (periods s)) ;;
       match found with
       | None => abortTransaction ;;; return_ (mkResponse 404 None)
       | Some period =>
           if String.eqb (per_status period) "closed"
           then abortTransaction ;;; return_ (mkResponse 400 None)
           else
             let lockDateObj := Js.orElse (cp_lockDate b) (endDate period) in
             revenueEntries <- dbRead true
               (revenueGroups (startDate period) (endDate period)) ;;
             let totalRev := grandTotal revenueEntries in
             let revLines := revenueClosingLines revenueEntries in
             expenseEntries <- dbRead true
               (expenseGroups (startDate period) (endDate period)) ;;
             let totalExp := grandTotal expenseEntries in
             let expLines := expenseClosingLines expenseEntries in
             let net := totalRev - totalExp in
             let profitLines := profitClosingLines net in
             c1 <- saveClosingEntry
                     (closingRef "KC-DT-" (periodName period) stampDT)
                     (endDate period) revLines [] ;;
             c2 <- saveClosingEntry
                     (closingRef "KC-CP-" (periodName period) stampCP)
                     (endDate period) expLines c1 ;;
             c3 <- saveClosingEntry
                     (closingRef "KC-LN-" (periodName period) stampLN)
                     (endDate period) profitLines c2 ;;
             let period' := closeFields lockDateObj today userId period in
             dbWrite true
               (setPeriods (updateFirst (byId per_id (per_id period))
                                        (fun _ => period'))) ;;;
             commitTransaction ;;;
             return_ (mkResponse 200
                        (Some (mkClosingSummary period' totalRev totalExp net c3)))
       end)
    (fun _ => mkResponse 500 None).

(* ================================================================== *)
(** ** Monthly depreciation ([POST /depreciation/calculate]) *)
(* ================================================================== *)

Fixpoint lastChars (n : nat) (s : string) : string :=
  match s with
  | EmptyString => EmptyString
  | String c r =>
      if (String.length r <? n)%nat then String c (lastChars n r)
      else lastChars n r
  end.

(** [`DEP-${targetMonth}-${asset.assetCode || asset._id.toString().slice(-6)}`]. *)
Definition depreciationRef (targetMonth : string) (asset : FixedAsset) : string :=
  ("DEP-" ++ targetMonth ++ "-"
   ++ (if Js.truthyStr (assetCode asset) then assetCode asset
       else lastChars 6 (fa_id asset)))%string.

(** [asset.monthlyDepreciation || (asset.originalCost / asset.usefulLife)]. *)
Definition straightLine (asset : FixedAsset) : Q :=
  Js.numOr (monthlyDepreciation asset)
           (originalCost asset / inject_Z (Zpos (usefulLife asset))).

Definition depreciationAmountOf (asset : FixedAsset) : Q :=
  Js.Math_min (straightLine asset)
              (originalCost asset - accumulatedDepreciation asset).

Definition depreciationLines (amount : Q) : list Line :=
  [ mkLine "642" amount 0 None None;
    mkLine "214" 0 amount None None ].

(** The three assignments to the loaded asset document. *)
Definition depreciate (targetMonth : string) (amount : Q) (entryId : ObjectId)
    (asset : FixedAsset) : FixedAsset :=
  let accumulated := accumulatedDepreciation asset + amount in
  mkFixedAsset (fa_id asset) (assetCode asset) (originalCost asset)
    (usefulLife asset) (monthlyDepreciation asset)
    accumulated
    (originalCost asset - accumulated)
    (depreciationHistory asset
       ++ [mkDepreciationRow targetMonth amount entryId])
    (fa_status asset).

Record DepreciationResult := mkDepreciationResult {
  dr_asset : ObjectId;
  depreciationAmount : Q;
  dr_accumulatedDepreciation : Q;
  dr_bookValue : Q;
  dr_journalEntry : ObjectId
}.

Definition alreadyDepreciated (targetMonth : string) (asset : FixedAsset) : bool :=
  existsb (fun dep => String.eqb (dep_month dep) targetMonth)
          (depreciationHistory asset).

(** One turn of the loop over the active assets; the accumulator is
    [results].  [monthStart] is [new Date(`${targetMonth}-01`)]. *)
Definition depreciateAsset {R} (targetMonth : string) (monthStart : Date)
    (asset : FixedAsset) (results : list DepreciationResult)
  : M R (list DepreciationResult) :=
  if alreadyDepreciated targetMonth asset then ret results
  else if Js.ge (accumulatedDepreciation asset) (originalCost asset)
  then ret results
  else
    let amount := depreciationAmountOf asset in
    if Js.le amount 0 then ret results
    else
      let refNo := depreciationRef targetMonth asset in
      existingEntry <- dbRead true
        (fun s => findOne (byReferenceNo refNo) (journalEntries s)) ;;
      match existingEntry with
      | Some _ => ret results
      | None =>
          newId <- freshId ;;
          let entry :=
            mkJournalEntry newId refNo monthStart "depreciation"
              (Some (fa_id asset)) (Some "depreciation")
              (depreciationLines amount) "posted" None in
          dbWrite true (setJournalEntries (insertDoc entry)) ;;;
          let asset' := depreciate targetMonth amount newId asset in
          dbWrite true
            (setFixedAssets (updateFirst (byId fa_id (fa_id asset))
                                         (fun _ => asset'))) ;;;
          ret (results
               ++ [mkDepreciationResult (fa_id asset) amount
                     (accumulatedDepreciation asset') (bookValue asset')
                     newId])
      end.

(** [POST /api/accounting/depreciation/calculate].  [month] is the body's
    field, [currentMonth] the runtime's [YYYY-MM] used when it is absent. *)
Definition depreciationCalculate (month : string) (currentMonth : string)
    (monthStart : Date)
  : World -> Response (list DepreciationResult) * World :=
  withSession
    (let targetMonth := if Js.truthyStr month then month else currentMonth in
     activeAssets <- dbRead true
       (fun s => filter (fun a => String.eqb (fa_status a) "active")
                        (fixedAssets s)) ;;
     results <- forOf activeAssets (depreciateAsset targetMonth monthStart) [] ;;
     commitTransaction ;;;
     return_ (mkResponse 200 (Some results)))
    (fun _ => mkResponse 500 None).

(* ================================================================== *)
(** ** Trial balance ([GET /trial-balance]) *)
(* ================================================================== *)








(* ================================================================== *)
(** ** Sale posting ([services/accountingService.js]) *)
(* ================================================================== *)

(** [['BankTransfer', 'Sepay', 'MoMo'].includes(order.paymentMethod)]. *)
Definition isBankTransfer (m : PaymentMethod) : bool :=
  match m with
  | BankTransfer | Sepay | MoMo => true
  | COD => false
  end.

Definition isCOD (m : PaymentMethod) : bool :=
  match m with
  | COD => true
  | _ => false
  end.

(** [['shipped', 'delivered'].includes(order.status)]. *)
Definition shippedOrDelivered (st : OrderStatus) : bool :=
  match st with
  | shipped | delivered => true
  | _ => false
  end.

Definition customerTag (order : Order) : option string :=
  match user order with
  | Some _ => Some "customer"
  | None => None
  end.

(** The two lines every branch of the sale posting builds: debit
    [debitCode], credit revenue (511), both for [order.finalTotal]. *)
Definition saleLines (debitCode : string) (order : Order) : list Line :=
  [ mkLine debitCode (finalTotal order) 0 (user order) (customerTag order);
    mkLine "511" 0 (finalTotal order) (user order) (customerTag order) ].

(** The date the due date is counted from for a cash-on-delivery order:
    [order.updatedAt || order.createdAt || new Date()], which is the
    creation date of the order when it has one. *)
Definition shippedDate (order : Order) (now : Date) : Date :=
  Js.orElse (updatedAt order) (Js.orElse (createdAt order) now).

Definition codGraceDays : Z := 7%Z.
Definition creditGraceDays : Z := 30%Z.

Definition receivableDueDate (order : Order) (now : Date) : Date :=
  if isCOD (paymentMethod order)
  then addDays (shippedDate order now) codGraceDays
  else addDays (Js.orElse (createdAt order) now) creditGraceDays.

Definition forOrder (orderId : ObjectId) (r : Receivable) : bool :=
  optEqb (rcv_order r) orderId.

(** [createReceivableFromOrder(order, journalEntry)]; its [catch] only
    logs and rethrows. *)
Definition createReceivableFromOrder (order : Order) (entry : JournalEntry)
    (now : Date) : M Receivable Receivable :=
  existingReceivable <- dbRead false
    (fun s => findOne (forOrder (ord_id order)) (receivables s)) ;;
  match existingReceivable with
  | Some r => return_ r
  | None =>
      let dueDate := receivableDueDate order now in
      newId <- freshId ;;
      let receivable :=
        mkReceivable newId (je_id entry) (user order) (Some (ord_id order))
          (finalTotal order) (finalTotal order) "unpaid" dueDate
          (Js.orElse (createdAt order) now) in
      dbWrite false (setReceivables (insertDoc receivable)) ;;;
      return_ receivable
  end.

(** The query [{ sourceId: order._id, sourceType: 'order' }]. *)
Definition isEntryOfOrder (orderId : ObjectId) (e : JournalEntry) : bool :=
  optEqb (sourceId e) orderId && optEqb (sourceType e) "order".

Definition hasUser (order : Order) : bool :=
  match user order with
  | Some _ => true
  | None => false
  end.

(** [createSaleJournalEntry(order, userId)].  No session is opened or
    passed anywhere in this function.  [refSuffix] is the runtime's
    [`${year}${month}-${randomStr}`]. *)
Definition createSaleJournalEntry (order : Order) (refSuffix : string)
    (now : Date) : M (option JournalEntry) (option JournalEntry) :=
  let bankTransfer := isBankTransfer (paymentMethod order) in
  let cod := isCOD (paymentMethod order) in
  let refNo := ("HD-" ++ refSuffix)%string in
  existingEntry <- dbRead false
    (fun s => findOne (isEntryOfOrder (ord_id order)) (journalEntries s)) ;;
  match existingEntry with
  | Some e => return_ (Some e)
  | None =>
      if cod && negb (shippedOrDelivered (ord_status order))
      then return_ None
      else
        let linesAndCredit :=
          if cod && shippedOrDelivered (ord_status order)
          then (saleLines "131" order, true)
          else if bankTransfer
          then (saleLines "1121" order, false)
          else (saleLines "131" order, false) in
        let ls := fst linesAndCredit in
        let isCredit := snd linesAndCredit in
        newId <- freshId ;;
        let entry :=
          mkJournalEntry newId refNo (Js.orElse (createdAt order) now) "sale"
            (Some (ord_id order)) (Some "order") ls "posted" None in
        dbWrite false (setJournalEntries (insertDoc entry)) ;;;
        when_ (isCredit && hasUser order)
          (call (createReceivableFromOrder order entry now) ;;; ret tt) ;;;
        return_ (Some entry)
  end.

(* ================================================================== *)
(** ** Manual transactions ([/transactions]) *)
(* ================================================================== *)

Record TransactionBody := mkTransactionBody {
  tb_type : string;
  (** [amount] as sent, and the number [parseFloat] reads in it
      ([None]: [NaN]). *)
  tb_amountSent : Js.value;
  tb_amount : option Q;
  tb_description : string;
  tb_category : string;
  tb_date : option Date;
  tb_reference : string;
  tb_paymentStatus : string
}.

Fixpoint takeUntil (c : ascii) (s : string) : string :=
  match s with
  | EmptyString => EmptyString
  | String x r => if Ascii.eqb x c then EmptyString else String x (takeUntil c r)
  end.

Fixpoint trimStart (s : string) : string :=
  match s with
  | EmptyString => EmptyString
  | String x r => if isWhitespace x then trimStart r else s
  end.

Fixpoint revString (s acc : string) : string :=
  match s with
  | EmptyString => acc
  | String x r => revString r (String x acc)
  end.

Definition trim (s : string) : string :=
  revString (trimStart (revString (trimStart s) EmptyString)) EmptyString.

(** [description.split('-')[0]?.trim() || description.split(' ')[0] || dflt]. *)
Definition partyNameOf (description dflt : string) : string :=
  let byDash := trim (takeUntil "-" description) in
  if Js.truthyStr byDash then byDash
  else let bySpace := takeUntil " " description in
       if Js.truthyStr bySpace then bySpace else dflt.

Definition roleIs (r : string) (u : User) : bool := String.eqb (role u) r.

Definition activeOfType (t : string) (a : Account) : bool :=
  String.eqb (accountType a) t && String.eqb (acc_status a) "active".

Definition isActive (a : Account) : bool := String.eqb (acc_status a) "active".

Definition byCode (c : string) (a : Account) : bool := String.eqb (code a) c.

(** [await Account.findOne(q1) || await Account.findOne(q2)], read
    without a session. *)
Definition findAccountOr {R} (q1 q2 : Account -> bool) : M R (option Account) :=
  a <- dbRead false (fun s => findOne q1 (accounts s)) ;;
  match a with
  | Some _ => ret a
  | None => dbRead false (fun s => findOne q2 (accounts s))
  end.

(** The default counterparty of a manual unpaid transaction: the first
    user of the role, or a new one. *)
Definition defaultParty {R} (roleName mailPrefix dflt : string)
    (b : TransactionBody) (stamp : string) : M R User :=
  found <- dbRead false (fun s => findOne (roleIs roleName) (users s)) ;;
  match found with
  | Some u => ret u
  | None =>
      newId <- freshId ;;
      let u := mkUser newId (partyNameOf (tb_description b) dflt)
                 (mailPrefix ++ stamp ++ "@temp.com")%string
                 (Some (tb_reference b)) roleName in
      dbWrite false (setUsers (insertDoc u)) ;;;
      ret u
  end.

Definition txnRef (b : TransactionBody) (transactionId : ObjectId) : string :=
  if Js.truthyStr (tb_reference b) then tb_reference b
  else ("TXN-" ++ lastChars 6 transactionId)%string.

(** [new JournalEntry({...}); await journalEntry.save()] of the debt
    block: no session. *)
Definition saveTxnEntry {R} (b : TransactionBody) (date : Date)
    (transactionId : ObjectId) (kind : string) (ls : list Line)
  : M R (option JournalEntry) :=
  newId <- freshId ;;
  let entry := mkJournalEntry newId (txnRef b transactionId) date kind
                 (Some transactionId) (Some "transaction") ls "posted" None in
  dbWrite false (setJournalEntries (insertDoc entry)) ;;;
  ret (Some entry).

Definition thirtyDaysMs : Z := (30 * 24 * 60 * 60 * 1000)%Z.

(** The body of [if (paymentStatus === 'unpaid') { try { ... } }]. *)
Definition createDebt {R} (b : TransactionBody) (amount : Q) (date : Date)
    (transactionId : ObjectId) (stamp : string) (now : Date) : M R unit :=
  let income := String.eqb (tb_type b) "income" in
  party <- (if income
            then defaultParty "customer" "customer-" "Khach hang" b stamp
            else defaultParty "supplier" "supplier-" "Nha cung cap" b stamp) ;;
  debtAccount <- (if income
                  then findAccountOr (byCode "131") (activeOfType "asset")
                  else findAccountOr (byCode "331") (activeOfType "liability")) ;;
  counterpartAccount <-
    (if income
     then findAccountOr (byCode "511") (activeOfType "revenue")
     else findAccountOr (byCode "632") (activeOfType "expense")) ;;
  journalEntry1 <-
    match debtAccount, counterpartAccount with
    | Some da, Some ca =>
        saveTxnEntry b date transactionId
          (if income then "receipt" else "payment")
          [ mkLine (code da) (if income then amount else 0)
                   (if income then 0 else amount) None None;
            mkLine (code ca) (if income then 0 else amount)
                   (if income then amount else 0) None None ]
    | _, _ => ret None
    end ;;
  if income then
    journalEntry2 <-
      match journalEntry1 with
      | Some _ => ret journalEntry1
      | None =>
          account1 <- dbRead false
            (fun s => findOne (activeOfType "asset") (accounts s)) ;;
          a2 <- findAccountOr (activeOfType "revenue") (activeOfType "equity") ;;
          account2 <- match a2 with
                      | Some _ => ret a2
                      | None => dbRead false
                                  (fun s => findOne isActive (accounts s))
                      end ;;
          match account1, account2 with
          | Some x1, Some x2 =>
              if negb (String.eqb (code x1) (code x2))
              then saveTxnEntry b date transactionId "receipt"
                     [ mkLine (code x1) amount 0 None None;
                       mkLine (code x2) 0 amount None None ]
              else ret None
          | _, _ => ret None
          end
      end ;;
    match journalEntry2 with
    | Some entry =>
        newId <- freshId ;;
        dbWrite false
          (setReceivables
             (insertDoc (mkReceivable newId (je_id entry) (Some (usr_id party))
                           None amount amount "unpaid"
                           (now + thirtyDaysMs)%Z date)))
    | None => ret tt
    end
  else
    journalEntry2 <-
      match journalEntry1 with
      | Some _ => ret journalEntry1
      | None =>
          account1 <- dbRead false
            (fun s => findOne (activeOfType "liability") (accounts s)) ;;
          a2 <- findAccountOr (activeOfType "expense") (activeOfType "asset") ;;
          account2 <- match a2 with
                      | Some _ => ret a2
                      | None => dbRead false
                                  (fun s => findOne isActive (accounts s))
                      end ;;
          match account1, account2 with
          | Some x1, Some x2 =>
              if negb (String.eqb (code x1) (code x2))
              then saveTxnEntry b date transactionId "payment"
                     [ mkLine (code x1) 0 amount None None;
                       mkLine (code x2) amount 0 None None ]
              else ret None
          | _, _ => ret None
          end
      end ;;
    match journalEntry2 with
    | Some entry =>
        newId <- freshId ;;
        dbWrite false
          (setPayables
             (insertDoc (mkPayable newId (je_id entry) (usr_id party) "expense"
                           amount amount "unpaid"
                           (now + thirtyDaysMs)%Z date)))
    | None => ret tt
    end.

(** [POST /api/accounting/transactions].  The debt block sits in its own
    [try]; its [catch] logs and goes on, so that the transaction document
    stays ("Khong throw error, chi log de transaction van duoc tao"). *)
Definition postTransaction (b : TransactionBody) (stamp : string) (now : Date)
  : World -> Response Transaction * World :=
  withoutSession
    (match tb_date b with
     | Some date =>
         if negb (Js.truthyStr (tb_type b))
            || negb (Js.truthy (tb_amountSent b))
            || negb (Js.truthyStr (tb_description b))
            || negb (Js.truthyStr (tb_category b))
         then return_ (mkResponse 400 None)
         else if negb (String.eqb (tb_type b) "income"
                       || String.eqb (tb_type b) "expense")
         then return_ (mkResponse 400 None)
         else
           match tb_amount b with
           | None =>
               (* [NaN <= 0] is false; the schema cannot cast [NaN] to a
                  Number and [save] rejects the document *)
               _ <- freshId ;;
               throw (Error "ValidationError")
           | Some amount =>
               if Js.le amount 0
               then return_ (mkResponse 400 None)
               else
                 newId <- freshId ;;
                 let transaction :=
                   mkTransaction newId (tb_type b) amount (tb_category b) date
                     (tb_reference b)
                     (if Js.truthyStr (tb_paymentStatus b)
                      then tb_paymentStatus b else "paid") in
                 dbWrite false (setTransactions (insertDoc transaction)) ;;;
                 when_ (String.eqb (tb_paymentStatus b) "unpaid")
                   (tryCatch (createDebt b amount date newId stamp now)
                             (fun _ => ret tt)) ;;;
                 return_ (mkResponse 201 (Some transaction))
           end
     | None => return_ (mkResponse 400 None)
     end)
    (fun _ => mkResponse 500 None).

Record TransactionPatch := mkTransactionPatch {
  tp_type : string;
  tp_amount : option Q;
  tp_category : string;
  tp_date : option Date;
  tp_reference : option string;
  tp_paymentStatus : string
}.

Definition patchTransaction (p : TransactionPatch) (t : Transaction) : Transaction :=
  mkTransaction (txn_id t)
    (if Js.truthyStr (tp_type p) then tp_type p else txn_type t)
    (Js.orElse (tp_amount p) (txn_amount t))
    (if Js.truthyStr (tp_category p) then tp_category p else txn_category t)
    (Js.orElse (tp_date p) (txn_date t))
    (Js.orElse (tp_reference p) (txn_reference t))
    (if Js.truthyStr (tp_paymentStatus p)
     then tp_paymentStatus p else txn_paymentStatus t).

(** [PUT /api/accounting/transactions/:id]: no lock-date guard is
    called. *)
Definition putTransaction (id : ObjectId) (p : TransactionPatch)
  : World -> Response Transaction * World :=
  withoutSession
    (found <- dbRead false
                (fun s => findOne (byId txn_id id) (transactions s)) ;;
     match found with
     | None => return_ (mkResponse 404 None)
     | Some transaction =>
         if Js.truthyStr (tp_type p)
            && negb (String.eqb (tp_type p) "income"
                     || String.eqb (tp_type p) "expense")
         then return_ (mkResponse 400 None)
         else
           match tp_amount p with
           | Some a =>
               if Js.le a 0 then return_ (mkResponse 400 None)
               else
                 let t' := patchTransaction p transaction in
                 dbWrite false
                   (setTransactions
                      (updateFirst (byId txn_id id) (fun _ => t'))) ;;;
                 return_ (mkResponse 200 (Some t'))
           | None =>
               let t' := patchTransaction p transaction in
               dbWrite false
                 (setTransactions
                    (updateFirst (byId txn_id id) (fun _ => t'))) ;;;
               return_ (mkResponse 200 (Some t'))
           end
     end)
    (fun _ => mkResponse 500 None).

(* ================================================================== *)
(** ** Partner resolution for rule-driven posting *)
(* ================================================================== *)

Definition toLowerAscii (c : ascii) : ascii :=
  let n := nat_of_ascii c in
  if ((65 <=? n) && (n <=? 90))%nat then ascii_of_nat (n + 32) else c.

Fixpoint toLowerCase (s : string) : string :=
  match s with
  | EmptyString => EmptyString
  | String c r => String (toLowerAscii c) (toLowerCase r)
  end.

Definition roleOf (type : string) : string :=
  if String.eqb type "income" then "customer" else "supplier".

Definition byEmailAndRole (mail r : string) (u : User) : bool :=
  String.eqb (email u) mail && String.eqb (role u) r.

(** [findOrCreateDefaultPartner(type, session)]. *)
Definition findOrCreateDefaultPartner (type : string) (session : bool)
  : M User User :=
  let income := String.eqb type "income" in
  let defaultName :=
    if income then "Partner_Default_Customer" else "Partner_Default_Supplier" in
  let defaultEmail :=
    if income then "partner.default.customer@partner.local"
    else "partner.default.supplier@partner.local" in
  let r := roleOf type in
  found <- dbRead session
             (fun s => findOne (byEmailAndRole defaultEmail r) (users s)) ;;
  match found with
  | Some u => return_ u
  | None =>
      let defaultPhone := if income then "0900000000" else "0900000001" in
      newId <- freshId ;;
      let u := mkUser newId defaultName defaultEmail (Some defaultPhone) r in
      tryCatch
        (dbWrite session (setUsers (insertDoc u)) ;;; return_ u)
        (fun error =>
           if isDuplicate error || includes "duplicate" (message error)
           then
             again <- dbRead session
               (fun s => findOne (byEmailAndRole defaultEmail r) (users s)) ;;
             match again with
             | Some u' => return_ u'
             | None => throw (Error "Khong the tao hoac tim doi tac mac dinh")
             end
           else throw error)
  end.

(** [partnerPhone && typeof partnerPhone === 'string' &&
     partnerPhone.trim() && partnerPhone.trim().length > 0], giving the
    trimmed phone. *)
Definition phoneFromForm (partnerPhone : option string) : option string :=
  match partnerPhone with
  | Some p => if Js.truthyStr (trim p) then Some (trim p) else None
  | None => None
  end.

Definition emailLocal (trimmedName : string) : string :=
  replaceWhitespace "." false (toLowerCase trimmedName).

Definition timestampedEmail (trimmedName stamp : string) : string :=
  (emailLocal trimmedName ++ "-" ++ stamp ++ "@partner.local")%string.

(** The test of the retry loop's [catch]. *)
Definition isDupish (e : Exn) : bool :=
  isDuplicate e
  || includes "duplicate" (message e)
  || includes "email" (message e)
  || includes "phone" (message e).

Definition maxRetries : nat := 5.

Definition setPhone (p : string) (u : User) : User :=
  mkUser (usr_id u) (usr_name u) (email u) (Some p) (role u).

Definition phoneIs (p : string) (u : User) : bool := optEqb (phone u) p.

(** [{ name: { $regex: new RegExp(`^${trimmedName}$`, 'i') }, role }],
    [test] being what the pattern matches. *)
Definition byNameAndRole (test : string -> bool) (r : string) (u : User) : bool :=
  test (usr_name u) && String.eqb (role u) r.

(** What the pattern matches when the name holds no character that is
    special in a regular expression: the names equal to it without
    regard to letter case. *)
Definition plainPattern (trimmedName : string) : string -> bool :=
  fun name => String.eqb (toLowerCase name) (toLowerCase trimmedName).

(** Reading [partner.phone] of a document [findById] did not find. *)
Definition nullPhoneError : Exn :=
  Error "Cannot read properties of null (reading 'phone')".

Definition nullIdError : Exn :=
  Error "Cannot read properties of null (reading '_id')".

(** How one turn of the retry loop ends: [break] with the [partner]
    variable, or another turn with a new [email]. *)
Inductive LoopStep :=
| Break (partnerVar : option User)
| Continue (newEmail : string) (partnerVar : option User).

Section FindOrCreatePartner.
Variable trimmedName : string.
Variable partnerPhone : option string.
Variable type : string.
Variable session : bool.
(** [stampAt n]: the reading of [Date.now()] in turn [n]. *)
Variable stampAt : nat -> string.
(** What [new RegExp(`^${trimmedName}$`, 'i')] gives: the names the
    pattern matches, or [None] when the name, put into the pattern as it
    is, makes no regular expression and the constructor raises. *)
Variable nameRegExp : option (string -> bool).

(** The [catch] of the retry loop; [partnerVar] is the [partner]
    variable when the exception was raised. *)
Definition onRetryCatch {A} (retryCount : nat) (partnerVar : option User)
    (error : Exn) : M LoopStep A :=
  if isDupish error then
    if (maxRetries <=? S retryCount)%nat then
      p <- call (findOrCreateDefaultPartner type session) ;;
      return_ (Break (Some p))
    else
      return_ (Continue (timestampedEmail trimmedName (stampAt retryCount))
                        partnerVar)
  else throw error.

(** From "Kiem tra xem email da ton tai chua" to the end of the [try]. *)
Definition retryWithPhone (retryCount : nat) (mail : string)
    (partnerVar : option User) (finalPhone : string)
  : M LoopStep LoopStep :=
  existingUser <- dbRead session
    (fun s => findOne (fun u => String.eqb (email u) mail) (users s)) ;;
  match existingUser with
  | Some u =>
      if String.eqb (role u) (roleOf type) then
        match phoneFromForm partnerPhone with
        | Some trimmedPhone =>
            if negb (phoneIs trimmedPhone u) then
              tryCatch
                (dbWrite session
                   (setUsers (updateFirst (byId usr_id (usr_id u))
                                          (fun _ => setPhone trimmedPhone u))))
                (fun e => onRetryCatch retryCount
                            (Some (setPhone trimmedPhone u)) e)
            else ret tt
        | None => ret tt
        end ;;;
        reloaded <- dbRead session
          (fun s => findOne (byId usr_id (usr_id u)) (users s)) ;;
        match reloaded with
        | Some p => return_ (Break (Some p))
        | None => onRetryCatch retryCount None nullPhoneError
        end
      else
        return_ (Continue (timestampedEmail trimmedName (stampAt retryCount))
                          partnerVar)
  | None =>
      newId <- freshId ;;
      let p := mkUser newId trimmedName mail (Some finalPhone) (roleOf type) in
      tryCatch
        (dbWrite session (setUsers (insertDoc p)))
        (fun e => onRetryCatch retryCount (Some p) e) ;;;
      reloaded <- dbRead session
        (fun s => findOne (byId usr_id newId) (users s)) ;;
      match reloaded with
      | Some p' => return_ (Break (Some p'))
      | None => onRetryCatch retryCount None nullPhoneError
      end
  end.

(** One turn of [while (retryCount < maxRetries) { try { ... } catch
    { ... } }]. *)
Definition retryTurn (retryCount : nat) (mail : string)
    (partnerVar : option User) : M LoopStep LoopStep :=
  match phoneFromForm partnerPhone with
  | Some trimmedPhone =>
      existingPhoneUser <- dbRead session
        (fun s => findOne (phoneIs trimmedPhone) (users s)) ;;
      match existingPhoneUser with
      | Some u =>
          if String.eqb (role u) (roleOf type)
          then return_ (Break (Some u))
          else return_ (Continue
                          (timestampedEmail trimmedName (stampAt retryCount))
                          partnerVar)
      | None => retryWithPhone retryCount mail partnerVar trimmedPhone
      end
  | None => retryWithPhone retryCount mail partnerVar "0987654321"
  end.

(** The loop; [fuel] is [maxRetries - retryCount], which every turn
    that does not [break] decreases. *)
Fixpoint retryLoop {R} (fuel retryCount : nat) (mail : string)
    (partnerVar : option User) : M R (option User) :=
  match fuel with
  | O => ret partnerVar
  | S fuel' =>
      step <- call (retryTurn retryCount mail partnerVar) ;;
      match step with
      | Break p => ret p
      | Continue mail' p => retryLoop fuel' (S retryCount) mail' p
      end
  end.

(** [findOrCreatePartner(partnerName, partnerPhone, type, session)],
    [trimmedName] being [partnerName.trim()]. *)
Definition findOrCreatePartner : M User User :=
  if negb (Js.truthyStr trimmedName)
  then throw (Error "Ten doi tac khong duoc de trong")
  else
    match nameRegExp with
    | None => throw (Error "SyntaxError: Invalid regular expression")
    | Some test =>
    byName <- dbRead session
      (fun s => findOne (byNameAndRole test (roleOf type)) (users s)) ;;
    match byName with
    | Some u =>
        match phoneFromForm partnerPhone with
        | Some trimmedPhone =>
            if negb (phoneIs trimmedPhone u) then
              dbWrite session
                (setUsers (updateFirst (byId usr_id (usr_id u))
                                       (fun _ => setPhone trimmedPhone u)))
            else ret tt
        | None => ret tt
        end ;;;
        reloaded <- dbRead session
          (fun s => findOne (byId usr_id (usr_id u)) (users s)) ;;
        match reloaded with
        | Some p => return_ p
        | None => throw nullPhoneError
        end
    | None =>
        let emailBase := (emailLocal trimmedName ++ "@partner.local")%string in
        partnerVar <- retryLoop maxRetries 0 emailBase None ;;
        match partnerVar with
        | Some p => return_ p
        | None => p <- call (findOrCreateDefaultPartner type session) ;;
                  return_ p
        end
    end
    end.
End FindOrCreatePartner.

(* ================================================================== *)
(** ** Rule-driven posting ([POST /post-entry]) *)
(* ================================================================== *)

Record PostEntryBody := mkPostEntryBody {
  pe_amount : option Q;
  pe_category : string;
  pe_description : string;
  pe_date : option Date;
  pe_reference : string;
  pe_paymentStatus : string;
  pe_type : string;
  (** [partnerName], [partnerPhone] and [dueDate] as sent: the handler
      puts no type on them. *)
  pe_partnerName : Js.value;
  pe_partnerPhone : Js.value;
  pe_dueDate : Js.value;
  (** What [new Date(dueDate)] makes of it ([None]: Invalid Date). *)
  pe_dueDateParsed : option Date;
  (** What the regular expression built from the trimmed partner name
      matches ([None]: the name makes no regular expression). *)
  pe_partnerRegExp : option (string -> bool);
  pe_journalEntryId : string
}.

(** One row of [categoryMapping]: the income account, the expense
    account, and the payroll marker. *)
Record CategoryRow := mkCategoryRow {
  cr_income : option string;
  cr_expense : option string;
  isSalary : bool
}.

Definition catKhac : CategoryRow := mkCategoryRow None (Some "811") false.

(** The names every object literal inherits from [Object.prototype]. *)
Definition inheritedKeys : list string :=
  [ "constructor"; "hasOwnProperty"; "isPrototypeOf"; "propertyIsEnumerable";
    "toLocaleString"; "toString"; "valueOf"; "__proto__";
    "__defineGetter__"; "__defineSetter__"; "__lookupGetter__";
    "__lookupSetter__" ].

(** [categoryMapping[category] || categoryMapping['Khác']].  The object
    literal names the key ['Khác'] twice; the later value stands.  Under
    an inherited name the lookup finds the inherited member, which is
    truthy and has neither [income] nor [expense] nor [isSalary]. *)
Definition categoryMapping (category : string) : CategoryRow :=
  if String.eqb category "Bán hàng" then mkCategoryRow (Some "511") None false
  else if String.eqb category "Dịch vụ" then mkCategoryRow (Some "511") None false
  else if String.eqb category "Đầu tư" then mkCategoryRow (Some "711") None false
  else if String.eqb category "Nguyên vật liệu"
       then mkCategoryRow None (Some "156") false
  else if String.eqb category "Lương nhân viên"
       then mkCategoryRow None (Some "642") true
  else if String.eqb category "Marketing" then mkCategoryRow None (Some "641") false
  else if String.eqb category "Vận chuyển" then mkCategoryRow None (Some "642") false
  else if String.eqb category "Điện nước" then mkCategoryRow None (Some "642") false
  else if String.eqb category "Thuê mặt bằng"
       then mkCategoryRow None (Some "642") false
  else if String.eqb category "Bảo trì" then mkCategoryRow None (Some "642") false
  else if existsb (String.eqb category) inheritedKeys
       then mkCategoryRow None None false
  else catKhac.

Definition creditAccountCodeOf (type category paymentStatus mapped : string)
  : string :=
  if String.eqb type "income" then
    if String.eqb paymentStatus "paid" then
      if String.eqb category "Bán hàng" || String.eqb category "Dịch vụ"
      then "3387" else mapped
    else mapped
  else
    if isSalary (categoryMapping category)
       && String.eqb category "Lương nhân viên"
    then "334"
    else if String.eqb paymentStatus "paid" then "1121"
    else "331".

Definition debitAccountCodeOf (type paymentStatus mapped : string) : string :=
  if String.eqb type "income" then
    if String.eqb paymentStatus "paid" then "1121" else "131"
  else mapped.

Definition isDebtOf (type paymentStatus creditCode : string) : bool :=
  if String.eqb type "income" then negb (String.eqb paymentStatus "paid")
  else String.eqb paymentStatus "unpaid" && String.eqb creditCode "331".

(** [accountCodeDefinitions]: name, type, level and parent of the codes
    the handler may create. *)
Definition accountCodeDefinitions (c : string)
  : option (string * string * nat * option string) :=
  if String.eqb c "111" then Some ("Tien mat", "asset", 1%nat, None)
  else if String.eqb c "1121"
       then Some ("Tien gui ngan hang", "asset", 2%nat, Some "112")
  else if String.eqb c "131" then Some ("Phai thu khach hang", "asset", 1%nat, None)
  else if String.eqb c "156" then Some ("Hang hoa", "asset", 1%nat, None)
  else if String.eqb c "331"
       then Some ("Phai tra nguoi ban", "liability", 1%nat, None)
  else if String.eqb c "334"
       then Some ("Phai tra nguoi lao dong", "liability", 1%nat, None)
  else if String.eqb c "3387"
       then Some ("Doanh thu chua thuc hien", "liability", 1%nat, None)
  else if String.eqb c "511" then Some ("Doanh thu ban hang", "revenue", 1%nat, None)
  else if String.eqb c "641" then Some ("Chi phi ban hang", "expense", 1%nat, None)
  else if String.eqb c "642"
       then Some ("Chi phi quan ly doanh nghiep", "expense", 1%nat, None)
  else if String.eqb c "711" then Some ("Thu nhap khac", "revenue", 1%nat, None)
  else if String.eqb c "811" then Some ("Chi phi khac", "expense", 1%nat, None)
  else None.

(** [ensureAccountExists(code, name, accountType, ..., level, parentCode)]. *)
Definition ensureAccountExists (c name type : string) (lvl : nat)
    (parent : option string) : M Account Account :=
  found <- dbRead true (fun s => findOne (byCode c) (accounts s)) ;;
  match found with
  | Some a => return_ a
  | None =>
      newId <- freshId ;;
      let a := mkAccount newId c name type lvl parent "active" in
      dbWrite true (setAccounts (insertDoc a)) ;;;
      return_ a
  end.

(** The body of [for (const code of accountCodesToCheck)]. *)
Definition checkAccount {P} (c : string) (accs : list Account)
  : M (Response P) (list Account) :=
  found <- dbRead true (fun s => findOne (byCode c) (accounts s)) ;;
  match found with
  | Some a => ret (accs ++ [a])
  | None =>
      match accountCodeDefinitions c with
      | Some (name, type, lvl, parent) =>
          a <- call (ensureAccountExists c name type lvl parent) ;;
          ret (accs ++ [a])
      | None => abortTransaction ;;; return_ (mkResponse 400 None)
      end
  end.

Fixpoint allDigits (s : string) : bool :=
  match s with
  | EmptyString => true
  | String c r =>
      let n := nat_of_ascii c in
      ((48 <=? n) && (n <=? 57))%nat && allDigits r
  end.

(** [/^[0-9]{10,11}$/.test(s)]. *)
Definition phoneRegexTest (s : string) : bool :=
  allDigits s
  && (10 <=? String.length s)%nat && (String.length s <=? 11)%nat.

(** [!v || (typeof v === 'string' && !v.trim())]; a string that is
    empty is blank too. *)
Definition missingOrBlank (v : Js.value) : bool :=
  match v with
  | Js.str s => negb (Js.truthyStr (trim s))
  | Js.other t _ => negb t
  end.

(** [v && typeof v === 'string' && v.trim() && v.length > 0]. *)
Definition nonBlankString (v : Js.value) : bool :=
  match v with
  | Js.str s => Js.truthyStr (trim s)
  | Js.other _ _ => false
  end.

Definition postEntryLines (type debitCode creditCode : string) (amountNum : Q)
  : list Line :=
  [ mkLine debitCode amountNum 0 None None;
    mkLine creditCode 0 amountNum None None ].

Definition entryKind (type : string) : string :=
  if String.eqb type "income" then "receipt" else "payment".

(** The assignments to the entry being edited. *)
Definition reviseEntry (refNo : string) (date : Date) (kind : string)
    (ls : list Line) (e : JournalEntry) : JournalEntry :=
  mkJournalEntry (je_id e) refNo date kind (sourceId e) (sourceType e) ls
    (je_status e) (adjustedDate e).

(** [billType] of the Payable, from the category. *)
Definition billTypeOf (category : string) : string :=
  if String.eqb category "Nguyên vật liệu" || String.eqb category "Hàng hóa"
  then "purchase"
  else if String.eqb category "Dịch vụ" || String.eqb category "Marketing"
          || String.eqb category "Vận chuyển"
  then "service"
  else "expense".

(** The [try] block that resolves the partner and saves the debt record.
    The handler passes its outer [trimmedPartnerPhone], which is still
    [null]: the validated phone was assigned to a block-scoped variable
    of the same name. *)
Definition createDebtRecord {R} (b : PostEntryBody) (amountNum : Q) (date : Date)
    (dueDate : Date) (trimmedPartnerName debitCode creditCode : string)
    (entry : JournalEntry) (stampAt : nat -> string) : M R unit :=
  let type := pe_type b in
  partner <-
    tryCatch
      (p <- call (findOrCreatePartner trimmedPartnerName None type true stampAt
                                      (pe_partnerRegExp b)) ;;
       reloaded <- dbRead true
         (fun s => findOne (byId usr_id (usr_id p)) (users s)) ;;
       match reloaded with
       | Some p' => ret p'
       | None => throw nullIdError
       end)
      (fun _ => call (findOrCreateDefaultPartner type true)) ;;
  if String.eqb type "income" && String.eqb debitCode "131" then
    newId <- freshId ;;
    dbWrite true
      (setReceivables
         (insertDoc (mkReceivable newId (je_id entry) (Some (usr_id partner))
                       None amountNum amountNum "unpaid" dueDate date)))
  else if String.eqb type "expense" && String.eqb creditCode "331" then
    newId <- freshId ;;
    dbWrite true
      (setPayables
         (insertDoc (mkPayable newId (je_id entry) (usr_id partner)
                       (billTypeOf (pe_category b)) amountNum amountNum
                       "unpaid" dueDate date)))
  else ret tt.

(** [POST /api/accounting/post-entry].  [refAuto] is the generated
    reference number. *)
Definition postEntry (b : PostEntryBody) (refAuto : string)
    (stampAt : nat -> string) : World -> Response JournalEntry * World :=
  withSession
    (let type := pe_type b in
     let paymentStatus := pe_paymentStatus b in
     match validAmount (pe_amount b), pe_date b with
     | Some amountNum, Some date =>
       if negb (Js.truthyStr (pe_category b))
          || negb (Js.truthyStr (pe_description b))
          || negb (Js.truthyStr type)
       then abortTransaction ;;; return_ (mkResponse 400 None)
       else if negb (String.eqb type "income" || String.eqb type "expense")
       then abortTransaction ;;; return_ (mkResponse 400 None)
       else
         (* validation of the partner fields of an unpaid posting *)
         trimmedPartnerName <-
           (if String.eqb paymentStatus "unpaid" then
              if missingOrBlank (pe_partnerName b)
              then abortTransaction ;;; return_ (mkResponse 400 None)
              else if nonBlankString (pe_partnerPhone b)
                      && negb (phoneRegexTest
                                 (trim (Js.toString (pe_partnerPhone b))))
              then abortTransaction ;;; return_ (mkResponse 400 None)
              else if missingOrBlank (pe_dueDate b)
              then abortTransaction ;;; return_ (mkResponse 400 None)
              else
                match pe_dueDateParsed b with
                | None => abortTransaction ;;; return_ (mkResponse 400 None)
                | Some _ =>
                    (* [typeof partnerName === 'string' ? partnerName.trim()
                        : String(partnerName).trim()] *)
                    ret (trim (Js.toString (pe_partnerName b)))
                end
            else ret EmptyString) ;;
         let mapping := categoryMapping (pe_category b) in
         match (if String.eqb type "income"
                then cr_income mapping else cr_expense mapping) with
         | None => abortTransaction ;;; return_ (mkResponse 400 None)
         | Some mapped =>
           let creditCode :=
             creditAccountCodeOf type (pe_category b) paymentStatus mapped in
           let debitCode := debitAccountCodeOf type paymentStatus mapped in
           let isDebt := isDebtOf type paymentStatus creditCode in
           _accs <- forOf (filter Js.truthyStr [debitCode; creditCode])
                          checkAccount [] ;;
           existingEntry <-
             (if Js.truthyStr (pe_journalEntryId b) then
                found <- dbRead true
                  (fun s => findOne (byId je_id (pe_journalEntryId b))
                                    (journalEntries s)) ;;
                match found with
                | None => abortTransaction ;;; return_ (mkResponse 404 None)
                | Some e => ret (Some e)
                end
              else ret None) ;;
           let refNo :=
             if Js.truthyStr (pe_reference b) then pe_reference b
             else match existingEntry with
                  | Some e => referenceNo e
                  | None => refAuto
                  end in
           (if match existingEntry with
               | Some e => negb (String.eqb (referenceNo e) refNo)
               | None => true
               end
            then
              duplicateEntry <- dbRead true
                (fun s => findOne (byReferenceNo refNo) (journalEntries s)) ;;
              match duplicateEntry with
              | Some _ => abortTransaction ;;; return_ (mkResponse 400 None)
              | None => ret tt
              end
            else ret tt) ;;;
           let ls := postEntryLines type debitCode creditCode amountNum in
           if unbalanced ls
           then abortTransaction ;;; return_ (mkResponse 400 None)
           else
             entry <-
               match existingEntry with
               | Some e =>
                   let e' := reviseEntry refNo date (entryKind type) ls e in
                   dbWrite true
                     (setJournalEntries
                        (updateFirst (byId je_id (je_id e)) (fun _ => e'))) ;;;
                   dbWrite true
                     (setReceivables
                        (deleteMany (byId rcv_journalEntry (je_id e)))) ;;;
                   dbWrite true
                     (setPayables
                        (deleteMany (byId pay_journalEntry (je_id e)))) ;;;
                   ret e'
               | None =>
                   newId <- freshId ;;
                   let e' := mkJournalEntry newId refNo date (entryKind type)
                               None (Some "MANUAL") ls "posted" None in
                   dbWrite true (setJournalEntries (insertDoc e')) ;;;
                   ret e'
               end ;;
             (* the test asks again for a name that is not blank and,
                this time, for a [dueDate] that is a string *)
             let hasValidPartnerInfo :=
               String.eqb paymentStatus "unpaid"
               && Js.truthyStr (trim trimmedPartnerName)
               && nonBlankString (pe_dueDate b) in
             (if isDebt && hasValidPartnerInfo then
                match pe_dueDateParsed b with
                | Some dueDate =>
                    tryCatch
                      (createDebtRecord b amountNum date dueDate
                         trimmedPartnerName debitCode creditCode entry stampAt)
                      (fun _ =>
                         abortTransaction ;;; return_ (mkResponse 500 None))
                | None => ret tt
                end
              else ret tt) ;;;
             commitTransaction ;;;
             return_ (mkResponse 201 (Some entry))
         end
     | _, _ => abortTransaction ;;; return_ (mkResponse 400 None)
     end)
    onDuplicate400.

(* ================================================================== *)
(** ** Vocabulary of the properties *)
(* ================================================================== *)


(** Debit and credit of the lines agree within the tolerance. *)
Definition balancedLines (ls : list Line) : Prop :=
  Qabs (totalDebitOf ls - totalCreditOf ls) <= tolerance.

Definition balancedEntry (e : JournalEntry) : Prop := balancedLines (lines e).

(** Every journal entry of [s'] was already in [s] or is balanced. *)
Definition persistsBalanced (s s' : Store) : Prop :=
  forall e, In e (journalEntries s') ->
            In e (journalEntries s) \/ balancedEntry e.

(** The balance invariant of the journal. *)
Definition postedBalanced (s : Store) : Prop :=
  forall e, In e (journalEntries s) -> je_status e = "posted" -> balancedEntry e.







(** An invariant of the datastore: a property of the committed store and
    of the store seen through the open transaction. *)
Definition holds (J : Store -> option Store -> Prop) (w : World) : Prop :=
  J (committed w) (staged w).

(** [m] keeps [I], however it ends. *)
Definition keeps (I : World -> Prop) {R A} (m : M R A) : Prop :=
  forall w, I w -> I (snd (m w)).








(** A transaction is open and nothing has reached the committed store
    [c0]. *)
Definition inTx (c0 : Store) : Store -> option Store -> Prop :=
  fun c st => c = c0 /\ st <> None.

(** What a handler body owes to atomicity: it may [return] with the
    success code [ok], or with the committed store untouched; while it
    runs on, the transaction is open and nothing is committed. *)
Definition txPost (ok : nat) (c0 : Store) {P A}
    (o : Outcome (Response P) A) (w : World) : Prop :=
  match o with
  | Returned r => committed w = c0 \/ statusCode r = ok
  | _ => holds (inTx c0) w
  end.

Definition txSafe (ok : nat) {P A} (m : M (Response P) A) : Prop :=
  forall c0 w, holds (inTx c0) w -> txPost ok c0 (fst (m w)) (snd (m w)).

(** The string holds a character that is not white space. *)
Fixpoint hasInk (s : string) : bool :=
  match s with
  | EmptyString => false
  | String c r => negb (isWhitespace c) || hasInk r
  end.

(** The store a session read sees satisfies [Q]. *)
Definition onView (Q : Store -> Prop) : Store -> option Store -> Prop :=
  fun c st => Q (match st with Some s => s | None => c end).

(** The session's view holds the journal entry [e]. *)
Definition hasEntry (e : JournalEntry) : World -> Prop :=
  holds (onView (fun s => In e (journalEntries s))).

(** Running [m] from [w]: [QN] holds if it falls through, [QR] if it
    [return]s, [QT] if it throws. *)
Definition wp {R A} (m : M R A) (QN : A -> World -> Prop)
    (QR : R -> World -> Prop) (QT : Exn -> World -> Prop) (w : World) : Prop :=
  match m w with
  | (Next a, w') => QN a w'
  | (Returned r, w') => QR r w'
  | (Thrown e, w') => QT e w'
  end.

(** Wherever [m] is run, a [return] satisfies [QR]. *)
Definition returnsOnly {R A} (QR : R -> World -> Prop) (m : M R A) : Prop :=
  forall w, wp m (fun _ _ => True) QR (fun _ _ => True) w.

(** The partner fields with which the handler goes on to the debt
    record: [dueDate] was sent as a string, and [partnerName] is a
    string or a value whose text is not blank. *)
Definition partnerInfoSent (b : PostEntryBody) : Prop :=
  Js.isString (pe_dueDate b) = true
  /\ Js.truthyStr (trim (Js.toString (pe_partnerName b))) = true.

(** The entry of a rule-driven posting is in the store, with the
    Receivable of an unpaid income or the Payable of an unpaid expense
    booked on account 331, the partner fields being as above. *)
Definition debtRecorded (b : PostEntryBody) (e : JournalEntry) (s : Store) : Prop :=
  In e (journalEntries s)
  /\ (pe_paymentStatus b = "unpaid" -> pe_type b = "income" ->
      partnerInfoSent b ->
      exists r, In r (receivables s)
                /\ rcv_journalEntry r = je_id e
                /\ pe_amount b = Some (rcv_originalAmount r)
                /\ rcv_paymentStatus r = "unpaid")
  /\ (pe_paymentStatus b = "unpaid" -> pe_type b = "expense" ->
      String.eqb (pe_category b) "Lương nhân viên" = false ->
      partnerInfoSent b ->
      exists p, In p (payables s)
                /\ pay_journalEntry p = je_id e
                /\ pe_amount b = Some (pay_originalAmount p)
                /\ pay_paymentStatus p = "unpaid").


(** The entry a sale posting builds. *)
Definition saleEntry (newId : ObjectId) (sfx : string) (now : Date)
    (debitCode : string) (order : Order) : JournalEntry :=
  mkJournalEntry newId ("HD-" ++ sfx)%string (Js.orElse (createdAt order) now)
    "sale" (Some (ord_id order)) (Some "order") (saleLines debitCode order)
    "posted" None.

(** What the stock loop of the COGS posting leaves alone, as seen through
    [session]. *)
Definition sameJournalAndOrders (session : bool) (E : list JournalEntry)
    (O : list Order) (A : list Account) : Store -> option Store -> Prop :=
  fun c st =>
    let s := if session then match st with Some s => s | None => c end else c in
    journalEntries s = E /\ orders s = O /\ accounts s = A.

(** History rows of an asset for one month. *)
Definition monthRows (month : string) (a : FixedAsset) : nat :=
  countDocs (fun dep => String.eqb (dep_month dep) month) (depreciationHistory a).

(** The invariant of a fixed asset: accumulated depreciation within the
    original cost, at most one history row per month. *)
Definition assetOK (a : FixedAsset) : Prop :=
  accumulatedDepreciation a <= originalCost a
  /\ forall month, (monthRows month a <= 1)%nat.

Definition assetsOK (s : Store) : Prop :=
  forall a, In a (fixedAssets s) -> assetOK a.

(* ================================================================== *)
(** ** A small ledger to run the handlers on *)
(* ================================================================== *)

Definition exIds (n : nat) : ObjectId :=
  String (ascii_of_nat (97 + n)) "-fresh".

Definition exAccounts : list Account :=
  [ mkAccount "acc111" "111" "Tien mat" "asset" 1 None "active";
    mkAccount "acc1121" "1121" "Tien gui ngan hang" "asset" 2 (Some "112") "active";
    mkAccount "acc131" "131" "Phai thu khach hang" "asset" 1 None "active";
    mkAccount "acc156" "156" "Hang hoa" "asset" 1 None "active";
    mkAccount "acc511" "511" "Doanh thu ban hang" "revenue" 1 None "active";
    mkAccount "acc632" "632" "Gia von hang ban" "expense" 1 None "active";
    mkAccount "acc642" "642" "Chi phi quan ly" "expense" 1 None "active" ].

Definition exSale : JournalEntry :=
  mkJournalEntry "je1" "HD-202401-AAAAA" 1000%Z "sale" (Some "ord0") (Some "order")
    [ mkLine "1121" 500000 0 None None; mkLine "511" 0 500000 None None ]
    "posted" None.

Definition exStore : Store :=
  mkStore exAccounts [exSale] [] [] [] [] [] [] [] [].

Definition exWorld : World := mkWorld exStore None 0 exIds 0 noFaults.

Definition exOrder : Order :=
  mkOrder "ord1" (Some "cust1")
    [ mkOrderItem "prod1" (Some 3); mkOrderItem "prod2" (Some 2) ]
    300000 COD shipped (Some 1000%Z).

Definition exCogsStore : Store :=
  mkStore exAccounts [exSale] [] []
    [ mkProduct "prod1" (Some 10) (Some 40000) (Some 60000);
      mkProduct "prod2" (Some 1) None (Some 50000) ]
    [exOrder] [] [] [] [].

Definition exCogsWorld : World := mkWorld exCogsStore None 0 exIds 0 noFaults.

Definition exRevenue : JournalEntry :=
  mkJournalEntry "je2" "PT-0001" 2000%Z "receipt" None (Some "MANUAL")
    [ mkLine "1121" 1000000 0 None None; mkLine "511" 0 1000000 None None ]
    "posted" None.

Definition exExpense : JournalEntry :=
  mkJournalEntry "je3" "PC-0001" 3000%Z "payment" None (Some "MANUAL")
    [ mkLine "642" 700000 0 None None; mkLine "1121" 0 700000 None None ]
    "posted" None.

Definition exOpenPeriod : AccountingPeriod :=
  mkAccountingPeriod "per1" "Thang 01 2024" 1500%Z 4000%Z None "open" None None.

Definition exClosedPeriod : AccountingPeriod :=
  mkAccountingPeriod "per0" "Thang 12 2023" 0%Z 1400%Z (Some 1400%Z) "closed"
    (Some 1450%Z) (Some "admin").

Definition exPeriodStore : Store :=
  mkStore exAccounts [exSale; exRevenue; exExpense] [] [] [] [] []
    [exClosedPeriod; exOpenPeriod]
    [ mkTransaction "txn1" "expense" 50000 "Marketing" 1200%Z "" "paid" ] [].

Definition exPeriodWorld : World :=
  mkWorld exPeriodStore None 0 exIds 0 noFaults.

Definition exAsset : FixedAsset :=
  mkFixedAsset "fa000001" "MAY-01" 12000000 12%positive None 11500000 500000
    [ mkDepreciationRow "2023-12" 1000000 "je0" ] "active".

Definition exAssetDone : FixedAsset :=
  mkFixedAsset "fa000002" "" 6000000 6%positive (Some 1000000) 6000000 0
    [] "active".

Definition exAssetStore : Store :=
  mkStore exAccounts [exSale] [] [] [] [] [exAsset; exAssetDone] [] [] [].

Definition exAssetWorld : World := mkWorld exAssetStore None 0 exIds 0 noFaults.



(** A fault plan: the datastore rejects the write number [n]. *)
Definition failAt (n : nat) : nat -> option Exn :=
  fun k => if (k =? n)%nat then Some (Error "write rejected") else None.

Definition exDebtBody : TransactionBody :=
  mkTransactionBody "income" (Js.other true "250000") (Some 250000)
    "Cong ty A - ban si" "Ban hang"
    (Some 3000%Z) "PT-0009" "unpaid".

Definition exFaultyWorld : World := mkWorld exStore None 0 exIds 0 (failAt 3).

Definition exEntryBody : PostEntryBody :=
  mkPostEntryBody (Some 250000) "Bán hàng" "Ban si" (Some 3000%Z) "PT-0009"
    "unpaid" "income" (Js.str "Cong ty A") (Js.other false "undefined")
    (Js.str "2024-02-01") (Some 4000%Z) (Some (plainPattern "Cong ty A")) "".

(** The same posting with [dueDate] sent as a number of milliseconds. *)
Definition exNumericDueBody : PostEntryBody :=
  mkPostEntryBody (Some 250000) "Bán hàng" "Ban si" (Some 3000%Z) "PT-0009"
    "unpaid" "income" (Js.str "Cong ty A") (Js.other false "undefined")
    (Js.other true "4000") (Some 4000%Z) (Some (plainPattern "Cong ty A")) "".

(* ================================================================== *)
(** * Further handlers and reports *)
(* ================================================================== *)

(* ================================================================== *)
(** ** Account ledger ([GET /account-ledger/:accountCode]) *)
(* ================================================================== *)









(* ================================================================== *)
(** ** Receivables: creation by hand and the aging report *)
(* ================================================================== *)

Record ReceivableBody := mkReceivableBody {
  rb_customer : string;
  rb_journalEntry : string;
  (** [originalAmount] as sent, and the number the Receivable schema
      casts it to ([None]: the cast fails and [save] rejects). *)
  rb_originalAmount : Js.value;
  rb_originalAmountCast : option Q;
  rb_dueDate : option Date;
  rb_invoiceDate : option Date;
  rb_order : option ObjectId
}.

(** [POST /api/accounting/receivables]. *)
Definition postReceivable (b : ReceivableBody)
  : World -> Response Receivable * World :=
  withoutSession
    (match rb_dueDate b, rb_invoiceDate b with
     | Some dueDate, Some invoiceDate =>
         if negb (Js.truthyStr (rb_customer b))
            || negb (Js.truthyStr (rb_journalEntry b))
            || negb (Js.truthy (rb_originalAmount b))
         then return_ (mkResponse 400 None)
         else
           existing <- dbRead false
             (fun s => findOne (byId rcv_journalEntry (rb_journalEntry b))
                               (receivables s)) ;;
           match existing with
           | Some _ => return_ (mkResponse 400 None)
           | None =>
               newId <- freshId ;;
               match rb_originalAmountCast b with
               | None => throw (Error "ValidationError")
               | Some originalAmount =>
                   let receivable :=
                     mkReceivable newId (rb_journalEntry b)
                       (Some (rb_customer b))
                       (match rb_order b with
                        | Some o => if Js.truthyStr o then Some o else None
                        | None => None
                        end)
                       originalAmount originalAmount "unpaid" dueDate
                       invoiceDate in
                   dbWrite false (setReceivables (insertDoc receivable)) ;;;
                   return_ (mkResponse 201 (Some receivable))
               end
           end
     | _, _ => return_ (mkResponse 400 None)
     end)
    (fun _ => mkResponse 500 None).

(** [d.setHours(0, 0, 0, 0)] in a time zone [tz] milliseconds ahead of
    UTC: the local midnight at or before [d]. *)
Definition startOfDay (tz : Z) (d : Date) : Date :=
  (d - (d + tz) mod dayMs)%Z.








(* ================================================================== *)
(** ** Profit and loss ([GET /profit-loss]) *)
(* ================================================================== *)

(** [d.setHours(23, 59, 59, 999)] in a time zone [tz] milliseconds ahead
    of UTC: the last millisecond of the local day of [d]. *)
Definition endOfDay (tz : Z) (d : Date) : Date :=
  (startOfDay tz d + dayMs - 1)%Z.

(** [dateQuery]: posted entries from [startDate] to the end of the day of
    [endDate]; a bound that is absent is not part of the query. *)
Definition plQuery (tz : Z) (startDate endDate : option Date)
  : JournalEntry -> bool :=
  inRange startDate (option_map (endOfDay tz) endDate).

(** The regular expressions [/^5/], [/^6/] and [/^8/]. *)
Definition startsWithChar (c : ascii) (s : string) : bool :=
  match s with
  | String x _ => Ascii.eqb x c
  | EmptyString => false
  end.

Record PLRow := mkPLRow {
  pl_accountCode : string;
  pl_accountName : string;
  pl_amount : Q
}.

(** [$lookup] on the chart, [$unwind: '$account'] and [$project]. *)
Definition plLookup (accs : list Account) (g : string * Q) : list PLRow :=
  map (fun a => mkPLRow (fst g) (acc_name a) (snd g))
      (filter (fun a => String.eqb (code a) (fst g)) accs).

(** [{ $sort: { accountCode: 1 } }]. *)
Fixpoint insertPL (r : PLRow) (rs : list PLRow) : list PLRow :=
  match rs with
  | [] => [r]
  | x :: rest =>
      if String.leb (pl_accountCode r) (pl_accountCode x)
      then r :: x :: rest
      else x :: insertPL r rest
  end.

Definition sortPL (rs : list PLRow) : list PLRow :=
  fold_right insertPL [] rs.

(** The three aggregations of the handler differ in the first character
    of the account codes they keep and in the side they add up. *)
Definition plAggregate (c : ascii) (side : Line -> Q) (tz : Z)
    (startDate endDate : option Date) (s : Store) : list PLRow :=
  let matched := filter (plQuery tz startDate endDate) (journalEntries s) in
  let groups :=
    groupByAccount 0 (fun total l => total + side l)
      (filter (fun l => startsWithChar c (accountCode l) && Js.gt (side l) 0)
              (unwindLines matched)) in
  sortPL (flat_map (plLookup (accounts s)) groups).

(** [item.accountCode.startsWith(p)]. *)
Definition codeStartsWith (p : string) (item : PLRow) : bool :=
  prefix p (pl_accountCode item).

(** [rows.reduce((sum, item) => sum + item.amount, 0)]. *)
Definition plTotal (rows : list PLRow) : Q :=
  fold_left (fun sum item => sum + pl_amount item) rows 0.

Record ProfitLoss := mkProfitLoss {
  netRevenue : Q;
  otherIncome : Q;
  pl_totalRevenue : Q;
  costOfGoodsSold : Q;
  grossProfit : Q;
  sellingExpenses : Q;
  adminExpenses : Q;
  financialExpenses : Q;
  totalOperatingExpenses : Q;
  operatingProfit : Q;
  totalOtherCosts : Q;
  otherNet : Q;
  profitBeforeTax : Q;
  corporateTax : Q;
  pl_netProfit : Q;
  revenueBreakdown : list PLRow;
  expenseBreakdown : list PLRow;
  otherCostsBreakdown : list PLRow
}.

Definition profitLoss (tz : Z) (startDate endDate : option Date) (s : Store)
  : ProfitLoss :=
  let revenueAggregation := plAggregate "5" credit tz startDate endDate s in
  let netRevenue :=
    plTotal (filter (codeStartsWith "511") revenueAggregation) in
  let otherIncome :=
    plTotal (filter (codeStartsWith "711") revenueAggregation) in
  let expenseAggregation := plAggregate "6" debit tz startDate endDate s in
  let costOfGoodsSold :=
    plTotal (filter (codeStartsWith "632") expenseAggregation) in
  let sellingExpenses :=
    plTotal (filter (codeStartsWith "641") expenseAggregation) in
  let adminExpenses :=
    plTotal (filter (codeStartsWith "642") expenseAggregation) in
  let financialExpenses :=
    plTotal (filter (codeStartsWith "635") expenseAggregation) in
  let otherExpenses :=
    plTotal (filter (fun item => negb (codeStartsWith "632" item)
                                 && negb (codeStartsWith "641" item)
                                 && negb (codeStartsWith "642" item)
                                 && negb (codeStartsWith "635" item))
                    expenseAggregation) in
  let otherCostsAggregation := plAggregate "8" debit tz startDate endDate s in
  let otherCosts := plTotal otherCostsAggregation in
  let grossProfit := netRevenue - costOfGoodsSold in
  let totalOperatingExpenses :=
    sellingExpenses + adminExpenses + financialExpenses in
  let operatingProfit := grossProfit - totalOperatingExpenses in
  let totalOtherIncome := otherIncome in
  let totalOtherCosts := otherExpenses + otherCosts in
  let profitBeforeTax := operatingProfit + totalOtherIncome - totalOtherCosts in
  let corporateTax := Js.Math_max 0 (profitBeforeTax * (2 # 10)) in
  let netProfit := profitBeforeTax - corporateTax in
  mkProfitLoss netRevenue otherIncome (netRevenue + otherIncome)
    costOfGoodsSold grossProfit sellingExpenses adminExpenses
    financialExpenses totalOperatingExpenses operatingProfit
    totalOtherCosts (totalOtherIncome - totalOtherCosts)
    profitBeforeTax corporateTax netProfit
    revenueAggregation expenseAggregation otherCostsAggregation.

(* ================================================================== *)
(** ** Order synchronisation ([services/accountingService.js]) *)
(* ================================================================== *)

(** [['paid', 'delivered', 'processing'].includes(order.status)]; of the
    three the Order schema has [paid] and [delivered]. *)
Definition paidOrDelivered (st : OrderStatus) : bool :=
  match st with
  | paid | delivered => true
  | _ => false
  end.

(** [['shipped', 'delivered'].includes(previousStatus)], [previousStatus]
    defaulting to [null]. *)
Definition wasShipped (previousStatus : option OrderStatus) : bool :=
  match previousStatus with
  | Some st => shippedOrDelivered st
  | None => false
  end.

(** [syncOrderToAccounting(order, previousStatus, userId)]: the whole body
    is inside [try], and the [catch] only logs.  In the second part
    [existingEntry] is known to be there, so its inner
    [if (!existingEntry)] posts nothing. *)
Definition syncOrderToAccounting (order : Order)
    (previousStatus : option OrderStatus) (refSuffix : string) (now : Date)
  : M unit unit :=
  tryCatch
    (let bankTransfer := isBankTransfer (paymentMethod order) in
     let cod := isCOD (paymentMethod order) in
     existingEntry <- dbRead false
       (fun s => findOne (isEntryOfOrder (ord_id order)) (journalEntries s)) ;;
     match existingEntry with
     | None =>
         (if bankTransfer
          then call (createSaleJournalEntry order refSuffix now) ;;; ret tt
          else if cod && shippedOrDelivered (ord_status order)
          then call (createSaleJournalEntry order refSuffix now) ;;; ret tt
          else if cod && negb (shippedOrDelivered (ord_status order))
          then return_ tt
          else when_ (paidOrDelivered (ord_status order))
                 (call (createSaleJournalEntry order refSuffix now) ;;; ret tt))
         ;;; return_ tt
     | Some _ =>
         if cod && negb (wasShipped previousStatus)
            && shippedOrDelivered (ord_status order)
         then return_ tt
         else ret tt
     end)
    (fun _ => ret tt).

(* ================================================================== *)
(** ** The monthly depreciation script ([scripts/calculate-depreciation.js]) *)
(* ================================================================== *)

(** A row of the script's [results]; its [asset] field, the name of the
    asset, is only logged. *)
Record ScriptResult := mkScriptResult {
  sr_depreciationAmount : Q;
  sr_accumulatedDepreciation : Q;
  sr_bookValue : Q
}.

(** One turn of the script's loop over the active assets.  Unlike the
    route it looks for the accounts 642 and 214 before it posts. *)
Definition scriptDepreciateAsset {R} (targetMonth : string) (monthStart : Date)
    (asset : FixedAsset) (results : list ScriptResult)
  : M R (list ScriptResult) :=
  if alreadyDepreciated targetMonth asset then ret results
  else if Js.ge (accumulatedDepreciation asset) (originalCost asset)
  then ret results
  else
    let amount := depreciationAmountOf asset in
    if Js.le amount 0 then ret results
    else
      accs <- dbRead true
        (fun s => filter (codeIn ["642"; "214"]) (accounts s)) ;;
      if negb (List.length accs =? 2)%nat then ret results
      else
        let refNo := depreciationRef targetMonth asset in
        existingEntry <- dbRead true
          (fun s => findOne (byReferenceNo refNo) (journalEntries s)) ;;
        match existingEntry with
        | Some _ => ret results
        | None =>
            newId <- freshId ;;
            let entry :=
              mkJournalEntry newId refNo monthStart "depreciation"
                (Some (fa_id asset)) (Some "depreciation")
                (depreciationLines amount) "posted" None in
            dbWrite true (setJournalEntries (insertDoc entry)) ;;;
            let asset' := depreciate targetMonth amount newId asset in
            dbWrite true
              (setFixedAssets (updateFirst (byId fa_id (fa_id asset))
                                           (fun _ => asset'))) ;;;
            ret (results
                 ++ [mkScriptResult amount (accumulatedDepreciation asset')
                                    (bookValue asset')])
        end.

(** [calculateMonthlyDepreciation()]: the result is the exit code of the
    process.  [targetMonth] is the runtime's [YYYY-MM] and [monthStart] is
    [new Date(`${targetMonth}-01`)]. *)
Definition calculateMonthlyDepreciation (targetMonth : string)
    (monthStart : Date) (w : World) : nat * World :=
  let body : M nat nat :=
    activeAssets <- dbRead true
      (fun s => filter (fun a => String.eqb (fa_status a) "active")
                       (fixedAssets s)) ;;
    forOf activeAssets (scriptDepreciateAsset targetMonth monthStart) [] ;;;
    commitTransaction ;;;
    return_ 0%nat in
  match body (startTransaction w) with
  | (Next r, w') => (r, endSession w')
  | (Returned r, w') => (r, endSession w')
  | (Thrown _, w') => (1%nat, endSession (snd (@abortTransaction unit w')))
  end.

(* ================================================================== *)
(** ** Vocabulary of the further properties *)
(* ================================================================== *)




(** The books proper are the same in two stores: chart, journal,
    receivables and payables. *)
Definition sameBooks (s s' : Store) : Prop :=
  accounts s' = accounts s
  /\ journalEntries s' = journalEntries s
  /\ receivables s' = receivables s
  /\ payables s' = payables s.

(** A chart without the COGS accounts. *)
Definition exBareStore : Store :=
  mkStore [ mkAccount "acc111" "111" "Tien mat" "asset" 1 None "active" ]
    [] [] []
    [ mkProduct "prod1" (Some 10) (Some 40000) (Some 60000);
      mkProduct "prod2" (Some 1) None (Some 50000) ]
    [exOrder] [] [] [] [].

Definition exBareWorld : World := mkWorld exBareStore None 0 exIds 0 noFaults.

Definition exTransferBody : TransferBody :=
  mkTransferBody "111" "1121" (Some 200000) (Some 2500%Z) "TF-0001".


(** A closed period locked up to 1800 only, and a transaction dated in it
    after that day. *)
Definition exPartLockedPeriod : AccountingPeriod :=
  mkAccountingPeriod "per2" "Thang 02 2024" 1500%Z 4000%Z (Some 1800%Z) "closed"
    (Some 4100%Z) (Some "admin").

Definition exPartLockedWorld : World :=
  mkWorld (mkStore exAccounts [exSale] [] [] [] [] []
             [exClosedPeriod; exPartLockedPeriod]
             [ mkTransaction "txn2" "expense" 70000 "Marketing" 2000%Z "" "paid" ]
             [])
          None 0 exIds 0 noFaults.

(** Two closed periods over the same days, one locked to its end and one
    locked up to 1500 only, in either order. *)
Definition exOverlapPeriods : list AccountingPeriod :=
  [ mkAccountingPeriod "per3" "Quy 1 2024" 0%Z 9000%Z (Some 9000%Z) "closed"
      (Some 9100%Z) (Some "admin");
    mkAccountingPeriod "per4" "Thang 01 2024" 0%Z 4000%Z (Some 1500%Z) "closed"
      (Some 4100%Z) (Some "admin") ].

Definition exOverlapWorld (ps : list AccountingPeriod) : World :=
  mkWorld (mkStore exAccounts [exSale] [] [] [] [] [] ps
             [ mkTransaction "txn2" "expense" 70000 "Marketing" 2000%Z "" "paid" ]
             [])
          None 0 exIds 0 noFaults.

(** A receivable entered by hand for the entry "je-hand". *)
Definition exReceivableBody : ReceivableBody :=
  mkReceivableBody "cust1" "je-hand" (Js.other true "500000") (Some 500000)
    (Some 9000%Z) (Some 1000%Z)
                   None.

(** The datastore takes the next write and rejects the one after it. *)
Definition exHalfWorld : World := mkWorld exStore None 0 exIds 0 (failAt 1).

(** The asset store with the account 214 added to its chart. *)
Definition exFullAssetWorld : World :=
  mkWorld (setAccounts
             (insertDoc (mkAccount "acc214" "214" "Hao mon TSCD" "asset" 1 None
                                   "active"))
             exAssetStore)
          None 0 exIds 0 noFaults.

(** A receipt of 100 in cash against revenue. *)
Definition exJournalBody : JournalEntryBody :=
  mkJournalEntryBody "PT-0100" (Some 2000%Z) "Thu tien" None
    (Some [ mkLineInput "111" 100%float nan None None;
            mkLineInput "511" nan 100%float None None ])
    None None.

(* ================================================================== *)
(** * Properties *)
(* ================================================================== *)

Unset Implicit Arguments.

(* ================================================================== *)
(** ** Basic facts: comparisons and sums *)
(* ================================================================== *)

Lemma Js_gt_true (a b : Q) : Js.gt a b = true <-> b < a.
Proof.
  unfold Js.gt. rewrite negb_true_iff. split; intro H.
  - apply Qnot_le_lt. intro L. apply Qle_bool_iff in L. congruence.
  - destruct (Qle_bool a b) eqn:E; [|reflexivity].
    apply Qle_bool_iff in E. exfalso. apply (Qlt_not_le _ _ H E).
Qed.


Lemma Js_le_true (a b : Q) : Js.le a b = true <-> a <= b.
Proof. apply Qle_bool_iff. Qed.

Lemma Js_le_false (a b : Q) : Js.le a b = false <-> b < a.
Proof.
  unfold Js.le. split; intro H.
  - apply Qnot_le_lt. intro L. apply Qle_bool_iff in L. congruence.
  - destruct (Qle_bool a b) eqn:E; [|reflexivity].
    apply Qle_bool_iff in E. exfalso. apply (Qlt_not_le _ _ H E).
Qed.

Lemma Js_ge_true (a b : Q) : Js.ge a b = true <-> b <= a.
Proof. apply Qle_bool_iff. Qed.


Lemma Js_lt_true (a b : Q) : Js.lt a b = true <-> a < b.
Proof. unfold Js.lt. apply (Js_gt_true b a). Qed.











(* ================================================================== *)
(** ** How computations compose *)
(* ================================================================== *)

Lemma view_applyWrite (session : bool) (f : Store -> Store) (w : World) :
  view session (applyWrite session f w) = f (view session w).
Proof.
  unfold view, applyWrite. destruct session; [|reflexivity].
  destruct (staged w); reflexivity.
Qed.

Lemma view_countWrite (session : bool) (w : World) :
  view session (countWrite w) = view session w.
Proof. reflexivity. Qed.

Section Keeps.
Variable I : World -> Prop.

Lemma keeps_ret {R A} (a : A) : keeps I (@ret R A a).
Proof. intros w H. exact H. Qed.

Lemma keeps_throw {R A} (e : Exn) : keeps I (@throw R A e).
Proof. intros w H. exact H. Qed.

Lemma keeps_return {R A} (r : R) : keeps I (@return_ R A r).
Proof. intros w H. exact H. Qed.

Lemma keeps_dbRead {R A} (session : bool) (q : Store -> A) :
keeps I (@dbRead R A session q).
Proof. intros w H. exact H. Qed.

Lemma keeps_bind {R A B} (m : M R A) (k : A -> M R B) :
keeps I m -> (forall a, keeps I (k a)) -> keeps I (bind m k).
Proof.
intros Hm Hk w Hw. unfold bind. specialize (Hm w Hw).
destruct (m w) as [[a|r|e] w']; simpl in *; auto.
apply Hk. exact Hm.
Qed.


Lemma keeps_tryCatch {R A} (body : M R A) (handler : Exn -> M R A) :
keeps I body -> (forall e, keeps I (handler e)) ->
keeps I (tryCatch body handler).
Proof.
intros Hb Hh w Hw. unfold tryCatch. specialize (Hb w Hw).
destruct (body w) as [[a|r|e] w']; simpl in *; auto.
apply Hh. exact Hb.
Qed.

Lemma keeps_call {R R'} (body : M R' R') : keeps I body -> keeps I (@call R R' body).
Proof.
intros Hb w Hw. unfold call. specialize (Hb w Hw).
destruct (body w) as [[a|r|e] w']; simpl in *; auto.
Qed.

Lemma keeps_when {R} (b : bool) (m : M R unit) :
keeps I m -> keeps I (when_ b m).
Proof. intro H. destruct b; simpl; [exact H | apply keeps_ret]. Qed.

Lemma keeps_forOf {R X S} (xs : list X) (body : X -> S -> M R S) (acc : S) :
(forall x a, keeps I (body x a)) -> keeps I (forOf xs body acc).
Proof.
intro H. revert acc. induction xs as [|x xs IH]; intro acc; simpl.
- apply keeps_ret.
- apply keeps_bind; [apply H | intro a; apply IH].
Qed.
End Keeps.

(** Invariants of the two stores do not see the counters. *)
Section StoreInvariants.
Variable J : Store -> option Store -> Prop.

Lemma keeps_freshId {R} : keeps (holds J) (@freshId R).
Proof. intros w H. exact H. Qed.

Lemma keeps_dbWrite {R} (session : bool) (f : Store -> Store) :
(forall w, holds J w -> holds J (applyWrite session f (countWrite w))) ->
keeps (holds J) (@dbWrite R session f).
Proof.
intros Hf w Hw. unfold dbWrite.
destruct (faults w (writeCount w)); simpl; [exact Hw | apply Hf, Hw].
Qed.
End StoreInvariants.

(* ------------------------------------------------------------------ *)
(** *** Invariants of both stores *)

Section Both.
Variable Q : Store -> Prop.





End Both.

(* ------------------------------------------------------------------ *)
(** *** The ledger invariant *)













(* ------------------------------------------------------------------ *)
(** *** Atomicity *)

Lemma inTx_dbWrite {R} c0 (f : Store -> Store) :
  keeps (holds (inTx c0)) (@dbWrite R true f).
Proof.
  apply keeps_dbWrite. intros w [Hc Hs].
  unfold holds, inTx, applyWrite in *. simpl.
  destruct (staged w); [|congruence]. simpl. split; [exact Hc | discriminate].
Qed.

Section TxSafe.
Variable ok : nat.
Context {P : Type}.

Lemma txSafe_keeps {A} (m : M (Response P) A) :
(forall c0, keeps (holds (inTx c0)) m) -> txSafe ok m.
Proof.
intros H c0 w Hw. specialize (H c0 w Hw). unfold txPost.
destruct (fst (m w)); [exact H | left; apply H | exact H].
Qed.

Lemma txSafe_bind {A B} (m : M (Response P) A) (k : A -> M (Response P) B) :
txSafe ok m -> (forall a, txSafe ok (k a)) -> txSafe ok (bind m k).
Proof.
intros Hm Hk c0 w Hw. specialize (Hm c0 w Hw). unfold bind.
destruct (m w) as [[a|r|e] w']; simpl in *; auto.
apply Hk. exact Hm.
Qed.

Lemma txSafe_tryCatch {A} (body : M (Response P) A)
    (handler : Exn -> M (Response P) A) :
txSafe ok body -> (forall e, txSafe ok (handler e)) ->
txSafe ok (tryCatch body handler).
Proof.
intros Hb Hh c0 w Hw. specialize (Hb c0 w Hw). unfold tryCatch.
destruct (body w) as [[a|r|e] w']; simpl in *; auto.
apply Hh. exact Hb.
Qed.

Lemma txSafe_forOf {X S} (xs : list X) (body : X -> S -> M (Response P) S)
    (acc : S) :
(forall x a, txSafe ok (body x a)) -> txSafe ok (forOf xs body acc).
Proof.
intro H. revert acc. induction xs as [|x xs IH]; intro acc; simpl.
- apply txSafe_keeps. intro. apply keeps_ret.
- apply txSafe_bind; [apply H | intro a; apply IH].
Qed.

Lemma txSafe_abort_return {A} (r : Response P) :
txSafe ok (abortTransaction ;;; @return_ _ A r).
Proof. intros c0 w [Hc _]. simpl. left. exact Hc. Qed.

Lemma txSafe_commit_return {A} (r : Response P) :
statusCode r = ok -> txSafe ok (commitTransaction ;;; @return_ _ A r).
Proof. intros E c0 w _. simpl. right. exact E. Qed.

(** The whole handler: unless it answers [ok], the committed store is
  the one it started from. *)
Lemma withSession_atomic (body : M (Response P) (Response P))
    (onError : Exn -> Response P) (w : World) :
txSafe ok body ->
committed (snd (withSession body onError w)) = committed w
\/ statusCode (fst (withSession body onError w)) = ok.
Proof.
intro Hb. unfold withSession.
assert (H0 : holds (inTx (committed w)) (startTransaction w)).
{ split; [reflexivity | discriminate]. }
specialize (Hb _ _ H0).
destruct (body (startTransaction w)) as [[a|r|e] w']; simpl in *.
- left. apply Hb.
- exact Hb.
- left. apply Hb.
Qed.
End TxSafe.

(* ================================================================== *)
(** ** Grouping keeps the totals *)
(* ================================================================== *)

Section GroupTotals.
Variable V : Type.
Variable init : V.
Variable step : V -> Line -> V.
(** What is being summed in a group, and what a line adds to it. *)
Variable measure : V -> Q.
Variable val : Line -> Q.
Hypothesis measure_init : measure init == 0.
Hypothesis measure_step : forall v l, measure (step v l) == measure v + val l.




(** Every group carries the code of one of the lines. *)
Lemma addToGroup_keys (l : Line) (gs : list (string * V)) (g : string * V) :
In g (addToGroup init step l gs) ->
fst g = accountCode l \/ exists g', In g' gs /\ fst g = fst g'.
Proof.
induction gs as [|[k v] gs IH]; simpl.
- intros [E|[]]. subst. now left.
- destruct (String.eqb k (accountCode l)) eqn:Ek; simpl; intros [E|H].
  + subst. right. exists (k, v). auto.
  + right. exists g. auto.
  + subst. right. exists (k, v). auto.
  + destruct (IH H) as [E|[g' [Hg' E]]]; [now left|].
    right. exists g'. auto.
Qed.

Lemma fold_addToGroup_keys (ls : list Line) (gs : list (string * V))
    (g : string * V) :
In g (fold_left (fun gs l => addToGroup init step l gs) ls gs) ->
(exists l, In l ls /\ fst g = accountCode l)
\/ exists g', In g' gs /\ fst g = fst g'.
Proof.
revert gs. induction ls as [|l ls IH]; intro gs; simpl.
- intro H. right. exists g. auto.
- intro H. destruct (IH _ H) as [[l' [Hl' E]]|[g' [Hg' E]]].
  + left. exists l'. auto.
  + destruct (addToGroup_keys _ _ _ Hg') as [E'|[g'' [Hg'' E']]].
    * left. exists l. split; [now left | congruence].
    * right. exists g''. split; [exact Hg'' | congruence].
Qed.

Lemma groupByAccount_keys (ls : list Line) (g : string * V) :
In g (groupByAccount init step ls) ->
exists l, In l ls /\ fst g = accountCode l.
Proof.
intro H. destruct (fold_addToGroup_keys _ _ _ H) as [H'|[g' [[] _]]].
exact H'.
Qed.
End GroupTotals.











(* ================================================================== *)
(** ** Walking through a handler *)
(* ================================================================== *)

(** The retry loop keeps what each of its turns keeps. *)
Lemma keeps_retryLoop (I : World -> Prop) trimmedName partnerPhone type session
      stampAt {R} (fuel retryCount : nat) (mail : string)
      (partnerVar : option User) :
  (forall rc m pv,
      keeps I (retryTurn trimmedName partnerPhone type session stampAt rc m pv)) ->
  keeps I (@retryLoop trimmedName partnerPhone type session stampAt R fuel
                      retryCount mail partnerVar).
Proof.
  intro Hturn. revert retryCount mail partnerVar.
  induction fuel as [|fuel IH]; intros retryCount mail partnerVar;
    cbn [retryLoop].
  - apply keeps_ret.
  - apply keeps_bind; [apply keeps_call, Hturn|].
    intros [p|mail' p]; [apply keeps_ret | apply IH].
Qed.

Ltac head_of t :=
  lazymatch t with
  | ?f _ => head_of f
  | _ => t
  end.

(** One syntactic step through a computation for a goal [keeps I m];
    [wr] closes the goals about writes. *)
Ltac keeps_step wr :=
  lazymatch goal with
  | |- keeps _ (bind _ _) => apply keeps_bind; [| intros ?]
  | |- keeps _ (ret _) => apply keeps_ret
  | |- keeps _ (throw _) => apply keeps_throw
  | |- keeps _ (return_ _) => apply keeps_return
  | |- keeps _ (dbRead _ _) => apply keeps_dbRead
  | |- keeps _ freshId => apply keeps_freshId
  | |- keeps _ (tryCatch _ _) => apply keeps_tryCatch; [| intros ?]
  | |- keeps _ (call _) => apply keeps_call
  | |- keeps _ (when_ _ _) => apply keeps_when
  | |- keeps _ (forOf _ _ _) => apply keeps_forOf; intros ? ?
  | |- keeps _ (retryLoop _ _ _ _ _ _ _ _ _) =>
      apply keeps_retryLoop; intros ? ? ?
  | |- keeps _ (dbWrite _ _) => wr
  | |- keeps _ abortTransaction => wr
  | |- keeps _ commitTransaction => wr
  | |- keeps _ (if ?c then _ else _) => destruct c eqn:?
  | |- keeps _ (match ?x with _ => _ end) => destruct x eqn:?
  | |- keeps _ (let _ := _ in _) => cbv zeta
  | |- keeps _ ?m => let h := head_of m in progress unfold h
  end.




(* ================================================================== *)
(** ** Posted entries balance *)
(* ================================================================== *)












Lemma persistsBalanced_posted (s s' : Store) :
  persistsBalanced s s' -> postedBalanced s -> postedBalanced s'.
Proof.
  intros H Hs e He Hp. destruct (H e He) as [Hold|Hb]; [|exact Hb].
  apply Hs; assumption.
Qed.








(** *** Entries whose lines a request supplies *)


















(* ================================================================== *)
(** ** COGS posting: idempotence and frame *)
(* ================================================================== *)

Lemma sameJournalAndOrders_view session E O A (w : World) :
  holds (sameJournalAndOrders session E O A) w <->
  journalEntries (view session w) = E /\ orders (view session w) = O
  /\ accounts (view session w) = A.
Proof. unfold holds, sameJournalAndOrders, view. tauto. Qed.

Lemma cogs_loop_frame {R} session items acc (w : World) :
  let w' := snd (@forOf R _ _ items (cogsItem session) acc w) in
  journalEntries (view session w') = journalEntries (view session w)
  /\ orders (view session w') = orders (view session w)
  /\ accounts (view session w') = accounts (view session w).
Proof.
  apply sameJournalAndOrders_view.
  assert (K : keeps (holds (sameJournalAndOrders session
                              (journalEntries (view session w))
                              (orders (view session w))
                              (accounts (view session w))))
                    (@forOf R _ _ items (cogsItem session) acc)).
  { apply keeps_forOf. intros item a. unfold cogsItem. cbv zeta.
    destruct (Js.le _ _); [apply keeps_ret|].
    apply keeps_bind; [apply keeps_dbRead|]. intros [p|]; [|apply keeps_ret].
    apply keeps_bind; [|intro; apply keeps_ret].
    apply keeps_dbWrite. intros w0 H0.
    apply sameJournalAndOrders_view. apply sameJournalAndOrders_view in H0.
    rewrite view_applyWrite, view_countWrite. exact H0. }
  apply K. apply sameJournalAndOrders_view. auto.
Qed.

(** The stock loop never [return]s from the function. *)
Lemma cogs_loop_no_return {R} session items acc (w : World) (r : R) :
  fst (@forOf R _ _ items (cogsItem session) acc w) <> Returned r.
Proof.
  revert acc w. induction items as [|item items IH]; intros acc w; simpl.
  - discriminate.
  - unfold bind at 1. unfold cogsItem at 1. cbv zeta.
    destruct (Js.le _ _); [apply IH|].
    unfold bind at 1. unfold dbRead at 1.
    destruct (findOne _ _); [|apply IH].
    unfold bind at 1. unfold dbWrite at 1.
    destruct (faults w (writeCount w)); [discriminate|]. apply IH.
Qed.

Lemma find_app_none {A} (q : A -> bool) (l : list A) (x : A) :
  find q l = None -> q x = true -> find q (l ++ [x]) = Some x.
Proof.
  induction l as [|a l IH]; simpl; intros H Hx.
  - rewrite Hx. reflexivity.
  - destruct (q a); [discriminate | apply IH; assumption].
Qed.

Lemma countDocs_find_none {A} (q : A -> bool) (l : list A) :
  find q l = None <-> countDocs q l = 0%nat.
Proof.
  unfold countDocs. induction l as [|a l IH]; simpl; [tauto|].
  destruct (q a); simpl; [split; discriminate | exact IH].
Qed.

Lemma countDocs_app {A} (q : A -> bool) (l1 l2 : list A) :
  countDocs q (l1 ++ l2) = (countDocs q l1 + countDocs q l2)%nat.
Proof. unfold countDocs. rewrite filter_app, length_app. reflexivity. Qed.

(** The entry a successful posting builds answers the guard's query. *)
Lemma cogs_entry_matches orderId newId refNo date total :
  isCOGSEntryOf orderId
    (mkJournalEntry newId refNo date "inventory" (Some orderId) (Some "order")
                    (cogsLines total) "posted" None) = true.
Proof.
  unfold isCOGSEntryOf. cbn [sourceId sourceType lines je_status optEqb].
  rewrite String.eqb_refl. reflexivity.
Qed.

(** What a successful invocation did: it found the entry, or it appended
    the one it returns. *)
Ltac dead :=
  solve [ try unfold throw; try unfold return_; cbn;
          let H := fresh in intro H; discriminate H ].

Lemma postCOGSEntry_success orderId session refSuffix now (w w1 : World)
      (r : CogsResult) :
  await (postCOGSEntry orderId session refSuffix now) w = (inl r, w1) ->
  (exists order,
      findOne (byId ord_id orderId) (orders (view session w)) = Some order)
  /\ ((findOne (isCOGSEntryOf orderId) (journalEntries (view session w))
       = Some (journalEntry r)
       /\ productsUpdated r = [] /\ w1 = w)
      \/ (findOne (isCOGSEntryOf orderId) (journalEntries (view session w)) = None
          /\ journalEntries (view session w1)
             = journalEntries (view session w) ++ [journalEntry r]
          /\ orders (view session w1) = orders (view session w)
          /\ isCOGSEntryOf orderId (journalEntry r) = true)).
Proof.
  unfold await, postCOGSEntry. unfold bind at 1. unfold dbRead at 1.
  destruct (findOne (byId ord_id orderId) (orders (view session w)))
    as [order|] eqn:Fo; [|dead].
  intro H. split; [eauto|]. revert H.
  unfold bind at 1. unfold dbRead at 1.
  destruct (findOne (isCOGSEntryOf orderId) (journalEntries (view session w)))
    as [e|] eqn:Fe.
  - cbn. intro H. inversion H; subst. left. auto.
  - destruct (List.length (orderItems order) =? 0)%nat; [dead|].
    unfold bind at 1.
    pose proof (cogs_loop_frame (R:=CogsResult) session (orderItems order)
                  (0, []) w) as Hframe. cbv zeta in Hframe.
    pose proof (cogs_loop_no_return (R:=CogsResult) session (orderItems order)
                  (0, []) w) as Hnr.
    destruct (forOf (orderItems order) (cogsItem session) (0, []) w)
      as [[acc|r0|e0] w2]; [|exfalso; eapply Hnr; reflexivity|dead].
    cbn [snd] in Hframe. destruct Hframe as [HE [HO _]].
    cbv zeta. destruct (Js.le (fst acc) 0); [dead|].
    unfold bind at 1. unfold dbRead at 1.
    destruct (negb _); [dead|].
    unfold bind at 1. unfold dbRead at 1.
    destruct (findOne _ (journalEntries (view session w2))); [dead|].
    destruct (unbalanced _); [dead|].
    unfold bind at 1. unfold freshId at 1.
    unfold bind at 1. unfold dbWrite at 1. cbn [faults writeCount].
    destruct (faults w2 (writeCount w2)); [dead|].
    cbn [return_]. intro H. inversion H; subst. right. cbn [journalEntry].
    split; [reflexivity|]. rewrite !view_applyWrite.
    cbn [journalEntries orders setJournalEntries].
    change (view session (countWrite ?x)) with (view session x).
    split; [|split].
    + unfold insertDoc. f_equal. exact HE.
    + exact HO.
    + apply cogs_entry_matches.
Qed.

(** With an entry already posted for the order, the operation reads and
    returns. *)
Lemma postCOGSEntry_existing orderId session refSuffix now (w : World)
      (order : Order) (e : JournalEntry) :
  findOne (byId ord_id orderId) (orders (view session w)) = Some order ->
  findOne (isCOGSEntryOf orderId) (journalEntries (view session w)) = Some e ->
  await (postCOGSEntry orderId session refSuffix now) w
  = (inl (mkCogsResult e []), w).
Proof.
  intros Fo Fe. unfold await, postCOGSEntry, bind, dbRead.
  rewrite Fo, Fe. reflexivity.
Qed.

Lemma postCOGSEntry_no_order orderId session refSuffix now (w : World) :
  findOne (byId ord_id orderId) (orders (view session w)) = None ->
  snd (await (postCOGSEntry orderId session refSuffix now) w) = w.
Proof.
  intros Fo. unfold await, postCOGSEntry, bind, dbRead.
  rewrite Fo. reflexivity.
Qed.

(** After a successful invocation, the next one returns the same entry
    and changes nothing. *)
Lemma postCOGSEntry_again orderId session sfx1 now1 sfx2 now2
      (w w1 : World) (r1 : CogsResult) :
  await (postCOGSEntry orderId session sfx1 now1) w = (inl r1, w1) ->
  await (postCOGSEntry orderId session sfx2 now2) w1
  = (inl (mkCogsResult (journalEntry r1) []), w1).
Proof.
  intro H. apply postCOGSEntry_success in H.
  destruct H as [[order Fo] [[Fe [_ E]]|[Fe [HE [HO Hm]]]]].
  - subst w1. eapply postCOGSEntry_existing; eauto.
  - eapply postCOGSEntry_existing.
    + rewrite HO. exact Fo.
    + rewrite HE. apply find_app_none; assumption.
Qed.

(** C2. When an invocation of the COGS posting for an order succeeds, a
    second invocation returns the entry of the first, with an empty
    productsUpdated list, and leaves the datastore as it is; the entry
    answers the guard's query (source the order, a 632 line, posted), and
    the number of such entries is one when there was none before (and
    unchanged when there were some). *)
Theorem postCOGSEntry_idempotent orderId session sfx1 now1 sfx2 now2
        (w w1 : World) (r1 : CogsResult) :
  await (postCOGSEntry orderId session sfx1 now1) w = (inl r1, w1) ->
  await (postCOGSEntry orderId session sfx2 now2) w1
  = (inl (mkCogsResult (journalEntry r1) []), w1)
  /\ isCOGSEntryOf orderId (journalEntry r1) = true
  /\ countDocs (isCOGSEntryOf orderId) (journalEntries (view session w1))
     = Nat.max 1 (countDocs (isCOGSEntryOf orderId)
                            (journalEntries (view session w))).
Proof.
  intro H. split; [eapply postCOGSEntry_again; eauto|].
  apply postCOGSEntry_success in H.
  destruct H as [_ [[Fe [_ E]]|[Fe [HE [HO Hm]]]]].
  - subst w1. split.
    + apply find_some in Fe. tauto.
    + destruct (countDocs _ _) eqn:C; [|lia].
      apply countDocs_find_none in C. unfold findOne in Fe. congruence.
  - split; [exact Hm|]. rewrite HE, countDocs_app.
    apply countDocs_find_none in Fe. rewrite Fe.
    unfold countDocs. simpl. rewrite Hm. reflexivity.
Qed.

Lemma postCOGSEntry_idempotent_witness :
  exists r1 w1,
    await (postCOGSEntry "ord1" false "202401-ABCDE" 6000%Z) exCogsWorld
    = (inl r1, w1)
    /\ await (postCOGSEntry "ord1" false "202401-FGHIJ" 7000%Z) w1
       = (inl (mkCogsResult (journalEntry r1) []), w1)
    /\ isCOGSEntryOf "ord1" (journalEntry r1) = true
    /\ countDocs (isCOGSEntryOf "ord1") (journalEntries (view false w1))
       = Nat.max 1 (countDocs (isCOGSEntryOf "ord1")
                              (journalEntries (view false exCogsWorld))).
Proof.
  eexists. eexists. split.
  - vm_compute. reflexivity.
  - apply (postCOGSEntry_idempotent "ord1" false "202401-ABCDE" 6000%Z
             "202401-FGHIJ" 7000%Z exCogsWorld).
    vm_compute. reflexivity.
Defined.

(** C10. When a posted COGS entry for the order already exists, the
    operation leaves the whole datastore as it is -- so every product
    keeps its stock and averageCost -- and, the order being found, returns
    that entry with an empty productsUpdated list; and after any
    successful invocation the next one changes no product. *)
Theorem postCOGSEntry_existing_entry_frame orderId session :
  (forall (w : World) (e : JournalEntry) sfx now,
      findOne (isCOGSEntryOf orderId) (journalEntries (view session w)) = Some e ->
      snd (await (postCOGSEntry orderId session sfx now) w) = w
      /\ products (view session
                        (snd (await (postCOGSEntry orderId session sfx now) w)))
         = products (view session w)
      /\ (forall order,
             findOne (byId ord_id orderId) (orders (view session w)) = Some order ->
             fst (await (postCOGSEntry orderId session sfx now) w)
             = inl (mkCogsResult e [])))
  /\ (forall (w0 w1 : World) (r1 : CogsResult) sfx1 now1 sfx2 now2,
         await (postCOGSEntry orderId session sfx1 now1) w0 = (inl r1, w1) ->
         products (view session
                        (snd (await (postCOGSEntry orderId session sfx2 now2) w1)))
         = products (view session w1)
         /\ (forall r2 w2,
                await (postCOGSEntry orderId session sfx2 now2) w1 = (inl r2, w2) ->
                productsUpdated r2 = [])).
Proof.
  split.
  - intros w e sfx now Fe.
    destruct (findOne (byId ord_id orderId) (orders (view session w)))
      as [order|] eqn:Fo.
    + rewrite (postCOGSEntry_existing orderId session sfx now w order e Fo Fe).
      repeat split.
    + rewrite (postCOGSEntry_no_order orderId session sfx now w Fo).
      repeat split. intros order' E. discriminate E.
  - intros w0 w1 r1 sfx1 now1 sfx2 now2 H.
    rewrite (postCOGSEntry_again orderId session sfx1 now1 sfx2 now2 w0 w1 r1 H).
    split; [reflexivity|]. intros r2 w2 E. inversion E. reflexivity.
Qed.

Lemma postCOGSEntry_existing_entry_frame_witness :
  let w1 := snd (await (postCOGSEntry "ord1" false "202401-ABCDE" 6000%Z)
                       exCogsWorld) in
  exists e,
    findOne (isCOGSEntryOf "ord1") (journalEntries (view false w1)) = Some e
    /\ snd (await (postCOGSEntry "ord1" false "202401-FGHIJ" 7000%Z) w1) = w1
    /\ products (view false
                      (snd (await (postCOGSEntry "ord1" false "202401-FGHIJ"
                                                 7000%Z) w1)))
       = products (view false w1).
Proof.
  intro w1. eexists. split.
  - vm_compute. reflexivity.
  - split;
      eapply (proj1 (postCOGSEntry_existing_entry_frame "ord1" false) w1);
      vm_compute; reflexivity.
Defined.

(* ================================================================== *)
(** ** Period closing *)
(* ================================================================== *)

(** C3. Closing a period whose status is already 'closed' is answered
    400 with no payload; the committed datastore is the one before the
    call -- no journal entry is added and the period record (status,
    lockDate, closedAt, closedBy) is the same document -- and no
    transaction is left open. *)
Theorem closePeriod_closed_rejected b userId today s1 s2 s3 (w : World)
        (p : AccountingPeriod) :
  Js.truthyStr (cp_periodId b) = true ->
  findOne (byId per_id (cp_periodId b)) (periods (committed w)) = Some p ->
  per_status p = "closed" ->
  fst (closePeriod b userId today s1 s2 s3 w) = mkResponse 400 None
  /\ committed (snd (closePeriod b userId today s1 s2 s3 w)) = committed w
  /\ staged (snd (closePeriod b userId today s1 s2 s3 w)) = None
  /\ journalEntries (committed (snd (closePeriod b userId today s1 s2 s3 w)))
     = journalEntries (committed w)
  /\ findOne (byId per_id (cp_periodId b))
             (periods (committed (snd (closePeriod b userId today s1 s2 s3 w))))
     = Some p.
Proof.
  intros Hid Hf Hc.
  assert (E : closePeriod b userId today s1 s2 s3 w
              = (mkResponse 400 None,
                 mkWorld (committed w) None (nextId w) (idSupply w)
                         (writeCount w) (faults w))).
  { unfold closePeriod, withSession. rewrite Hid. cbn [negb].
    unfold bind at 1. unfold dbRead at 1.
    change (view true (startTransaction w)) with (committed w).
    rewrite Hf, Hc. reflexivity. }
  rewrite E. cbn [fst snd committed staged]. auto.
Qed.

Lemma closePeriod_closed_rejected_witness :
  Js.truthyStr "per0" = true
  /\ findOne (byId per_id "per0") (periods (committed exPeriodWorld))
     = Some exClosedPeriod
  /\ per_status exClosedPeriod = "closed"
  /\ fst (closePeriod (mkClosePeriodBody "per0" (Some 1400%Z)) (Some "admin")
                      9000%Z "000001" "000002" "000003" exPeriodWorld)
     = mkResponse 400 None
  /\ committed (snd (closePeriod (mkClosePeriodBody "per0" (Some 1400%Z))
                                 (Some "admin") 9000%Z "000001" "000002"
                                 "000003" exPeriodWorld))
     = committed exPeriodWorld.
Proof.
  split; [reflexivity|]. split; [reflexivity|]. split; [reflexivity|].
  pose proof (closePeriod_closed_rejected
                (mkClosePeriodBody "per0" (Some 1400%Z)) (Some "admin") 9000%Z
                "000001" "000002" "000003" exPeriodWorld exClosedPeriod
                eq_refl eq_refl eq_refl) as H.
  split; [exact (proj1 H) | exact (proj1 (proj2 H))].
Defined.





Lemma profitClosingLines_even (net : Q) :
  net == 0 -> profitClosingLines net = [].
Proof.
  intro H. unfold profitClosingLines.
  destruct (Js.gt net 0) eqn:G; [apply Js_gt_true in G; lra|].
  destruct (Js.lt net 0) eqn:L; [apply Js_lt_true in L; lra|]. reflexivity.
Qed.



(* ================================================================== *)
(** ** Trial balance *)
(* ================================================================== *)











(* ================================================================== *)
(** ** Sale posting *)
(* ================================================================== *)

(** Posting without a receivable: the bank-transfer class, and a
    shipped cash-on-delivery order of a guest. *)
Lemma sale_entry_only order sfx now (w : World) debitCode :
  findOne (isEntryOfOrder (ord_id order)) (journalEntries (committed w)) = None ->
  (forall n, faults w n = None) ->
  (isCOD (paymentMethod order) && negb (shippedOrDelivered (ord_status order)))
  = false ->
  (if isCOD (paymentMethod order) && shippedOrDelivered (ord_status order)
   then (saleLines "131" order, true)
   else if isBankTransfer (paymentMethod order)
        then (saleLines "1121" order, false)
        else (saleLines "131" order, false))
  = (saleLines debitCode order,
     isCOD (paymentMethod order) && shippedOrDelivered (ord_status order)) ->
  (isCOD (paymentMethod order) && shippedOrDelivered (ord_status order))
  && hasUser order = false ->
  let e := saleEntry (idSupply w (nextId w)) sfx now debitCode order in
  exists w',
    await (createSaleJournalEntry order sfx now) w = (inl (Some e), w')
    /\ journalEntries (committed w') = journalEntries (committed w) ++ [e]
    /\ receivables (committed w') = receivables (committed w).
Proof.
  intros Hnone Hf Hdefer Hlines Hcredit e.
  unfold await, createSaleJournalEntry. cbv zeta.
  unfold bind at 1. unfold dbRead at 1.
  change (view false w) with (committed w). rewrite Hnone, Hdefer.
  unfold bind at 1. unfold freshId at 1.
  unfold bind at 1. unfold dbWrite at 1. cbn [faults writeCount].
  rewrite Hf, Hlines. cbn [fst snd]. rewrite Hcredit.
  eexists. split; [reflexivity|]. cbn. auto.
Qed.

(** Posting with its receivable: a shipped cash-on-delivery order of a
    user, no receivable existing yet for the order. *)
Lemma sale_entry_with_receivable order sfx now (w : World) u :
  findOne (isEntryOfOrder (ord_id order)) (journalEntries (committed w)) = None ->
  (forall n, faults w n = None) ->
  paymentMethod order = COD ->
  shippedOrDelivered (ord_status order) = true ->
  user order = Some u ->
  findOne (forOrder (ord_id order)) (receivables (committed w)) = None ->
  let e := saleEntry (idSupply w (nextId w)) sfx now "131" order in
  let r := mkReceivable (idSupply w (S (nextId w))) (je_id e) (Some u)
             (Some (ord_id order)) (finalTotal order) (finalTotal order)
             "unpaid" (addDays (shippedDate order now) codGraceDays)
             (Js.orElse (createdAt order) now) in
  exists w',
    await (createSaleJournalEntry order sfx now) w = (inl (Some e), w')
    /\ journalEntries (committed w') = journalEntries (committed w) ++ [e]
    /\ receivables (committed w') = receivables (committed w) ++ [r].
Proof.
  intros Hnone Hf Hcod Hship Hu Hrcv e r.
  unfold await, createSaleJournalEntry. cbv zeta.
  unfold bind at 1. unfold dbRead at 1.
  change (view false w) with (committed w). rewrite Hnone, Hcod, Hship.
  cbn [isCOD negb andb isBankTransfer fst snd].
  unfold bind at 1. unfold freshId at 1.
  unfold bind at 1. unfold dbWrite at 1. cbn [faults writeCount].
  rewrite Hf. unfold hasUser. rewrite Hu. cbn [when_ andb].
  unfold bind at 1. unfold bind at 1. unfold call at 1.
  unfold createReceivableFromOrder.
  unfold bind at 1. unfold dbRead at 1.
  cbn [view applyWrite countWrite committed receivables setJournalEntries].
  rewrite Hrcv.
  unfold bind at 1. unfold freshId at 1.
  unfold bind at 1. unfold dbWrite at 1.
  cbn [faults writeCount applyWrite countWrite].
  rewrite Hf. unfold receivableDueDate. rewrite Hcod.
  eexists. split; [reflexivity|]. cbn. subst r. rewrite Hu.
  split; reflexivity.
Qed.

(** C5 (as amended). For an order that no journal entry names as its
    source yet (an entry of any type, the COGS entry of the order
    included), the datastore accepting the writes: a bank-transfer-class
    order gets one entry at once, debit bank (1121) and credit revenue
    (511) for the order total, and no receivable; a cash-on-delivery
    order not yet shipped gets no entry and nothing changes; a shipped or
    delivered cash-on-delivery order gets one entry, debit receivable
    (131) and credit revenue (511) for the order total, and -- when the
    order has a user and no receivable exists yet for it -- one
    Receivable of that user and entry with originalAmount =
    remainingAmount = order total and paymentStatus unpaid; for an order
    without a user no Receivable is created. *)
Theorem createSaleJournalEntry_rule order sfx now (w : World) :
  findOne (isEntryOfOrder (ord_id order)) (journalEntries (committed w)) = None ->
  (forall n, faults w n = None) ->
  let res := await (createSaleJournalEntry order sfx now) w in
  let c := committed w in
  let c' := committed (snd res) in
  (isBankTransfer (paymentMethod order) = true ->
   exists e,
     fst res = inl (Some e)
     /\ journalEntries c' = journalEntries c ++ [e]
     /\ lines e = saleLines "1121" order /\ je_status e = "posted"
     /\ sourceId e = Some (ord_id order)
     /\ receivables c' = receivables c)
  /\ (paymentMethod order = COD ->
      shippedOrDelivered (ord_status order) = false ->
      fst res = inl None /\ snd res = w)
  /\ (paymentMethod order = COD ->
      shippedOrDelivered (ord_status order) = true ->
      exists e,
        fst res = inl (Some e)
        /\ journalEntries c' = journalEntries c ++ [e]
        /\ lines e = saleLines "131" order /\ je_status e = "posted"
        /\ sourceId e = Some (ord_id order)
        /\ (forall u,
               user order = Some u ->
               findOne (forOrder (ord_id order)) (receivables c) = None ->
               exists r,
                 receivables c' = receivables c ++ [r]
                 /\ rcv_journalEntry r = je_id e
                 /\ customer r = Some u
                 /\ rcv_order r = Some (ord_id order)
                 /\ rcv_originalAmount r = finalTotal order
                 /\ rcv_remainingAmount r = finalTotal order
                 /\ rcv_paymentStatus r = "unpaid")
        /\ (user order = None -> receivables c' = receivables c)).
Proof.
  intros Hnone Hf res c c'. subst res c c'.
  split; [|split].
  - intro Hbank.
    assert (Hm : isCOD (paymentMethod order) = false)
      by (destruct (paymentMethod order); simpl in *; congruence).
    destruct (sale_entry_only order sfx now w "1121" Hnone Hf)
      as (w' & E1 & E2 & E3);
      try (rewrite Hm; try rewrite Hbank; reflexivity).
    rewrite E1. eexists. repeat split; eauto.
  - intros Hcod Hship.
    assert (E : await (createSaleJournalEntry order sfx now) w = (inl None, w)).
    { unfold await, createSaleJournalEntry. cbv zeta.
      unfold bind at 1. unfold dbRead at 1.
      change (view false w) with (committed w). rewrite Hnone, Hcod, Hship.
      reflexivity. }
    rewrite E. split; reflexivity.
  - intros Hcod Hship.
    exists (saleEntry (idSupply w (nextId w)) sfx now "131" order).
    destruct (user order) as [u|] eqn:Hu.
    + destruct (findOne (forOrder (ord_id order)) (receivables (committed w)))
        as [r0|] eqn:Hr.
      * (* a receivable already exists: the entry alone is posted *)
        assert (K : exists w',
                   await (createSaleJournalEntry order sfx now) w
                   = (inl (Some (saleEntry (idSupply w (nextId w)) sfx now "131"
                                           order)), w')
                   /\ journalEntries (committed w')
                      = journalEntries (committed w)
                        ++ [saleEntry (idSupply w (nextId w)) sfx now "131" order]).
        { unfold await, createSaleJournalEntry. cbv zeta.
          unfold bind at 1. unfold dbRead at 1.
          change (view false w) with (committed w). rewrite Hnone, Hcod, Hship.
          cbn [isCOD negb andb isBankTransfer fst snd].
          unfold bind at 1. unfold freshId at 1.
          unfold bind at 1. unfold dbWrite at 1. cbn [faults writeCount].
          rewrite Hf. unfold hasUser. rewrite Hu. cbn [when_ andb].
          unfold bind at 1. unfold bind at 1. unfold call at 1.
          unfold createReceivableFromOrder.
          unfold bind at 1. unfold dbRead at 1.
          cbn [view applyWrite countWrite committed receivables
               setJournalEntries].
          rewrite Hr. eexists. split; [reflexivity|]. cbn. auto. }
        destruct K as (w' & K1 & K2). rewrite K1.
        repeat split; auto; intros; congruence.
      * destruct (sale_entry_with_receivable order sfx now w u Hnone Hf Hcod Hship
                    Hu Hr) as (w' & E1 & E2 & E3).
        rewrite E1. repeat split; auto; [|intros; congruence].
        intros u' Eu _. inversion Eu; subst u'.
        eexists. split; [exact E3|]. repeat split.
    + destruct (sale_entry_only order sfx now w "131" Hnone Hf)
        as (w' & E1 & E2 & E3);
        try (rewrite Hcod, Hship; reflexivity).
      { rewrite Hcod, Hship. unfold hasUser. rewrite Hu. reflexivity. }
      rewrite E1. repeat split; auto. intros; congruence.
Qed.

(** C5 (as stated) fails on three counts.  A shipped cash-on-delivery
    order placed without a user gets its entry (debit 131, credit 511)
    but no Receivable.  A shipped cash-on-delivery order of a user whose
    COGS entry is already posted gets no sale entry and no Receivable:
    the guard finds the COGS entry and returns it.  And the Receivable of
    a shipped cash-on-delivery order falls due seven days after the order
    was created, whether the posting runs at 7000 or at 900000000: the
    order documents record no ship date. *)
Lemma createSaleJournalEntry_counterexample :
  (let order := mkOrder "ord9" None [mkOrderItem "prod1" (Some 1)] 300000 COD
                        shipped (Some 1000%Z) in
   let res := await (createSaleJournalEntry order "202401-KLMNO" 7000%Z) exWorld in
   (exists e, fst res = inl (Some e) /\ lines e = saleLines "131" order)
   /\ receivables (committed (snd res)) = [])
  /\ (let w1 := snd (postCOGSEntry "ord1" false "202401-ABCDE" 7000%Z
                                   exCogsWorld) in
      let res := await (createSaleJournalEntry exOrder "202401-KLMNO" 8000%Z) w1 in
      (exists e, fst res = inl (Some e) /\ entryType e = "inventory"
                 /\ isCOGSEntryOf "ord1" e = true)
      /\ journalEntries (committed (snd res)) = journalEntries (committed w1)
      /\ receivables (committed (snd res)) = [])
  /\ (forall now, In now [7000%Z; 900000000%Z] ->
      exists r,
        receivables
          (committed
             (snd (await (createSaleJournalEntry exOrder "202401-KLMNO" now)
                         exWorld)))
        = [r]
        /\ createdAt exOrder = Some 1000%Z
        /\ rcv_dueDate r = (1000 + 7 * 86400000)%Z
        /\ rcv_dueDate r <> (now + 7 * 86400000)%Z).
Proof.
  split; [|split].
  - split; [eexists; split|]; vm_compute; reflexivity.
  - split; [eexists; split; [|split]|split]; vm_compute; reflexivity.
  - intros now [<-|[<-|[]]]; eexists;
      (split; [vm_compute; reflexivity|]);
      (split; [reflexivity|]); (split; [reflexivity|]);
      vm_compute; discriminate.
Qed.

Lemma createSaleJournalEntry_rule_witness :
  findOne (isEntryOfOrder (ord_id exOrder)) (journalEntries (committed exWorld))
  = None
  /\ (forall n, faults exWorld n = None)
  /\ exists e r,
       fst (await (createSaleJournalEntry exOrder "202401-KLMNO" 7000%Z) exWorld)
       = inl (Some e)
       /\ lines e = [ mkLine "131" 300000 0 (Some "cust1") (Some "customer");
                      mkLine "511" 0 300000 (Some "cust1") (Some "customer") ]
       /\ receivables
            (committed
               (snd (await (createSaleJournalEntry exOrder "202401-KLMNO" 7000%Z)
                           exWorld)))
          = [r]
       /\ rcv_journalEntry r = je_id e /\ customer r = Some "cust1"
       /\ rcv_originalAmount r = 300000 /\ rcv_remainingAmount r = 300000
       /\ rcv_paymentStatus r = "unpaid".
Proof.
  split; [reflexivity|]. split; [reflexivity|].
  destruct (createSaleJournalEntry_rule exOrder "202401-KLMNO" 7000%Z exWorld
              eq_refl (fun _ => eq_refl))
    as (_ & _ & Hcod).
  destruct (Hcod eq_refl eq_refl) as (e & E1 & _ & E3 & _ & _ & Hr & _).
  destruct (Hr "cust1" eq_refl eq_refl)
    as (r & R1 & R2 & R3 & _ & R4 & R5 & R6).
  exists e, r. split; [exact E1|]. split; [exact E3|].
  split; [exact R1|]. split; [exact R2|]. split; [exact R3|].
  split; [exact R4|]. split; [exact R5 | exact R6].
Defined.

(* ================================================================== *)
(** ** Lock date *)
(* ================================================================== *)

(** C7 fails on the code.  In a ledger with a closed period locked up to
    its end (dates 0..1400, lockDate 1400), the guard reports a journal
    entry dated 1000 as locked, and the deletion of a transaction dated
    1200 is refused with 403; yet the journal-entry handlers, which never
    call the guard, delete that entry (200) and rewrite its lines (200),
    and the transaction update moves the locked transaction's amount
    (200). *)
Theorem lock_date_not_consulted :
  fst (await (checkLockDate (je_date exSale)) exPeriodWorld)
  = inl (mkLockCheck true (Some 1400%Z) (Some "Thang 12 2023"))
  /\ statusCode (fst (deleteTransaction "txn1" exPeriodWorld)) = 403%nat
  /\ transactions (committed (snd (deleteTransaction "txn1" exPeriodWorld)))
     = transactions exPeriodStore
  /\ statusCode (fst (deleteJournalEntry "je1" exPeriodWorld)) = 200%nat
  /\ findOne (byId je_id "je1")
             (journalEntries
                (committed (snd (deleteJournalEntry "je1" exPeriodWorld))))
     = None
  /\ (let body :=
        mkJournalEntryBody "" None "" None
          (Some [ mkLineInput "111" 1%float nan None None;
                  mkLineInput "511" nan 1%float None None ])
          None None in
      statusCode (fst (putJournalEntry "je1" body exPeriodWorld)) = 200%nat
      /\ option_map lines
           (findOne (byId je_id "je1")
              (journalEntries
                 (committed (snd (putJournalEntry "je1" body exPeriodWorld)))))
         = Some [ mkLine "111" 1 0 None None; mkLine "511" 0 1 None None ])
  /\ (let patch := mkTransactionPatch "" (Some 1) "" None None "" in
      statusCode (fst (putTransaction "txn1" patch exPeriodWorld)) = 200%nat
      /\ option_map txn_amount
           (findOne (byId txn_id "txn1")
              (transactions
                 (committed (snd (putTransaction "txn1" patch exPeriodWorld)))))
         = Some 1).
Proof.
  repeat split; vm_compute; reflexivity.
Qed.

(** In general: whatever the periods say, deleting a journal entry that
    no receivable or payable refers to succeeds when the datastore
    accepts the write. *)
Lemma deleteJournalEntry_ignores_periods (id : ObjectId) (w : World)
      (e : JournalEntry) :
  findOne (byId je_id id) (journalEntries (committed w)) = Some e ->
  findOne (byId rcv_journalEntry id) (receivables (committed w)) = None ->
  findOne (byId pay_journalEntry id) (payables (committed w)) = None ->
  faults w (writeCount w) = None ->
  exists w',
    deleteJournalEntry id w = (mkResponse 200 (Some tt), w')
    /\ journalEntries (committed w')
       = deleteFirst (byId je_id id) (journalEntries (committed w)).
Proof.
  intros He Hr Hp Hf. unfold deleteJournalEntry, withoutSession.
  unfold bind at 1. unfold dbRead at 1.
  change (view false w) with (committed w). rewrite He.
  unfold bind at 1. unfold dbRead at 1.
  change (view false w) with (committed w). rewrite Hr.
  unfold bind at 1. unfold dbRead at 1.
  change (view false w) with (committed w). rewrite Hp.
  unfold bind at 1. unfold dbWrite at 1. rewrite Hf.
  eexists. split; reflexivity.
Qed.

(* ================================================================== *)
(** ** Monthly depreciation *)
(* ================================================================== *)














Lemma exAssetStore_assetsOK : assetsOK exAssetStore.
Proof.
  intros a [E|[E|[]]]; subst a; split.
  - vm_compute. discriminate.
  - intro month. unfold monthRows, countDocs. cbn [exAsset depreciationHistory filter dep_month].
    destruct (String.eqb "2023-12" month); simpl; lia.
  - vm_compute. discriminate.
  - intro month. vm_compute. lia.
Qed.



(* ================================================================== *)
(** ** Atomicity of the handlers that open a session *)
(* ================================================================== *)

Ltac tx_write :=
  idtac;
  lazymatch goal with
  | |- keeps (holds (inTx _)) (dbWrite true _) => apply inTx_dbWrite
  end.

Ltac tx_step :=
  lazymatch goal with
  | |- txSafe _ (bind abortTransaction (fun _ => return_ _)) =>
      apply txSafe_abort_return
  | |- txSafe _ (bind commitTransaction (fun _ => return_ _)) =>
      apply txSafe_commit_return; reflexivity
  | |- txSafe _ (bind _ _) => apply txSafe_bind; [| intros ?]
  | |- txSafe _ (tryCatch _ _) => apply txSafe_tryCatch; [| intros ?]
  | |- txSafe _ (forOf _ _ _) => apply txSafe_forOf; intros ? ?
  | |- txSafe _ (when_ _ _) => unfold when_
  | |- txSafe _ (if ?c then _ else _) => destruct c eqn:?
  | |- txSafe _ (match ?x with _ => _ end) => destruct x eqn:?
  | |- txSafe _ (let _ := _ in _) => cbv zeta
  | |- txSafe _ (ret _) => apply txSafe_keeps; intro; apply keeps_ret
  | |- txSafe _ (throw _) => apply txSafe_keeps; intro; apply keeps_throw
  | |- txSafe _ (dbRead _ _) => apply txSafe_keeps; intro; apply keeps_dbRead
  | |- txSafe _ freshId => apply txSafe_keeps; intro; apply keeps_freshId
  | |- txSafe _ (dbWrite true _) => apply txSafe_keeps; intro; apply inTx_dbWrite
  | |- txSafe _ (call _) =>
      apply txSafe_keeps; intro; apply keeps_call; repeat keeps_step tx_write
  | |- txSafe _ ?m => let h := head_of m in progress unfold h
  end.

Ltac tx := repeat tx_step.

Lemma atomic_postEntry b refAuto stampAt (w : World) :
  committed (snd (postEntry b refAuto stampAt w)) = committed w
  \/ statusCode (fst (postEntry b refAuto stampAt w)) = 201%nat.
Proof. apply withSession_atomic. tx. Qed.

Lemma atomic_internalTransfer b refAuto (w : World) :
  committed (snd (internalTransfer b refAuto w)) = committed w
  \/ statusCode (fst (internalTransfer b refAuto w)) = 201%nat.
Proof. apply withSession_atomic. tx. Qed.

Lemma atomic_adjustingEntry b refAuto (w : World) :
  committed (snd (adjustingEntry b refAuto w)) = committed w
  \/ statusCode (fst (adjustingEntry b refAuto w)) = 201%nat.
Proof. apply withSession_atomic. tx. Qed.

Lemma atomic_postCogsRoute orderId refSuffix now (w : World) :
  committed (snd (postCogsRoute orderId refSuffix now w)) = committed w
  \/ statusCode (fst (postCogsRoute orderId refSuffix now w)) = 201%nat.
Proof. apply withSession_atomic. tx. Qed.

Lemma atomic_closePeriod b userId today s1 s2 s3 (w : World) :
  committed (snd (closePeriod b userId today s1 s2 s3 w)) = committed w
  \/ statusCode (fst (closePeriod b userId today s1 s2 s3 w)) = 200%nat.
Proof. apply withSession_atomic. tx. Qed.

Lemma atomic_depreciationCalculate month currentMonth monthStart (w : World) :
  committed (snd (depreciationCalculate month currentMonth monthStart w))
  = committed w
  \/ statusCode (fst (depreciationCalculate month currentMonth monthStart w))
     = 200%nat.
Proof. apply withSession_atomic. tx. Qed.

(** *** What a successful rule-driven posting has committed *)

Lemma wp_bind {R A B} (m : M R A) (k : A -> M R B) QN QR QT (w : World) :
  wp m (fun a w' => wp (k a) QN QR QT w') QR QT w -> wp (bind m k) QN QR QT w.
Proof. unfold wp, bind. destruct (m w) as [[a|r|e] w']; auto. Qed.

Lemma wp_mono {R A} (m : M R A) (QN QN' : A -> World -> Prop)
      (QR QR' : R -> World -> Prop) (QT QT' : Exn -> World -> Prop) (w : World) :
  wp m QN QR QT w ->
  (forall a w', QN a w' -> QN' a w') ->
  (forall r w', QR r w' -> QR' r w') ->
  (forall e w', QT e w' -> QT' e w') ->
  wp m QN' QR' QT' w.
Proof. unfold wp. destruct (m w) as [[a|r|e] w']; auto. Qed.

Lemma wp_bind_any {R A B} (m : M R A) (k : A -> M R B) QN QR (w : World) :
  returnsOnly QR m ->
  (forall a w', wp (k a) QN QR (fun _ _ => True) w') ->
  wp (bind m k) QN QR (fun _ _ => True) w.
Proof.
  intros Hm Hk. apply wp_bind. apply (wp_mono _ _ _ _ _ _ _ _ (Hm w)); auto.
Qed.

Lemma wp_keeps {R A} (I : World -> Prop) (m : M R A) (w : World) :
  keeps I m -> I w -> wp m (fun _ => I) (fun _ => I) (fun _ => I) w.
Proof.
  intros Hk Hw. specialize (Hk w Hw). unfold wp.
  destruct (m w) as [[a|r|e] w']; exact Hk.
Qed.

Lemma wp_call {R R'} (body : M R' R') QN (QR : R -> World -> Prop) QT (w : World) :
  wp body QN QN QT w -> wp (call body) QN QR QT w.
Proof. unfold wp, call. destruct (body w) as [[a|r|e] w']; auto. Qed.

Lemma wp_tryCatch {R A} (body : M R A) (handler : Exn -> M R A) QN QR QT
      (w : World) :
  wp body QN QR (fun e w' => wp (handler e) QN QR QT w') w ->
  wp (tryCatch body handler) QN QR QT w.
Proof. unfold wp, tryCatch. destruct (body w) as [[a|r|e] w']; auto. Qed.

Lemma wp_dbWrite {R} (session : bool) (f : Store -> Store)
      (QN : unit -> World -> Prop) (QR : R -> World -> Prop) QT (w : World) :
  (forall e, QT e (countWrite w)) ->
  QN tt (applyWrite session f (countWrite w)) ->
  wp (dbWrite session f) QN QR QT w.
Proof.
  intros Ht Hn. unfold wp, dbWrite.
  destruct (faults w (writeCount w)); auto.
Qed.

Lemma returnsOnly_bind {R A B} QR (m : M R A) (k : A -> M R B) :
  returnsOnly QR m -> (forall a, returnsOnly QR (k a)) ->
  returnsOnly QR (bind m k).
Proof. intros Hm Hk w. apply wp_bind_any; [exact Hm | intros a w'; apply Hk]. Qed.

Lemma returnsOnly_forOf {R X S} QR (xs : list X) (body : X -> S -> M R S)
      (acc : S) :
  (forall x a, returnsOnly QR (body x a)) -> returnsOnly QR (forOf xs body acc).
Proof.
  intro H. revert acc. induction xs as [|x xs IH]; intro acc; simpl.
  - intro w. exact I.
  - apply returnsOnly_bind; [apply H | intro a; apply IH].
Qed.

Lemma returnsOnly_call {R R'} QR (body : M R' R') :
  returnsOnly QR (@call R R' body).
Proof. intro w. unfold wp, call. destruct (body w) as [[a|r|e] w']; exact I. Qed.

Lemma returnsOnly_return {R A} (QR : R -> World -> Prop) (r : R) :
  (forall w, QR r w) -> returnsOnly QR (@return_ R A r).
Proof. intros H w. apply H. Qed.

(** [trim] leaves something exactly when the string holds a character
    that is not white space; so trimming twice is as truthy as once. *)
Lemma truthy_trimStart (s : string) : Js.truthyStr (trimStart s) = hasInk s.
Proof.
  induction s as [|c r IH]; simpl; [reflexivity|].
  destruct (isWhitespace c); simpl; [exact IH | reflexivity].
Qed.

Lemma hasInk_trimStart (s : string) : hasInk (trimStart s) = hasInk s.
Proof.
  induction s as [|c r IH]; simpl; [reflexivity|].
  destruct (isWhitespace c) eqn:E; simpl; [exact IH | rewrite E; reflexivity].
Qed.

Lemma hasInk_revString (s acc : string) :
  hasInk (revString s acc) = hasInk s || hasInk acc.
Proof.
  revert acc. induction s as [|c r IH]; intro acc; simpl; [reflexivity|].
  rewrite IH. simpl. destruct (isWhitespace c); simpl;
    [reflexivity | rewrite orb_true_r; reflexivity].
Qed.

Lemma truthy_revString (s acc : string) :
  Js.truthyStr (revString s acc) = Js.truthyStr s || Js.truthyStr acc.
Proof.
  revert acc. induction s as [|c r IH]; intro acc; simpl; [reflexivity|].
  rewrite IH. simpl. apply orb_true_r.
Qed.

Lemma hasInk_trim (s : string) : hasInk (trim s) = hasInk s.
Proof.
  unfold trim. rewrite hasInk_revString, hasInk_trimStart, hasInk_revString,
    hasInk_trimStart. simpl. rewrite !orb_false_r. reflexivity.
Qed.

Lemma truthy_trim (s : string) : Js.truthyStr (trim s) = hasInk s.
Proof.
  unfold trim. rewrite truthy_revString, truthy_trimStart, hasInk_revString,
    hasInk_trimStart. simpl. rewrite !orb_false_r. reflexivity.
Qed.

Lemma truthy_trim_trim (s : string) :
  Js.truthyStr (trim (trim s)) = Js.truthyStr (trim s).
Proof. rewrite !truthy_trim. apply hasInk_trim. Qed.

Lemma onView_view (Q : Store -> Prop) (w : World) :
  holds (onView Q) w <-> Q (view true w).
Proof. unfold holds, onView, view. tauto. Qed.

Lemma onView_dbWrite {R} (Q : Store -> Prop) (session : bool)
      (f : Store -> Store) :
  (forall s, Q s -> Q (f s)) -> keeps (holds (onView Q)) (@dbWrite R session f).
Proof.
  intro Hf. apply keeps_dbWrite. intros w H.
  unfold holds, onView, applyWrite in *. simpl.
  destruct session; destruct (staged w); simpl; auto.
Qed.

Ltac view_write :=
  idtac;
  lazymatch goal with
  | |- keeps (holds (onView _)) (dbWrite _ _) =>
      apply onView_dbWrite; intros ? ?; assumption
  end.

Lemma entry_findOrCreatePartner (e : JournalEntry) name ph type stampAt re :
  keeps (hasEntry e) (findOrCreatePartner name ph type true stampAt re).
Proof. unfold hasEntry. repeat keeps_step view_write. Qed.

Lemma entry_findOrCreateDefaultPartner (e : JournalEntry) type :
  keeps (hasEntry e) (findOrCreateDefaultPartner type true).
Proof. unfold hasEntry. repeat keeps_step view_write. Qed.

Lemma default_partner_wp {R} (e : JournalEntry) type
      (QR : R -> World -> Prop) (w : World) :
  hasEntry e w ->
  wp (call (findOrCreateDefaultPartner type true))
     (fun _ => hasEntry e) QR (fun _ _ => True) w.
Proof.
  intro H. apply wp_call.
  apply (wp_mono _ _ _ _ _ _ _ _
           (wp_keeps _ _ w (entry_findOrCreateDefaultPartner e type) H)); auto.
Qed.

Lemma partner_wp {R} (e : JournalEntry) name type stampAt re (w : World) :
  hasEntry e w ->
  wp (tryCatch
        (p <- call (findOrCreatePartner name None type true stampAt re) ;;
         reloaded <- dbRead true
           (fun s => findOne (byId usr_id (usr_id p)) (users s)) ;;
         match reloaded with
         | Some p' => ret p'
         | None => throw nullIdError
         end)
        (fun _ => call (findOrCreateDefaultPartner type true)))
     (fun _ => hasEntry e) (fun (_ : R) _ => False) (fun _ _ => True) w.
Proof.
  intro H. apply wp_tryCatch, wp_bind, wp_call.
  apply (wp_mono _ _ _ _ _ _ _ _
           (wp_keeps _ _ w
              (entry_findOrCreatePartner e name None type stampAt re) H)).
  - intros p w' H'. unfold wp, bind, dbRead.
    destruct (findOne _ _); simpl; [exact H'|].
    apply default_partner_wp, H'.
  - intros p w' H'. unfold wp, bind, dbRead.
    destruct (findOne _ _); simpl; [exact H'|].
    apply default_partner_wp, H'.
  - intros x w' H'. apply default_partner_wp, H'.
Qed.

Lemma createDebtRecord_wp {R} b amountNum date dueDate name debitCode creditCode
      entry stampAt (w : World) :
  hasEntry entry w ->
  wp (@createDebtRecord R b amountNum date dueDate name debitCode creditCode
                        entry stampAt)
     (fun _ w' =>
        In entry (journalEntries (view true w'))
        /\ (String.eqb (pe_type b) "income" && String.eqb debitCode "131" = true ->
            exists r, In r (receivables (view true w'))
                      /\ rcv_journalEntry r = je_id entry
                      /\ rcv_originalAmount r = amountNum
                      /\ rcv_paymentStatus r = "unpaid")
        /\ (String.eqb (pe_type b) "income" && String.eqb debitCode "131" = false ->
            String.eqb (pe_type b) "expense" && String.eqb creditCode "331" = true ->
            exists p, In p (payables (view true w'))
                      /\ pay_journalEntry p = je_id entry
                      /\ pay_originalAmount p = amountNum
                      /\ pay_paymentStatus p = "unpaid"))
     (fun _ _ => False) (fun _ _ => True) w.
Proof.
  intro H. unfold createDebtRecord. cbv zeta. apply wp_bind.
  apply (wp_mono _ _ _ _ _ _ _ _
           (partner_wp entry name (pe_type b) stampAt (pe_partnerRegExp b) w H));
    auto.
  clear w H. intros partner w H.
  destruct (String.eqb (pe_type b) "income" && String.eqb debitCode "131") eqn:E1;
    [|destruct (String.eqb (pe_type b) "expense" && String.eqb creditCode "331")
        eqn:E2].
  - apply wp_bind. unfold wp at 1, freshId at 1.
    apply wp_dbWrite; [auto|].
    rewrite view_applyWrite. cbn [view countWrite staged committed] in *.
    split; [exact H|]. split; [|discriminate].
    intros _. eexists. split; [apply in_or_app; right; left; reflexivity|].
    repeat split.
  - apply wp_bind. unfold wp at 1, freshId at 1.
    apply wp_dbWrite; [auto|].
    rewrite view_applyWrite. cbn [view countWrite staged committed] in *.
    split; [exact H|]. split; [discriminate|].
    intros _ _. eexists. split; [apply in_or_app; right; left; reflexivity|].
    repeat split.
  - unfold wp, ret. split; [exact H|]. split; discriminate.
Qed.

Lemma wp_abort_return {R A} (r : R) (QN : A -> World -> Prop)
      (QR : R -> World -> Prop) QT (w : World) :
  (forall w', QR r w') -> wp (abortTransaction ;;; @return_ R A r) QN QR QT w.
Proof. intro H. unfold wp, bind, abortTransaction, return_. apply H. Qed.

Lemma returnsOnly_abort_return {R A} (r : R) (QR : R -> World -> Prop) :
  (forall w', QR r w') -> returnsOnly QR (abortTransaction ;;; @return_ R A r).
Proof. intros H w. apply wp_abort_return, H. Qed.

Lemma returnsOnly_never {R A} (QR : R -> World -> Prop) (m : M R A) :
  (forall w r, fst (m w) <> Returned r) -> returnsOnly QR m.
Proof.
  intros H w. unfold wp. specialize (H w).
  destruct (m w) as [[a|r|e] w']; auto. exfalso. apply (H r). reflexivity.
Qed.

Lemma returnsOnly_checkAccount (QR : Response JournalEntry -> World -> Prop)
      c accs :
  (forall w', QR (mkResponse 400 None) w') ->
  returnsOnly QR (checkAccount c accs).
Proof.
  intro H. unfold checkAccount. apply returnsOnly_bind.
  - intro w. exact I.
  - intros [a|]; [intro w; exact I|].
    destruct (accountCodeDefinitions c) as [[[[name type] lvl] parent]|].
    + apply returnsOnly_bind; [apply returnsOnly_call | intros a w; exact I].
    + apply returnsOnly_abort_return, H.
Qed.

Lemma wp_ret {R A} (a : A) (QN : A -> World -> Prop) (QR : R -> World -> Prop)
      QT (w : World) :
  QN a w -> wp (ret a) QN QR QT w.
Proof. intro H. exact H. Qed.

Lemma wp_dbRead {R A} (session : bool) (q : Store -> A)
      (QN : A -> World -> Prop) (QR : R -> World -> Prop) QT (w : World) :
  QN (q (view session w)) w -> wp (dbRead session q) QN QR QT w.
Proof. intro H. exact H. Qed.

Lemma wp_freshId {R} (QN : ObjectId -> World -> Prop) (QR : R -> World -> Prop)
      QT (w : World) :
  QN (idSupply w (nextId w))
     (mkWorld (committed w) (staged w) (S (nextId w)) (idSupply w)
              (writeCount w) (faults w)) ->
  wp freshId QN QR QT w.
Proof. intro H. exact H. Qed.

Ltac refuse :=
  apply wp_abort_return; intros ?; hnf;
  let Hst := fresh in intro Hst; simpl in Hst; discriminate Hst.

Ltac wp_step :=
  lazymatch goal with
  | |- wp (bind abortTransaction (fun _ => return_ _)) _ _ _ _ => refuse
  | |- wp (if ?c then _ else _) _ _ _ _ => destruct c eqn:?
  | |- wp (match ?x with _ => _ end) _ _ _ _ => destruct x eqn:?
  | |- wp (bind (if ?c then _ else _) _) _ _ _ _ => destruct c eqn:?
  | |- wp (bind (match ?x with _ => _ end) _) _ _ _ _ => destruct x eqn:?
  | |- wp (bind (forOf _ checkAccount _) _) _ _ _ _ =>
      apply wp_bind_any;
      [ apply returnsOnly_forOf; intros ? ?; apply returnsOnly_checkAccount;
        intros ?; hnf;
        let Hst := fresh in intro Hst; simpl in Hst; discriminate Hst
      | intros ? ? ]
  | |- wp (bind (bind _ _) _) _ _ _ _ => apply wp_bind
  | |- wp (bind (ret _) _) _ _ _ _ => apply wp_bind, wp_ret; cbv beta
  | |- wp (bind (dbRead _ _) _) _ _ _ _ => apply wp_bind, wp_dbRead; cbv beta
  | |- wp (ret _) _ _ _ _ => apply wp_ret; cbv beta
  | |- wp (let _ := _ in _) _ _ _ _ => cbv zeta
  end.

Lemma find_In_updateFirst {A} (q : A -> bool) (f : A -> A) (l : list A) (x : A) :
  find q l = Some x -> In (f x) (updateFirst q f l).
Proof.
  induction l as [|a l IH]; simpl; [discriminate|].
  destruct (q a) eqn:Qa; intro E.
  - inversion E; subst. now left.
  - right. apply IH, E.
Qed.

(** Saving the revised entry, or the new one, puts it in the session's
    view. *)
Lemma revise_wp {R} (id : ObjectId) (j e' : JournalEntry)
      (QN : JournalEntry -> World -> Prop) (QR : R -> World -> Prop) (w : World) :
  findOne (byId je_id id) (journalEntries (view true w)) = Some j ->
  (forall w', hasEntry e' w' -> QN e' w') ->
  wp (dbWrite true
        (setJournalEntries (updateFirst (byId je_id (je_id j)) (fun _ => e'))) ;;;
      dbWrite true
        (setReceivables (deleteMany (byId rcv_journalEntry (je_id j)))) ;;;
      dbWrite true
        (setPayables (deleteMany (byId pay_journalEntry (je_id j)))) ;;;
      ret e')
     QN QR (fun _ _ => True) w.
Proof.
  intros Hf Hq.
  assert (Hid : je_id j = id).
  { apply find_some in Hf. destruct Hf as [_ Hf]. apply String.eqb_eq, Hf. }
  rewrite Hid.
  apply wp_bind, wp_dbWrite; [auto|].
  apply wp_bind, wp_dbWrite; [auto|].
  apply wp_bind, wp_dbWrite; [auto|].
  apply wp_ret, Hq. unfold hasEntry. apply onView_view.
  repeat (rewrite view_applyWrite || rewrite view_countWrite).
  cbn [journalEntries setPayables setReceivables setJournalEntries].
  apply (find_In_updateFirst _ (fun _ => e')) in Hf. exact Hf.
Qed.

Lemma insert_wp {R} (mk : ObjectId -> JournalEntry)
      (QN : JournalEntry -> World -> Prop) (QR : R -> World -> Prop) (w : World) :
  (forall e' w', hasEntry e' w' -> QN e' w') ->
  wp (newId <- freshId ;;
      dbWrite true (setJournalEntries (insertDoc (mk newId))) ;;;
      ret (mk newId))
     QN QR (fun _ _ => True) w.
Proof.
  intro Hq. apply wp_bind, wp_freshId.
  apply wp_bind, wp_dbWrite; [auto|].
  apply wp_ret, Hq. unfold hasEntry. apply onView_view.
  rewrite view_applyWrite. cbn [journalEntries setJournalEntries].
  apply in_or_app. right. now left.
Qed.

(** The end of the handler when no debt record is due. *)
Lemma commit_wp {P} (e : P) (QN QR : Response P -> World -> Prop) QT
      (w : World) :
  QR (mkResponse 201 (Some e))
     (match staged w with
      | Some s => mkWorld s None (nextId w) (idSupply w) (writeCount w) (faults w)
      | None => w
      end) ->
  wp (commitTransaction ;;; return_ (mkResponse 201 (Some e))) QN QR QT w.
Proof. intro H. exact H. Qed.

Lemma committed_after_commit (w : World) :
  committed (match staged w with
             | Some s => mkWorld s None (nextId w) (idSupply w) (writeCount w)
                                 (faults w)
             | None => w
             end) = view true w.
Proof. unfold view. destruct (staged w); reflexivity. Qed.

Lemma validAmount_some (x : option Q) (a : Q) :
  validAmount x = Some a -> x = Some a.
Proof.
  unfold validAmount. destruct x as [y|]; [|discriminate].
  destruct (Js.le y 0); [discriminate|]. auto.
Qed.

(** The end of the handler: the debt record, then the commit. *)
Lemma tail_wp b amountNum date (dueDateOpt : option Date) name debitCode
      creditCode (cond : bool) entry stampAt (w : World) :
  pe_amount b = Some amountNum ->
  (pe_paymentStatus b = "unpaid" -> pe_type b = "income" ->
   partnerInfoSent b ->
   cond = true /\ dueDateOpt <> None /\ debitCode = "131") ->
  (pe_paymentStatus b = "unpaid" -> pe_type b = "expense" ->
   String.eqb (pe_category b) "Lương nhân viên" = false ->
   partnerInfoSent b ->
   cond = true /\ dueDateOpt <> None /\ creditCode = "331") ->
  hasEntry entry w ->
  wp ((if cond then
         match dueDateOpt with
         | Some dueDate =>
             tryCatch
               (createDebtRecord b amountNum date dueDate name debitCode
                                 creditCode entry stampAt)
               (fun _ => abortTransaction ;;; return_ (mkResponse 500 None))
         | None => ret tt
         end
       else ret tt) ;;;
      commitTransaction ;;;
      return_ (mkResponse 201 (Some entry)))
     (fun r w' => statusCode r = 201%nat ->
                  exists e, payload r = Some e /\ debtRecorded b e (committed w'))
     (fun r w' => statusCode r = 201%nat ->
                  exists e, payload r = Some e /\ debtRecorded b e (committed w'))
     (fun _ _ => True) w.
Proof.
  intros Ha Hin Hex H.
  destruct cond; [destruct dueDateOpt as [dueDate|]|].
  - apply wp_bind, wp_tryCatch.
    apply (wp_mono _ _ _ _ _ _ _ _
             (createDebtRecord_wp b amountNum date dueDate name debitCode
                creditCode entry stampAt w H)).
    + intros _ w' (He & Hr & Hp). apply commit_wp. intros _.
      exists entry. split; [reflexivity|]. rewrite committed_after_commit.
      split; [exact He|]. split.
      * intros Hu Ht Hs. destruct (Hin Hu Ht Hs) as (_ & _ & Hd).
        destruct Hr as (r & Hr1 & Hr2 & Hr3 & Hr4).
        { rewrite Ht, Hd. reflexivity. }
        exists r. rewrite Hr3. auto.
      * intros Hu Ht Hc Hs. destruct (Hex Hu Ht Hc Hs) as (_ & _ & Hd).
        destruct Hp as (p & Hp1 & Hp2 & Hp3 & Hp4).
        { rewrite Ht. reflexivity. }
        { rewrite Ht, Hd. reflexivity. }
        exists p. rewrite Hp3. auto.
    + intros r w' [].
    + intros x w' _. apply wp_abort_return. intros w'' Hst. discriminate Hst.
  - apply wp_bind, wp_ret, commit_wp. intros _.
    exists entry. split; [reflexivity|]. rewrite committed_after_commit.
    split; [exact H|]. split.
    + intros Hu Ht Hs. destruct (Hin Hu Ht Hs) as (_ & Hn & _). congruence.
    + intros Hu Ht Hc Hs. destruct (Hex Hu Ht Hc Hs) as (_ & Hn & _). congruence.
  - apply wp_bind, wp_ret, commit_wp. intros _.
    exists entry. split; [reflexivity|]. rewrite committed_after_commit.
    split; [exact H|]. split.
    + intros Hu Ht Hs. destruct (Hin Hu Ht Hs) as (Hn & _). discriminate Hn.
    + intros Hu Ht Hc Hs. destruct (Hex Hu Ht Hc Hs) as (Hn & _). discriminate Hn.
Qed.

Ltac debt_due :=
  lazymatch goal with
  | |- pe_amount _ = Some _ => apply validAmount_some; assumption
  | |- hasEntry _ _ => assumption
  | Hf : (pe_paymentStatus ?b =? "unpaid") = false
    |- pe_paymentStatus ?b = "unpaid" -> _ =>
      let Hu := fresh in
      intro Hu; rewrite Hu in Hf; vm_compute in Hf; discriminate Hf
  | Hd : missingOrBlank (pe_dueDate ?b) = false
    |- pe_paymentStatus ?b = "unpaid" -> pe_type ?b = "income" -> _ =>
      let Hu := fresh in
      let Ht := fresh in
      let Hs := fresh in
      let Hn := fresh in
      intros Hu Ht [Hs Hn]; rewrite Hu, Ht, truthy_trim_trim, Hn;
      destruct (pe_dueDate b) as [?|? ?]; [|discriminate Hs];
      cbn [missingOrBlank nonBlankString] in Hd |- *;
      apply negb_false_iff in Hd;
      rewrite Hd; repeat split; discriminate
  | Hd : missingOrBlank (pe_dueDate ?b) = false
    |- pe_paymentStatus ?b = "unpaid" -> pe_type ?b = "expense" -> _ =>
      let Hu := fresh in
      let Ht := fresh in
      let Hc := fresh in
      let Hs := fresh in
      let Hn := fresh in
      intros Hu Ht Hc [Hs Hn]; rewrite Hu, Ht, truthy_trim_trim, Hn;
      destruct (pe_dueDate b) as [?|? ?]; [|discriminate Hs];
      cbn [missingOrBlank nonBlankString] in Hd |- *;
      apply negb_false_iff in Hd;
      rewrite Hd; unfold creditAccountCodeOf; rewrite Hc, andb_false_r;
      repeat split; discriminate
  end.

Lemma postEntry_body_recorded b refAuto stampAt (w : World) :
  statusCode (fst (postEntry b refAuto stampAt w)) = 201%nat ->
  exists e, payload (fst (postEntry b refAuto stampAt w)) = Some e
            /\ debtRecorded b e (committed (snd (postEntry b refAuto stampAt w))).
Proof.
  unfold postEntry, withSession.
  set (Phi := fun (r : Response JournalEntry) (w' : World) =>
                statusCode r = 201%nat ->
                exists e, payload r = Some e /\ debtRecorded b e (committed w')).
  match goal with
  | |- context [match ?body (startTransaction w) with _ => _ end] =>
      assert (Hb : forall w0, wp body Phi Phi (fun _ _ => True) w0)
  end.
  2:{ specialize (Hb (startTransaction w)). unfold wp in Hb.
      destruct (_ (startTransaction w)) as [[r|r|x] w1]; simpl.
      - exact Hb.
      - exact Hb.
      - unfold onDuplicate400. destruct (isDuplicate x); discriminate. }
  clear w. intro w. cbv zeta.
  repeat wp_step.
  all: first [ eapply revise_wp; [eassumption|]
             | apply (insert_wp (fun newId => mkJournalEntry newId _ _ _ _ _ _ _ _)) ].
  all: intros; first [ eapply (tail_wp _ _ _ (Some _)) | eapply tail_wp ].
  all: debt_due.
Qed.

(** C9 (as amended). The handlers that open a session are atomic under
    every fault plan of the datastore: rule-driven posting (the entry,
    its Receivable or Payable, the accounts it provisions), internal
    transfer, adjusting entry, cost-of-goods posting, period closing and
    monthly depreciation either answer with their success code or leave
    the committed store as it was; and a rule-driven posting that
    answers 201 has committed its entry together with the Receivable of
    an unpaid income, or the Payable of an unpaid expense booked on
    account 331, when the due date was sent as a string and the partner
    name is not blank. *)
Theorem session_handlers_atomic (w : World) :
  (forall b refAuto stampAt,
      (statusCode (fst (postEntry b refAuto stampAt w)) <> 201%nat ->
       committed (snd (postEntry b refAuto stampAt w)) = committed w)
      /\ (statusCode (fst (postEntry b refAuto stampAt w)) = 201%nat ->
          exists e,
            payload (fst (postEntry b refAuto stampAt w)) = Some e
            /\ debtRecorded b e (committed (snd (postEntry b refAuto stampAt w)))))
  /\ (forall b refAuto,
         committed (snd (internalTransfer b refAuto w)) = committed w
         \/ statusCode (fst (internalTransfer b refAuto w)) = 201%nat)
  /\ (forall b refAuto,
         committed (snd (adjustingEntry b refAuto w)) = committed w
         \/ statusCode (fst (adjustingEntry b refAuto w)) = 201%nat)
  /\ (forall orderId refSuffix now,
         committed (snd (postCogsRoute orderId refSuffix now w)) = committed w
         \/ statusCode (fst (postCogsRoute orderId refSuffix now w)) = 201%nat)
  /\ (forall b userId today s1 s2 s3,
         committed (snd (closePeriod b userId today s1 s2 s3 w)) = committed w
         \/ statusCode (fst (closePeriod b userId today s1 s2 s3 w)) = 200%nat)
  /\ (forall month currentMonth monthStart,
         committed (snd (depreciationCalculate month currentMonth monthStart w))
         = committed w
         \/ statusCode
              (fst (depreciationCalculate month currentMonth monthStart w))
            = 200%nat).
Proof.
  split; [|split; [|split; [|split; [|split]]]].
  - intros b refAuto stampAt. split.
    + intro Hne. destruct (atomic_postEntry b refAuto stampAt w) as [H|H];
        [exact H | contradiction].
    + apply postEntry_body_recorded.
  - intros. apply atomic_internalTransfer.
  - intros. apply atomic_adjustingEntry.
  - intros. apply atomic_postCogsRoute.
  - intros. apply atomic_closePeriod.
  - intros. apply atomic_depreciationCalculate.
Qed.

(** C9 (as stated) fails on three counts.  The debt block of
    [POST /transactions] is not atomic: when the datastore rejects the
    Receivable, the handler still answers 201 and the transaction, the
    customer and the journal entry on account 131 stay, with no
    Receivable.  A failing step does not always abort a rule-driven
    posting: when the datastore rejects the write of the partner, the
    error is caught, the default partner is taken and the posting
    answers 201.  And a rule-driven posting of an unpaid income whose
    due date is sent as a number answers 201 and commits the entry on
    account 131 with no Receivable. *)
Lemma transaction_debt_not_atomic :
  (faults exFaultyWorld 3 = Some (Error "write rejected")
   /\ statusCode (fst (postTransaction exDebtBody "1700" 5000%Z exFaultyWorld))
      = 201%nat
   /\ journalEntries
        (committed (snd (postTransaction exDebtBody "1700" 5000%Z exFaultyWorld)))
      = [ exSale;
          mkJournalEntry "c-fresh" "PT-0009" 3000%Z "receipt" (Some "a-fresh")
            (Some "transaction")
            [ mkLine "131" 250000 0 None None;
              mkLine "511" 0 250000 None None ]
            "posted" None ]
   /\ transactions
        (committed (snd (postTransaction exDebtBody "1700" 5000%Z exFaultyWorld)))
      = [ mkTransaction "a-fresh" "income" 250000 "Ban hang" 3000%Z "PT-0009"
            "unpaid" ]
   /\ receivables
        (committed (snd (postTransaction exDebtBody "1700" 5000%Z exFaultyWorld)))
      = []
   /\ committed (snd (postTransaction exDebtBody "1700" 5000%Z exFaultyWorld))
      <> committed exFaultyWorld)
  /\ (let posted := postEntry exEntryBody "AUTO-1" (fun _ => "1700")
                              (mkWorld exStore None 0 exIds 0 (failAt 1)) in
      failAt 1 1%nat = Some (Error "write rejected")
      /\ statusCode (fst posted) = 201%nat
      /\ map usr_name (users (committed (snd posted)))
         = ["Partner_Default_Customer"]
      /\ List.length (journalEntries (committed (snd posted))) = 2%nat)
  /\ (let posted := postEntry exNumericDueBody "AUTO-1" (fun _ => "1700")
                              exWorld in
      pe_paymentStatus exNumericDueBody = "unpaid"
      /\ pe_type exNumericDueBody = "income"
      /\ fst posted
         = mkResponse 201
             (Some (mkJournalEntry "a-fresh" "PT-0009" 3000%Z "receipt" None
                      (Some "MANUAL")
                      [ mkLine "131" 250000 0 None None;
                        mkLine "511" 0 250000 None None ]
                      "posted" None))
      /\ journalEntries (committed (snd posted))
         = [ exSale;
             mkJournalEntry "a-fresh" "PT-0009" 3000%Z "receipt" None
               (Some "MANUAL")
               [ mkLine "131" 250000 0 None None;
                 mkLine "511" 0 250000 None None ]
               "posted" None ]
      /\ receivables (committed (snd posted)) = []).
Proof.
  split; [|split].
  - repeat split; try (vm_compute; reflexivity).
    intro H.
    apply (f_equal (fun s => List.length (journalEntries s))) in H.
    vm_compute in H. discriminate H.
  - repeat split; vm_compute; reflexivity.
  - repeat split; vm_compute; reflexivity.
Qed.

Lemma session_handlers_atomic_witness :
  statusCode (fst (postEntry exEntryBody "AUTO-1" (fun _ => "1700") exWorld))
  = 201%nat
  /\ (exists e r,
         payload (fst (postEntry exEntryBody "AUTO-1" (fun _ => "1700") exWorld))
         = Some e
         /\ In e (journalEntries
                    (committed
                       (snd (postEntry exEntryBody "AUTO-1" (fun _ => "1700")
                                       exWorld))))
         /\ In r (receivables
                    (committed
                       (snd (postEntry exEntryBody "AUTO-1" (fun _ => "1700")
                                       exWorld))))
         /\ rcv_journalEntry r = je_id e
         /\ rcv_originalAmount r = 250000)
  /\ statusCode
       (fst (postEntry exEntryBody "AUTO-1" (fun _ => "1700")
                       (mkWorld exStore None 0 exIds 0 (failAt 2))))
     = 500%nat
  /\ committed
       (snd (postEntry exEntryBody "AUTO-1" (fun _ => "1700")
                       (mkWorld exStore None 0 exIds 0 (failAt 2))))
     = exStore.
Proof.
  assert (H201 : statusCode
                   (fst (postEntry exEntryBody "AUTO-1" (fun _ => "1700") exWorld))
                 = 201%nat) by (vm_compute; reflexivity).
  split; [exact H201|]. split.
  - destruct (proj2 (proj1 (session_handlers_atomic exWorld)
                       exEntryBody "AUTO-1" (fun _ => "1700")) H201)
      as (e & He & Hin & Hr & _).
    destruct (Hr eq_refl eq_refl (conj eq_refl eq_refl))
      as (r & R1 & R2 & R3 & _).
    exists e, r. repeat split; try assumption.
    cbn [pe_amount exEntryBody] in R3. now inversion R3.
  - assert (H500 : statusCode
                     (fst (postEntry exEntryBody "AUTO-1" (fun _ => "1700")
                             (mkWorld exStore None 0 exIds 0 (failAt 2))))
                   <> 201%nat) by (vm_compute; discriminate).
    split; [vm_compute; reflexivity|].
    exact (proj1 (proj1 (session_handlers_atomic
                           (mkWorld exStore None 0 exIds 0 (failAt 2)))
                    exEntryBody "AUTO-1" (fun _ => "1700")) H500).
Defined.

(* ================================================================== *)
(** * Further properties *)
(* ================================================================== *)

(* ================================================================== *)
(** * Further properties of the handlers *)
(* ================================================================== *)

(** ** Deleting a transaction under the lock-date guard *)

Lemma checkLockDate_run {R} (d : Date) (w : World) :
  @checkLockDate R d w
  = (Next match findOne (lockingPeriod d) (periods (committed w)) with
          | Some p =>
              match lockDate p with
              | Some ld => if (d <=? ld)%Z
                           then mkLockCheck true (Some ld) (Some (periodName p))
                           else mkLockCheck false None None
              | None => mkLockCheck false None None
              end
          | None => mkLockCheck false None None
          end, w).
Proof.
  unfold checkLockDate, tryCatch, bind, dbRead.
  change (view false w) with (committed w).
  destruct (findOne _ _) as [p|]; [|reflexivity].
  destruct (lockDate p) as [ld|]; [|reflexivity].
  destruct (d <=? ld)%Z; reflexivity.
Qed.




(** X2.  When the date of a transaction is after the lock date of every
    closed period with a lock date that contains it -- in particular when
    no such period contains it -- the transaction is deleted, provided the
    datastore accepts the write: 200, that document (the first with the
    id) is gone and every other collection is as before. *)
Theorem deleteTransaction_unlocked (id : ObjectId) (w : World) (t : Transaction) :
  findOne (byId txn_id id) (transactions (committed w)) = Some t ->
  (forall p ld, In p (periods (committed w)) ->
                lockingPeriod (txn_date t) p = true ->
                lockDate p = Some ld -> (ld < txn_date t)%Z) ->
  faults w (writeCount w) = None ->
  exists w',
    deleteTransaction id w = (mkResponse 200 (Some tt), w')
    /\ committed w'
       = setTransactions (deleteFirst (byId txn_id id)) (committed w).
Proof.
  intros Ht Hp Hf.
  unfold deleteTransaction, withoutSession.
  unfold bind at 1. unfold dbRead at 1.
  change (view false w) with (committed w). rewrite Ht.
  unfold bind at 1. rewrite checkLockDate_run.
  assert (E : isLocked
                match findOne (lockingPeriod (txn_date t)) (periods (committed w)) with
                | Some p =>
                    match lockDate p with
                    | Some ld =>
                        if (txn_date t <=? ld)%Z
                        then mkLockCheck true (Some ld) (Some (periodName p))
                        else mkLockCheck false None None
                    | None => mkLockCheck false None None
                    end
                | None => mkLockCheck false None None
                end = false).
  { destruct (findOne (lockingPeriod (txn_date t)) (periods (committed w)))
      as [p|] eqn:F; [|reflexivity].
    apply find_some in F. destruct F as [Hin Hq].
    destruct (lockDate p) as [ld|] eqn:Hl; [|reflexivity].
    specialize (Hp p ld Hin Hq Hl).
    destruct (txn_date t <=? ld)%Z eqn:E; [|reflexivity].
    apply Z.leb_le in E. lia. }
  rewrite E. unfold bind at 1. unfold dbWrite at 1. rewrite Hf.
  eexists. split; reflexivity.
Qed.

(** With overlapping closed periods of which only one locks the date,
    the answer follows the order of the periods in the datastore. *)
Lemma deleteTransaction_overlap :
  statusCode (fst (deleteTransaction "txn2" (exOverlapWorld exOverlapPeriods)))
  = 403%nat
  /\ statusCode (fst (deleteTransaction "txn2"
                        (exOverlapWorld (rev exOverlapPeriods))))
     = 200%nat.
Proof. split; reflexivity. Qed.

(** ** Deleting a journal entry: the referential guard *)

Lemma find_is_some {A} (q : A -> bool) (l : list A) (x : A) :
  In x l -> q x = true -> exists y, find q l = Some y.
Proof.
  intros Hin Hq. destruct (find q l) as [y|] eqn:E; [eauto|].
  rewrite (find_none _ _ E x Hin) in Hq. discriminate Hq.
Qed.

Lemma deleteJournalEntry_guard (id : ObjectId) (w : World) :
  (exists e, In e (journalEntries (committed w)) /\ je_id e = id) ->
  (exists r, In r (receivables (committed w)) /\ rcv_journalEntry r = id)
  \/ (exists p, In p (payables (committed w)) /\ pay_journalEntry p = id) ->
  deleteJournalEntry id w = (mkResponse 400 None, w).
Proof.
  intros (e & He & Hid) Href.
  destruct (find_is_some (byId je_id id) _ e He) as [e' Fe].
  { unfold byId. rewrite Hid. apply String.eqb_refl. }
  unfold deleteJournalEntry, withoutSession.
  unfold bind at 1. unfold dbRead at 1.
  change (view false w) with (committed w). unfold findOne. rewrite Fe.
  unfold bind at 1. unfold dbRead at 1.
  unfold bind at 1. unfold dbRead at 1.
  change (view false w) with (committed w).
  destruct Href as [(r & Hr & Er)|(p & Hp & Ep)].
  - destruct (find_is_some (byId rcv_journalEntry id) _ r Hr) as [r' Fr].
    { unfold byId. rewrite Er. apply String.eqb_refl. }
    rewrite Fr. reflexivity.
  - destruct (find_is_some (byId pay_journalEntry id) _ p Hp) as [p' Fp].
    { unfold byId. rewrite Ep. apply String.eqb_refl. }
    rewrite Fp. destruct (find _ (receivables _)); reflexivity.
Qed.

(** X3.  A journal entry that a Receivable or a Payable refers to is not
    deleted: the handler answers 400 and the datastore stays as it is. *)
Theorem deleteJournalEntry_referenced (id : ObjectId) (w : World) :
  (exists e, In e (journalEntries (committed w)) /\ je_id e = id) ->
  (exists r, In r (receivables (committed w)) /\ rcv_journalEntry r = id)
  \/ (exists p, In p (payables (committed w)) /\ pay_journalEntry p = id) ->
  deleteJournalEntry id w = (mkResponse 400 None, w).
Proof. apply deleteJournalEntry_guard. Qed.

(** X4.  The entry of a rule-driven posting that carries a debt record (an
    unpaid income, or an unpaid expense booked on account 331, posted
    with a due date sent as a string and a partner name that is not
    blank) is protected by it: right after the posting answered 201,
    deleting the entry is refused with 400 and nothing changes.  With
    the due date sent as a number the posting answers 201 without a debt
    record, and the entry can be deleted. *)
Theorem postEntry_debt_entry_protected (b : PostEntryBody) (refAuto : string)
        (stampAt : nat -> string) (w : World) (e : JournalEntry) :
  (fst (postEntry b refAuto stampAt w) = mkResponse 201 (Some e) ->
   pe_paymentStatus b = "unpaid" ->
   pe_type b = "income"
   \/ (pe_type b = "expense"
       /\ String.eqb (pe_category b) "Lương nhân viên" = false) ->
   partnerInfoSent b ->
   deleteJournalEntry (je_id e) (snd (postEntry b refAuto stampAt w))
   = (mkResponse 400 None, snd (postEntry b refAuto stampAt w)))
  /\ (let posted := postEntry exNumericDueBody "AUTO-1" (fun _ => "1700")
                              exWorld in
      statusCode (fst posted) = 201%nat
      /\ receivables (committed (snd posted)) = []
      /\ statusCode (fst (deleteJournalEntry "a-fresh" (snd posted))) = 200%nat).
Proof.
  split; [|repeat split; vm_compute; reflexivity].
  intros Hr Hu Ht Hs.
  destruct (postEntry_body_recorded b refAuto stampAt w) as (e' & He & Hin & Hi & Hx).
  { rewrite Hr. reflexivity. }
  rewrite Hr in He. inversion He; subst e'. clear He.
  apply deleteJournalEntry_guard.
  - exists e. auto.
  - destruct Ht as [Ht|[Ht Hc]].
    + left. destruct (Hi Hu Ht Hs) as (r & H1 & H2 & _). exists r. auto.
    + right. destruct (Hx Hu Ht Hc Hs) as (p & H1 & H2 & _). exists p. auto.
Qed.

Lemma postEntry_debt_entry_protected_witness :
  exists e,
    fst (postEntry exEntryBody "AUTO-1" (fun _ => "1700") exWorld)
    = mkResponse 201 (Some e)
    /\ statusCode
         (fst (deleteJournalEntry (je_id e)
                 (snd (postEntry exEntryBody "AUTO-1" (fun _ => "1700") exWorld))))
       = 400%nat.
Proof.
  assert (H : fst (postEntry exEntryBody "AUTO-1" (fun _ => "1700") exWorld)
              = mkResponse 201
                  (Some (mkJournalEntry "a-fresh" "PT-0009" 3000%Z "receipt" None
                           (Some "MANUAL")
                           [ mkLine "131" 250000 0 None None;
                             mkLine "511" 0 250000 None None ]
                           "posted" None)))
    by (vm_compute; reflexivity).
  eexists. split; [exact H|].
  rewrite (proj1 (postEntry_debt_entry_protected exEntryBody "AUTO-1"
                    (fun _ => "1700") exWorld _)
             H eq_refl (or_introl eq_refl) (conj eq_refl eq_refl)).
  reflexivity.
Defined.

(** ** Internal transfer *)

Lemma withSession_ok {P} (body : M (Response P) (Response P))
      (onError : Exn -> Response P) (w : World) (ok : nat)
      (Psi : Response P -> World -> Prop) :
  (forall e, statusCode (onError e) <> ok) ->
  wp body (fun r w' => statusCode r = ok -> Psi r (endSession w'))
          (fun r w' => statusCode r = ok -> Psi r (endSession w'))
          (fun _ _ => True) (startTransaction w) ->
  statusCode (fst (withSession body onError w)) = ok ->
  Psi (fst (withSession body onError w)) (snd (withSession body onError w)).
Proof.
  intros Hne Hb. unfold withSession. unfold wp in Hb.
  destruct (body (startTransaction w)) as [[r|r|x] w1]; simpl.
  - exact Hb.
  - exact Hb.
  - intro H. destruct (Hne x H).
Qed.

Lemma onDuplicate400_not_201 {P} (e : Exn) :
  statusCode (@onDuplicate400 P e) <> 201%nat.
Proof. unfold onDuplicate400. destruct (isDuplicate e); discriminate. Qed.

Lemma find_code_In (c : string) (cs : list string) (l : list Account) (a : Account) :
  find (fun a => String.eqb (code a) c) (filter (codeIn cs) l) = Some a ->
  In a l /\ code a = c.
Proof.
  intro H. apply find_some in H. destruct H as [H1 H2].
  apply filter_In in H1. destruct H1 as [H1 _].
  apply String.eqb_eq in H2. auto.
Qed.

(** X5.  Every transfer answered 201 moved a positive amount between two
    different asset accounts of the chart: one posted 'transfer' entry,
    debiting the destination and crediting the source by that amount,
    under a reference number no entry had, is appended to the journal,
    and nothing else is changed. *)
Theorem internalTransfer_posts (b : TransferBody) (refAuto : string) (w : World) :
  statusCode (fst (internalTransfer b refAuto w)) = 201%nat ->
  exists amount date fromAcc toAcc e,
    tf_amount b = Some amount /\ 0 < amount
    /\ tf_date b = Some date
    /\ fromAccountCode b <> toAccountCode b
    /\ In fromAcc (accounts (committed w))
    /\ code fromAcc = fromAccountCode b /\ accountType fromAcc = "asset"
    /\ In toAcc (accounts (committed w))
    /\ code toAcc = toAccountCode b /\ accountType toAcc = "asset"
    /\ payload (fst (internalTransfer b refAuto w)) = Some e
    /\ lines e = [ mkLine (toAccountCode b) amount 0 None None;
                   mkLine (fromAccountCode b) 0 amount None None ]
    /\ je_date e = date /\ entryType e = "transfer" /\ je_status e = "posted"
    /\ findOne (byReferenceNo (referenceNo e)) (journalEntries (committed w))
       = None
    /\ committed (snd (internalTransfer b refAuto w))
       = setJournalEntries (insertDoc e) (committed w).
Proof.
  unfold internalTransfer.
  apply (withSession_ok _ _ w 201%nat
           (fun r w' =>
              exists amount date fromAcc toAcc e,
                tf_amount b = Some amount /\ 0 < amount
                /\ tf_date b = Some date
                /\ fromAccountCode b <> toAccountCode b
                /\ In fromAcc (accounts (committed w))
                /\ code fromAcc = fromAccountCode b /\ accountType fromAcc = "asset"
                /\ In toAcc (accounts (committed w))
                /\ code toAcc = toAccountCode b /\ accountType toAcc = "asset"
                /\ payload r = Some e
                /\ lines e = [ mkLine (toAccountCode b) amount 0 None None;
                               mkLine (fromAccountCode b) 0 amount None None ]
                /\ je_date e = date /\ entryType e = "transfer"
                /\ je_status e = "posted"
                /\ findOne (byReferenceNo (referenceNo e))
                           (journalEntries (committed w)) = None
                /\ committed w'
                   = setJournalEntries (insertDoc e) (committed w)));
    [apply onDuplicate400_not_201|].
  repeat wp_step.
  2,3: exact I.
  apply wp_bind, wp_freshId. apply wp_bind, wp_dbWrite; [auto|].
  apply commit_wp. intros _.
  assert (Hq : q0 = q /\ 0 < q).
  { unfold validAmount in Heqo1. destruct (Js.le q 0) eqn:L; [discriminate|].
    inversion Heqo1. subst q0. split; [reflexivity | apply Js_le_false, L]. }
  destruct Hq as [-> Hpos].
  apply find_code_In in Heqo2. apply find_code_In in Heqo3.
  apply orb_false_iff in Heqb4. destruct Heqb4 as [T1 T2].
  apply negb_false_iff, String.eqb_eq in T1.
  apply negb_false_iff, String.eqb_eq in T2.
  apply String.eqb_neq in Heqb2.
  exists q, d, a, a0. eexists.
  repeat (split; [solve [reflexivity | assumption | tauto]|]).
  reflexivity.
Qed.

(** ** Adjusting entry *)


(** ** Rule-driven posting: the category table *)

Lemma income_mapping_none (c : string) :
  c <> "Bán hàng" -> c <> "Dịch vụ" -> c <> "Đầu tư" ->
  cr_income (categoryMapping c) = None.
Proof.
  intros H1 H2 H3. unfold categoryMapping.
  apply String.eqb_neq in H1. apply String.eqb_neq in H2.
  apply String.eqb_neq in H3. rewrite H1, H2, H3.
  repeat match goal with
         | |- context [if ?c then _ else _] => destruct c
         end; reflexivity.
Qed.

(** X7.  An income whose category is not one of the three income categories
    of the table ('Bán hàng', 'Dịch vụ', 'Đầu tư') is always refused
    with 400 and nothing is committed -- the category 'Khác' included,
    whose table row holds an expense account only. *)
Theorem postEntry_income_category (b : PostEntryBody) (refAuto : string)
        (stampAt : nat -> string) (w : World) :
  pe_type b = "income" ->
  pe_category b <> "Bán hàng" -> pe_category b <> "Dịch vụ" ->
  pe_category b <> "Đầu tư" ->
  statusCode (fst (postEntry b refAuto stampAt w)) = 400%nat
  /\ committed (snd (postEntry b refAuto stampAt w)) = committed w.
Proof.
  intros Ht H1 H2 H3.
  pose proof (income_mapping_none _ H1 H2 H3) as Hm.
  unfold postEntry, withSession. cbv zeta. rewrite Ht.
  change ("income" =? "income") with true. cbv iota. rewrite Hm.
  destruct (validAmount (pe_amount b)); [|split; reflexivity].
  destruct (pe_date b); [|split; reflexivity].
  destruct (_ || _ || _); [split; reflexivity|].
  cbn [negb orb].
  destruct (pe_paymentStatus b =? "unpaid"); [|split; reflexivity].
  destruct (missingOrBlank (pe_partnerName b)); [split; reflexivity|].
  destruct (_ && _); [split; reflexivity|].
  destruct (missingOrBlank (pe_dueDate b)); [split; reflexivity|].
  destruct (pe_dueDateParsed b); split; reflexivity.
Qed.

Lemma postEntry_income_category_witness :
  statusCode
    (fst (postEntry
            (mkPostEntryBody (Some 250000) "Khác" "Thu khac" (Some 3000%Z)
               "PT-0010" "paid" "income" (Js.str "") (Js.str "") (Js.str "")
               None None "")
            "AUTO-1" (fun _ => "1700") exWorld)) = 400%nat
  /\ committed
       (snd (postEntry
               (mkPostEntryBody (Some 250000) "Khác" "Thu khac" (Some 3000%Z)
                  "PT-0010" "paid" "income" (Js.str "") (Js.str "")
                  (Js.str "") None None "")
               "AUTO-1" (fun _ => "1700") exWorld)) = committed exWorld.
Proof.
  apply postEntry_income_category;
    [reflexivity | vm_compute; discriminate | vm_compute; discriminate
     | vm_compute; discriminate].
Defined.

(** ** Manual transactions *)

(** X8.  A manual transaction whose payment status is not 'unpaid' never
    reaches the ledger: either nothing is stored, or the handler answers
    201 and the transaction document is the one thing added -- no
    journal entry, no debt record, no counterparty. *)
Theorem postTransaction_settled (b : TransactionBody) (stamp : string)
        (now : Date) (w : World) :
  tb_paymentStatus b <> "unpaid" ->
  committed (snd (postTransaction b stamp now w)) = committed w
  \/ exists t,
       fst (postTransaction b stamp now w) = mkResponse 201 (Some t)
       /\ txn_type t = tb_type b /\ tb_amount b = Some (txn_amount t)
       /\ 0 < txn_amount t
       /\ committed (snd (postTransaction b stamp now w))
          = setTransactions (insertDoc t) (committed w).
Proof.
  intro Hp. apply String.eqb_neq in Hp.
  unfold postTransaction, withoutSession.
  destruct (tb_date b) as [date|]; [|left; reflexivity].
  destruct (_ || _ || _ || _); [left; reflexivity|].
  destruct (negb _); [left; reflexivity|].
  destruct (tb_amount b) as [amount|]; [|left; reflexivity].
  destruct (Js.le amount 0) eqn:L; [left; reflexivity|].
  apply Js_le_false in L. rewrite Hp.
  unfold bind, freshId, dbWrite, when_, ret, return_. cbn [faults writeCount].
  destruct (faults w (writeCount w)); [left; reflexivity|].
  right. eexists. split; [reflexivity|].
  repeat split. exact L.
Qed.

Lemma postTransaction_settled_witness :
  exists t,
    fst (postTransaction
           (mkTransactionBody "income" (Js.other true "250000")
                       (Some 250000) "Ban le" "Ban hang"
              (Some 3000%Z) "PT-0011" "paid") "1700" 5000%Z exWorld)
    = mkResponse 201 (Some t)
    /\ journalEntries
         (committed
            (snd (postTransaction
                    (mkTransactionBody "income" (Js.other true "250000")
                       (Some 250000) "Ban le" "Ban hang"
                       (Some 3000%Z) "PT-0011" "paid") "1700" 5000%Z exWorld)))
       = journalEntries exStore.
Proof.
  destruct (postTransaction_settled
              (mkTransactionBody "income" (Js.other true "250000")
                       (Some 250000) "Ban le" "Ban hang"
                 (Some 3000%Z) "PT-0011" "paid") "1700" 5000%Z exWorld)
    as [H|(t & H1 & _ & _ & _ & H2)].
  - vm_compute. discriminate.
  - exfalso. apply (f_equal (fun s => List.length (transactions s))) in H.
    vm_compute in H. discriminate H.
  - exists t. split; [exact H1|]. rewrite H2. reflexivity.
Defined.

Lemma deleteTransaction_unlocked_witness :
  exists w',
    deleteTransaction "txn2" exPartLockedWorld = (mkResponse 200 (Some tt), w')
    /\ transactions (committed w') = []
    /\ lockingPeriod 2000%Z exPartLockedPeriod = true.
Proof.
  destruct (deleteTransaction_unlocked "txn2" exPartLockedWorld
              (mkTransaction "txn2" "expense" 70000 "Marketing" 2000%Z "" "paid")
              eq_refl) as (w' & H1 & H2).
  - intros p ld [<-|[<-|[]]] Hq Hl; vm_compute in Hq; try discriminate Hq.
    vm_compute in Hl. injection Hl as <-. reflexivity.
  - reflexivity.
  - exists w'. split; [exact H1|]. rewrite H2. split; reflexivity.
Defined.

Lemma deleteJournalEntry_referenced_witness :
  deleteJournalEntry "a-fresh"
    (snd (postEntry exEntryBody "AUTO-1" (fun _ => "1700") exWorld))
  = (mkResponse 400 None,
     snd (postEntry exEntryBody "AUTO-1" (fun _ => "1700") exWorld)).
Proof.
  apply deleteJournalEntry_referenced.
  - eexists. split; [right; left; reflexivity | reflexivity].
  - left. eexists. split; [left; reflexivity | reflexivity].
Defined.

Lemma internalTransfer_posts_witness :
  exists e,
    payload (fst (internalTransfer exTransferBody "TF-AUTO" exWorld)) = Some e
    /\ lines e = [ mkLine "1121" 200000 0 None None;
                   mkLine "111" 0 200000 None None ]
    /\ journalEntries (committed (snd (internalTransfer exTransferBody "TF-AUTO"
                                         exWorld)))
       = [exSale; e].
Proof.
  destruct (internalTransfer_posts exTransferBody "TF-AUTO" exWorld)
    as (amount & date & fromAcc & toAcc & e & Ha & _ & _ & _ & _ & _ & _ & _ & _
        & _ & He & Hl & _ & _ & _ & _ & Hc).
  - vm_compute. reflexivity.
  - exists e. split; [exact He|]. split.
    + rewrite Hl. inversion Ha. reflexivity.
    + rewrite Hc. reflexivity.
Defined.


(** ** COGS posting: what the item loop records and leaves behind *)



Lemma cogs_loop_faults {R} session items acc (w : World) :
  faults (snd (@forOf R _ _ items (cogsItem session) acc w)) = faults w.
Proof.
  revert acc w. induction items as [|item items IH]; intros acc w; simpl.
  - reflexivity.
  - unfold bind at 1.
    assert (F : faults (snd (@cogsItem R session item acc w)) = faults w).
    { unfold cogsItem. cbv zeta.
      destruct (Js.le _ _); [reflexivity|].
      unfold bind at 1. unfold dbRead at 1.
      destruct (findOne _ _); [|reflexivity].
      unfold bind, dbWrite, ret.
      destruct (faults w (writeCount w)); [reflexivity|].
      cbn [snd]. unfold applyWrite, countWrite. cbn [staged].
      destruct session; [destruct (staged w)|]; reflexivity. }
    destruct (cogsItem session item acc w) as [[a|r|e] w1]; cbn [snd] in *;
      try exact F.
    rewrite IH. exact F.
Qed.

Lemma cogs_loop_next {R} session items acc (w : World) :
  (forall n, faults w n = None) ->
  exists acc', fst (@forOf R _ _ items (cogsItem session) acc w) = Next acc'.
Proof.
  revert acc w. induction items as [|item items IH]; intros acc w Hf; simpl.
  - eauto.
  - unfold bind at 1.
    assert (F : exists a w1, @cogsItem R session item acc w = (Next a, w1)
                             /\ faults w1 = faults w).
    { unfold cogsItem. cbv zeta.
      destruct (Js.le _ _); [exists acc, w; split; reflexivity|].
      unfold bind at 1. unfold dbRead at 1.
      destruct (findOne _ _); [|exists acc, w; split; reflexivity].
      unfold bind, dbWrite, ret. rewrite Hf.
      eexists. eexists. split; [reflexivity|].
      unfold applyWrite, countWrite. cbn [staged].
      destruct session; [destruct (staged w)|]; reflexivity. }
    destruct F as (a & w1 & E & F). rewrite E.
    apply IH. intro n. rewrite F. apply Hf.
Qed.



(** X10.  Called without a session (as the order update does), a COGS posting
    that fails after its item loop leaves the loop's stock reductions in
    the datastore although no entry is posted: with a datastore that
    accepts every write, whenever the call throws for an order that
    exists, has items and has no COGS entry yet, the committed store is
    exactly the one the loop over the order's items produced, and the
    journal is as before. *)
Theorem postCOGSEntry_failure_keeps_stock orderId refSuffix now (w w1 : World)
        (order : Order) (e : Exn) :
  (forall n, faults w n = None) ->
  findOne (byId ord_id orderId) (orders (committed w)) = Some order ->
  findOne (isCOGSEntryOf orderId) (journalEntries (committed w)) = None ->
  orderItems order <> [] ->
  await (postCOGSEntry orderId false refSuffix now) w = (inr e, w1) ->
  w1 = snd (forOf (R:=CogsResult) (orderItems order) (cogsItem false) (0, []) w)
  /\ journalEntries (committed w1) = journalEntries (committed w).
Proof.
  intros Hf Fo Fe Hne.
  pose proof (cogs_loop_frame (R:=CogsResult) false (orderItems order)
                (0, []) w) as Hframe. cbv zeta in Hframe.
  destruct Hframe as [HE _]. change (view false ?x) with (committed x) in HE.
  pose proof (cogs_loop_faults (R:=CogsResult) false (orderItems order)
                (0, []) w) as Hfl.
  destruct (cogs_loop_next (R:=CogsResult) false (orderItems order) (0, []) w Hf)
    as [acc Hn].
  unfold await, postCOGSEntry. unfold bind at 1. unfold dbRead at 1.
  change (view false w) with (committed w). rewrite Fo.
  unfold bind at 1. unfold dbRead at 1.
  change (view false w) with (committed w). rewrite Fe.
  destruct (orderItems order) as [|i0 items] eqn:Ei; [congruence|].
  cbn [List.length Nat.eqb]. rewrite <- Ei in *.
  unfold bind at 1.
  destruct (forOf (orderItems order) (cogsItem false) (0, []) w)
    as [[acc0|r0|e0] w2]; cbn [fst snd] in *; [|discriminate|discriminate].
  cbv zeta. destruct (Js.le (fst acc0) 0).
  { cbn. intro H. inversion H; subst. auto. }
  unfold bind at 1. unfold dbRead at 1.
  destruct (negb _).
  { cbn. intro H. inversion H; subst. auto. }
  unfold bind at 1. unfold dbRead at 1.
  destruct (findOne _ (journalEntries (view false w2))).
  { cbn. intro H. inversion H; subst. auto. }
  destruct (unbalanced _).
  { cbn. intro H. inversion H; subst. auto. }
  unfold bind at 1. unfold freshId at 1.
  unfold bind at 1. unfold dbWrite at 1. cbn [faults writeCount].
  rewrite Hfl, Hf. cbn. discriminate.
Qed.

Lemma postCOGSEntry_failure_keeps_stock_witness :
  exists e w1,
    await (postCOGSEntry "ord1" false "202401-ABCDE" 6000%Z) exBareWorld
    = (inr e, w1)
    /\ journalEntries (committed w1) = []
    /\ map stock (products (committed exBareWorld)) = [Some 10; Some 1]
    /\ map stock (products (committed w1)) = [Some 7; Some 0].
Proof.
  destruct (await (postCOGSEntry "ord1" false "202401-ABCDE" 6000%Z) exBareWorld)
    as [[r|e] w1] eqn:E; [vm_compute in E; discriminate E|].
  destruct (postCOGSEntry_failure_keeps_stock "ord1" "202401-ABCDE" 6000%Z
              exBareWorld w1 exOrder e (fun _ => eq_refl) eq_refl eq_refl)
    as [H1 H2]; [discriminate | exact E |].
  exists e, w1. split; [reflexivity|]. split; [rewrite H2; reflexivity|].
  split; [reflexivity|]. rewrite H1. vm_compute. reflexivity.
Defined.

(** ** The default partner *)

(** X11.  [findOrCreateDefaultPartner] makes at most one default partner per
    role: once a call has returned a partner, a further call returns the
    same document and changes nothing; the partner has the role of the
    posting type (customer for an income, supplier otherwise). *)
Theorem findOrCreateDefaultPartner_idempotent (type : string) (session : bool)
        (w w1 : World) (u : User) :
  await (findOrCreateDefaultPartner type session) w = (inl u, w1) ->
  await (findOrCreateDefaultPartner type session) w1 = (inl u, w1)
  /\ role u = roleOf type
  /\ (users (view session w1) = users (view session w)
      \/ users (view session w1) = users (view session w) ++ [u]).
Proof.
  unfold await, findOrCreateDefaultPartner. cbv zeta.
  set (mail := if type =? "income"
               then "partner.default.customer@partner.local"
               else "partner.default.supplier@partner.local").
  unfold bind at 1. unfold dbRead at 1.
  destruct (findOne (byEmailAndRole mail (roleOf type)) (users (view session w)))
    as [u0|] eqn:F0.
  - cbn. intro H. inversion H; subst. clear H.
    unfold bind, dbRead. rewrite F0. cbn. split; [reflexivity|].
    split; [|left; reflexivity].
    apply find_some in F0. destruct F0 as [_ F0]. unfold byEmailAndRole in F0.
    apply andb_true_iff in F0. destruct F0 as [_ F0].
    apply String.eqb_eq in F0. exact F0.
  - unfold bind at 1. unfold freshId at 1.
    unfold tryCatch, bind, dbWrite. cbn [faults writeCount].
    destruct (faults w (writeCount w)) as [x|].
    + (* the datastore rejected the insert: nothing was stored, so the
         second look-up finds nothing either *)
      unfold dbRead. cbn [fst snd].
      destruct (isDuplicate x || includes "duplicate" (message x)).
      * change (view session (countWrite ?y)) with (view session y).
        replace (view session
                   (mkWorld (committed w) (staged w) (S (nextId w)) (idSupply w)
                            (writeCount w) (faults w)))
          with (view session w) by (unfold view; reflexivity).
        rewrite F0. cbn. discriminate.
      * cbn. discriminate.
    + cbn. intro H. inversion H; subst. clear H.
      unfold dbRead. rewrite view_applyWrite.
      change (view session (countWrite ?y)) with (view session y).
      replace (view session
                 (mkWorld (committed w) (staged w) (S (nextId w)) (idSupply w)
                          (writeCount w) (faults w)))
        with (view session w) by (unfold view; reflexivity).
      cbn [users setUsers]. unfold findOne in *. unfold insertDoc.
      assert (E : byEmailAndRole mail (roleOf type)
                    (mkUser (idSupply w (nextId w))
                       (if type =? "income" then "Partner_Default_Customer"
                        else "Partner_Default_Supplier")
                       mail
                       (Some (if type =? "income" then "0900000000"
                              else "0900000001"))
                       (roleOf type)) = true).
      { unfold byEmailAndRole. cbn [email role]. rewrite !String.eqb_refl.
        reflexivity. }
      rewrite (find_app_none _ _ _ F0 E). cbn.
      split; [reflexivity|]. split; [reflexivity|].
      right. reflexivity.
Qed.

Lemma findOrCreateDefaultPartner_idempotent_witness :
  exists u w1,
    await (findOrCreateDefaultPartner "income" false) exWorld = (inl u, w1)
    /\ await (findOrCreateDefaultPartner "income" false) w1 = (inl u, w1)
    /\ role u = "customer"
    /\ List.length (users (committed w1)) = 1%nat.
Proof.
  destruct (await (findOrCreateDefaultPartner "income" false) exWorld)
    as [[u|x] w1] eqn:E; [|vm_compute in E; discriminate E].
  destruct (findOrCreateDefaultPartner_idempotent "income" false exWorld w1 u E)
    as (H1 & H2 & _).
  exists u, w1. split; [reflexivity|]. split; [exact H1|]. split; [exact H2|].
  vm_compute in E. inversion E; subst. reflexivity.
Defined.

(** ** Account ledger *)












(** *** The ledger against the trial balance *)







Section GroupAt.
Variable V : Type.
Variable init : V.
Variable step : V -> Line -> V.
Variable measure : V -> Q.
Variable val : Line -> Q.
Variable c : string.
Hypothesis measure_init : measure init == 0.
Hypothesis measure_step : forall v l, measure (step v l) == measure v + val l.


End GroupAt.




(** ** Aging report *)










(** ** Receivables entered by hand *)

Lemma postReceivable_existing (b : ReceivableBody) (w : World) (r : Receivable) :
  findOne (byId rcv_journalEntry (rb_journalEntry b))
          (receivables (committed w)) = Some r ->
  statusCode (fst (postReceivable b w)) = 400%nat
  /\ snd (postReceivable b w) = w.
Proof.
  intro H. unfold postReceivable, withoutSession.
  destruct (rb_dueDate b) as [due|]; [|split; reflexivity].
  destruct (rb_invoiceDate b) as [inv|]; [|split; reflexivity].
  destruct (negb (Js.truthyStr (rb_customer b))
            || negb (Js.truthyStr (rb_journalEntry b))
            || negb (Js.truthy (rb_originalAmount b))); [split; reflexivity|].
  unfold bind, dbRead, view. rewrite H. split; reflexivity.
Qed.

(** X15.  A receivable entered by hand is accepted (201) only for a
    journal entry that has no receivable yet and with an amount field
    that is truthy as sent; the one document it adds carries the number
    the field casts to, starts unpaid with everything left to pay, and
    nothing else is changed.  From then on every further request for the
    same journal entry, whatever else it says, is refused with 400 and
    changes nothing: a journal entry gets at most one receivable this
    way. *)
Theorem postReceivable_once (b : ReceivableBody) (w : World) :
  statusCode (fst (postReceivable b w)) = 201%nat ->
  exists r,
    payload (fst (postReceivable b w)) = Some r
    /\ findOne (byId rcv_journalEntry (rb_journalEntry b))
               (receivables (committed w)) = None
    /\ rcv_journalEntry r = rb_journalEntry b
    /\ customer r = Some (rb_customer b)
    /\ Js.truthy (rb_originalAmount b) = true
    /\ rb_originalAmountCast b = Some (rcv_originalAmount r)
    /\ rcv_remainingAmount r = rcv_originalAmount r
    /\ rcv_paymentStatus r = "unpaid"
    /\ committed (snd (postReceivable b w))
       = setReceivables (insertDoc r) (committed w)
    /\ forall b', rb_journalEntry b' = rb_journalEntry b ->
         statusCode (fst (postReceivable b' (snd (postReceivable b w))))
         = 400%nat
         /\ snd (postReceivable b' (snd (postReceivable b w)))
            = snd (postReceivable b w).
Proof.
  intro H.
  assert (K : exists r,
    payload (fst (postReceivable b w)) = Some r
    /\ findOne (byId rcv_journalEntry (rb_journalEntry b))
               (receivables (committed w)) = None
    /\ rcv_journalEntry r = rb_journalEntry b
    /\ customer r = Some (rb_customer b)
    /\ Js.truthy (rb_originalAmount b) = true
    /\ rb_originalAmountCast b = Some (rcv_originalAmount r)
    /\ rcv_remainingAmount r = rcv_originalAmount r
    /\ rcv_paymentStatus r = "unpaid"
    /\ committed (snd (postReceivable b w))
       = setReceivables (insertDoc r) (committed w)).
  { revert H. unfold postReceivable, withoutSession.
    destruct (rb_dueDate b) as [due|]; [|discriminate].
    destruct (rb_invoiceDate b) as [inv|]; [|discriminate].
    destruct (negb (Js.truthyStr (rb_customer b))
              || negb (Js.truthyStr (rb_journalEntry b))
              || negb (Js.truthy (rb_originalAmount b))) eqn:G; [discriminate|].
    apply orb_false_iff in G. destruct G as [_ G].
    apply negb_false_iff in G.
    unfold bind, dbRead, view, freshId, dbWrite, return_, throw.
    destruct (findOne (byId rcv_journalEntry (rb_journalEntry b))
                      (receivables (committed w))) eqn:F; [discriminate|].
    destruct (rb_originalAmountCast b) as [amount|]; [|discriminate].
    cbn [writeCount faults].
    destruct (faults w (writeCount w)); [discriminate|].
    intros _. eexists. cbn [fst snd payload].
    repeat (split; [reflexivity|]).
    split; [exact G|]. repeat (split; [reflexivity|]). reflexivity. }
  destruct K as (r & K1 & K2 & K3 & K4 & K5 & K6 & K7 & K8 & K9).
  exists r. repeat (split; [assumption|]).
  intros b' Hb'.
  apply (postReceivable_existing b' _ r).
  rewrite Hb', K9. unfold setReceivables, insertDoc. cbn [receivables].
  apply find_app_none; [exact K2|].
  unfold byId. rewrite K3. apply String.eqb_refl.
Qed.

Lemma postReceivable_once_witness :
  exists r,
    payload (fst (postReceivable exReceivableBody exWorld)) = Some r
    /\ rcv_remainingAmount r = 500000
    /\ receivables (committed (snd (postReceivable exReceivableBody exWorld)))
       = [r]
    /\ statusCode
         (fst (postReceivable exReceivableBody
                 (snd (postReceivable exReceivableBody exWorld))))
       = 400%nat.
Proof.
  destruct (postReceivable_once exReceivableBody exWorld eq_refl)
    as (r & K1 & _ & _ & _ & _ & K5 & K7 & _ & K9 & K10).
  exists r. split; [exact K1|]. split.
  - rewrite K7. unfold exReceivableBody in K5.
    cbn [rb_originalAmountCast] in K5.
    injection K5 as K5. symmetry. exact K5.
  - split.
    + rewrite K9. reflexivity.
    + apply (K10 exReceivableBody eq_refl).
Defined.

(** The amount sent as the string "0" is truthy: the request is answered
    201 and the receivable is stored with amount 0. *)
Lemma postReceivable_zero_string :
  let b := mkReceivableBody "cust1" "je-hand" (Js.str "0") (Some 0)
             (Some 9000%Z) (Some 1000%Z) None in
  statusCode (fst (postReceivable b exWorld)) = 201%nat
  /\ map rcv_originalAmount
         (receivables (committed (snd (postReceivable b exWorld)))) = [0].
Proof. split; vm_compute; reflexivity. Qed.

(** ** Profit and loss *)

Lemma insertPL_In (r x : PLRow) (rs : list PLRow) :
  In x (insertPL r rs) -> x = r \/ In x rs.
Proof.
  induction rs as [|y rs IH]; simpl.
  - intros [H|[]]; auto.
  - destruct (String.leb (pl_accountCode r) (pl_accountCode y)); simpl.
    + intros [H|[H|H]]; auto.
    + intros [H|H]; auto. destruct (IH H); auto.
Qed.

Lemma sortPL_In (x : PLRow) (rs : list PLRow) :
  In x (sortPL rs) -> In x rs.
Proof.
  induction rs as [|r rs IH]; simpl; [auto|].
  intro H. apply insertPL_In in H. destruct H; auto.
Qed.

(** Every row of an aggregation carries a code that starts with the
    character the aggregation keeps. *)
Lemma plAggregate_codes (c : ascii) (side : Line -> Q) (tz : Z)
      (from to : option Date) (s : Store) (x : PLRow) :
  In x (plAggregate c side tz from to s) ->
  startsWithChar c (pl_accountCode x) = true.
Proof.
  unfold plAggregate. intro H. apply sortPL_In in H.
  apply in_flat_map in H. destruct H as ([k v] & Hg & Hx).
  unfold plLookup in Hx. apply in_map_iff in Hx.
  destruct Hx as (a & Hx & _). subst x. cbn [pl_accountCode fst].
  apply groupByAccount_keys in Hg. destruct Hg as (l & Hl & Hc).
  cbn [fst] in Hc. symmetry in Hc.
  apply filter_In in Hl. destruct Hl as [_ Hl].
  apply andb_true_iff in Hl. destruct Hl as [Hl _]. rewrite <- Hc. exact Hl.
Qed.

Lemma filter_none {A} (p : A -> bool) (l : list A) :
  (forall x, In x l -> p x = false) -> filter p l = [].
Proof.
  induction l as [|a l IH]; simpl; intro H; [reflexivity|].
  rewrite (H a (or_introl eq_refl)). apply IH. intros x Hx. apply H. auto.
Qed.


Lemma prefix3 (a b c : ascii) (s : string) :
  prefix (String a (String b (String c ""))) s = true ->
  exists r, s = String a (String b (String c r)).
Proof.
  destruct s as [|x s]; simpl; [discriminate|].
  destruct (ascii_dec a x) as [->|]; [|discriminate].
  destruct s as [|y s]; simpl; [discriminate|].
  destruct (ascii_dec b y) as [->|]; [|discriminate].
  destruct s as [|z s]; simpl; [discriminate|].
  destruct (ascii_dec c z) as [->|]; [|discriminate].
  intros _. exists s. reflexivity.
Qed.




(** No row of the revenue aggregation has a code starting with 711. *)
Lemma no_711_rows (tz : Z) (from to : option Date) (s : Store) :
  filter (codeStartsWith "711") (plAggregate "5" credit tz from to s) = [].
Proof.
  apply filter_none. intros x Hx. apply plAggregate_codes in Hx.
  unfold codeStartsWith. destruct (prefix "711" (pl_accountCode x)) eqn:E;
    [|reflexivity].
  apply prefix3 in E. destruct E as (r & E). rewrite E in Hx.
  simpl in Hx. discriminate.
Qed.

(** X16.  Income booked on the accounts 711 never reaches the profit and
    loss report: the rows the report looks through for it are those of
    the accounts whose code starts with 5, so for every ledger and every
    period the other income it reports is 0 and its total revenue is the
    net revenue of the accounts 511 alone.  Likewise every row of the
    expense breakdown has a code starting with 6 and every row of the
    other costs a code starting with 8. *)
Theorem profitLoss_no_other_income (tz : Z) (startDate endDate : option Date)
        (s : Store) :
  let r := profitLoss tz startDate endDate s in
  otherIncome r = 0
  /\ pl_totalRevenue r == netRevenue r
  /\ Forall (fun x => startsWithChar "5" (pl_accountCode x) = true)
            (revenueBreakdown r)
  /\ Forall (fun x => startsWithChar "6" (pl_accountCode x) = true)
            (expenseBreakdown r)
  /\ Forall (fun x => startsWithChar "8" (pl_accountCode x) = true)
            (otherCostsBreakdown r).
Proof.
  cbv zeta. unfold profitLoss. cbv zeta.
  cbn [otherIncome pl_totalRevenue netRevenue revenueBreakdown
       expenseBreakdown otherCostsBreakdown].
  rewrite no_711_rows. unfold plTotal at 1. cbn [fold_left].
  split; [reflexivity|]. split.
  - unfold plTotal at 2. cbn [fold_left]. lra.
  - repeat split; apply Forall_forall; intros x Hx;
      apply (plAggregate_codes _ _ _ _ _ _ _ Hx).
Qed.


(** ** Order synchronisation *)

(** With an entry of the order in the journal the synchronisation does
    nothing. *)
Lemma sync_existing (order : Order) (prev : option OrderStatus) (sfx : string)
      (now : Date) (w : World) (e : JournalEntry) :
  findOne (isEntryOfOrder (ord_id order)) (journalEntries (committed w))
  = Some e ->
  exists o,
    syncOrderToAccounting order prev sfx now w = (o, w)
    /\ (o = Next tt \/ o = Returned tt).
Proof.
  intro H. unfold syncOrderToAccounting, tryCatch. cbv zeta.
  unfold bind at 1. unfold dbRead at 1.
  change (view false w) with (committed w). rewrite H.
  destruct (isCOD (paymentMethod order) && negb (wasShipped prev)
            && shippedOrDelivered (ord_status order)); cbn; eauto.
Qed.

Lemma sync_existing_world (order : Order) (prev : option OrderStatus)
      (sfx : string) (now : Date) (w : World) (e : JournalEntry) :
  findOne (isEntryOfOrder (ord_id order)) (journalEntries (committed w))
  = Some e ->
  snd (syncOrderToAccounting order prev sfx now w) = w.
Proof.
  intro H. destruct (sync_existing order prev sfx now w e H) as (o & E & _).
  rewrite E. reflexivity.
Qed.

(** Whatever happens to its later writes, a sale posting whose first
    write is accepted leaves an entry of the order in the journal. *)
Lemma sale_leaves_entry (order : Order) (sfx : string) (now : Date) (w : World) :
  findOne (isEntryOfOrder (ord_id order)) (journalEntries (committed w)) = None ->
  faults w (writeCount w) = None ->
  (isCOD (paymentMethod order) && negb (shippedOrDelivered (ord_status order)))
  = false ->
  exists o w' e,
    createSaleJournalEntry order sfx now w = (o, w')
    /\ findOne (isEntryOfOrder (ord_id order)) (journalEntries (committed w'))
       = Some e
    /\ journalEntries (committed w') = journalEntries (committed w) ++ [e]
    /\ sourceId e = Some (ord_id order) /\ entryType e = "sale".
Proof.
  intros Hnone Hf Hdefer.
  unfold createSaleJournalEntry. cbv zeta.
  unfold bind at 1. unfold dbRead at 1.
  change (view false w) with (committed w). rewrite Hnone, Hdefer.
  unfold bind at 1. unfold freshId at 1.
  unfold bind at 1. unfold dbWrite at 1. cbn [faults writeCount]. rewrite Hf.
  match goal with
  | |- context [mkJournalEntry ?i ?r ?d ?t ?si ?st ?ls ?s ?a] =>
      set (e := mkJournalEntry i r d t si st ls s a)
  end.
  assert (Q : isEntryOfOrder (ord_id order) e = true).
  { unfold isEntryOfOrder, e. cbn. rewrite String.eqb_refl. reflexivity. }
  match goal with
  | |- context [when_ ?b ?m] => destruct b
  end; cbn [when_].
  - unfold bind at 1. unfold bind at 1. unfold call at 1.
    unfold createReceivableFromOrder.
    unfold bind at 1. unfold dbRead at 1.
    match goal with
    | |- context [findOne (forOrder ?i) ?l] => destruct (findOne (forOrder i) l)
    end.
    + eexists. eexists. exists e. split; [reflexivity|]. cbn.
      split; [apply find_app_none; assumption|]. auto.
    + unfold bind at 1. unfold freshId at 1.
      unfold bind at 1. unfold dbWrite at 1.
      cbn [faults writeCount applyWrite countWrite].
      destruct (faults w (S (writeCount w)));
        (eexists; eexists; exists e; split; [reflexivity|]; cbn;
         split; [apply find_app_none; assumption|]; auto).
  - eexists. eexists. exists e. split; [reflexivity|]. cbn.
    split; [apply find_app_none; assumption|]. auto.
Qed.

(** Without an entry of the order in the journal the synchronisation is
    the sale posting with its exception swallowed, or nothing at all for
    a cash-on-delivery order not yet shipped. *)
Lemma sync_fresh (order : Order) (prev : option OrderStatus) (sfx : string)
      (now : Date) (w : World) :
  findOne (isEntryOfOrder (ord_id order)) (journalEntries (committed w)) = None ->
  exists o,
    (o = Next tt \/ o = Returned tt)
    /\ syncOrderToAccounting order prev sfx now w
       = (o, if isCOD (paymentMethod order)
                && negb (shippedOrDelivered (ord_status order))
             then w
             else snd (createSaleJournalEntry order sfx now w)).
Proof.
  intro H. unfold syncOrderToAccounting, tryCatch. cbv zeta.
  unfold bind at 1. unfold dbRead at 1.
  change (view false w) with (committed w). rewrite H.
  destruct (paymentMethod order) eqn:Em; cbn [isBankTransfer isCOD andb];
    [destruct (shippedOrDelivered (ord_status order)) eqn:Es; cbn [negb]|..];
    try (unfold bind, call;
         destruct (createSaleJournalEntry order sfx now w) as [[a|a|x] w'];
         cbn; eauto).
Qed.

(** X18.  Synchronising an order with the books never lets an exception
    out, and when the datastore takes the next write it is idempotent:
    a second synchronisation of the order, under whatever previous status
    and at whatever time, leaves the datastore as the first one left it.
    The first one adds at most one journal entry, a sale entry of the
    order, and only when the journal had no entry of the order. *)
Theorem syncOrderToAccounting_idempotent (order : Order)
        (prev prev' : option OrderStatus) (sfx sfx' : string) (now now' : Date)
        (w : World) :
  faults w (writeCount w) = None ->
  let r := syncOrderToAccounting order prev sfx now w in
  (fst r = Next tt \/ fst r = Returned tt)
  /\ snd (syncOrderToAccounting order prev' sfx' now' (snd r)) = snd r
  /\ (journalEntries (committed (snd r)) = journalEntries (committed w)
      \/ exists e,
           journalEntries (committed (snd r))
           = journalEntries (committed w) ++ [e]
           /\ sourceId e = Some (ord_id order) /\ entryType e = "sale"
           /\ findOne (isEntryOfOrder (ord_id order))
                      (journalEntries (committed w)) = None).
Proof.
  intros Hf. cbv zeta.
  destruct (findOne (isEntryOfOrder (ord_id order))
                    (journalEntries (committed w))) as [e|] eqn:F.
  - destruct (sync_existing order prev sfx now w e F) as (o & E & Ho).
    rewrite E. cbn [fst snd]. split; [exact Ho|]. split; [|auto].
    apply (sync_existing_world order prev' sfx' now' w e F).
  - destruct (sync_fresh order prev sfx now w F) as (o & Ho & E).
    rewrite E. cbn [fst snd]. split; [exact Ho|].
    destruct (isCOD (paymentMethod order)
              && negb (shippedOrDelivered (ord_status order))) eqn:D.
    + split; [|auto].
      destruct (sync_fresh order prev' sfx' now' w F) as (o' & _ & E').
      rewrite E', D. reflexivity.
    + destruct (sale_leaves_entry order sfx now w F Hf D)
        as (o1 & w1 & e & E1 & F1 & J1 & S1 & T1).
      rewrite E1. cbn [snd]. split.
      * apply (sync_existing_world order prev' sfx' now' w1 e F1).
      * right. exists e. auto.
Qed.

Lemma syncOrderToAccounting_idempotent_witness :
  let r := syncOrderToAccounting exOrder (Some paid) "202401-KLMNO" 7000%Z
                                 exWorld in
  List.length (journalEntries (committed (snd r))) = 2%nat
  /\ List.length (receivables (committed (snd r))) = 1%nat
  /\ snd (syncOrderToAccounting exOrder (Some shipped) "202401-PQRST" 8000%Z
                                (snd r))
     = snd r.
Proof.
  cbv zeta. split; [reflexivity|]. split; [reflexivity|].
  apply (syncOrderToAccounting_idempotent exOrder (Some paid) (Some shipped)
           "202401-KLMNO" "202401-PQRST" 7000%Z 8000%Z exWorld eq_refl).
Defined.

(** X19.  A receivable lost in the synchronisation is never made up for.
    For a shipped or delivered cash-on-delivery order of a user with no
    entry and no receivable yet, when the datastore takes the write of
    the journal entry and rejects the write of the receivable, the
    synchronisation still ends without an exception: the entry debiting
    131 stays in the journal and there is no receivable for it.  Every
    later synchronisation of the order finds that entry and changes
    nothing, so the receivable is not created then either. *)
Theorem syncOrderToAccounting_lost_receivable (order : Order)
        (prev : option OrderStatus) (sfx : string) (now : Date) (w : World)
        (u : ObjectId) (x : Exn) :
  paymentMethod order = COD ->
  shippedOrDelivered (ord_status order) = true ->
  user order = Some u ->
  findOne (isEntryOfOrder (ord_id order)) (journalEntries (committed w)) = None ->
  findOne (forOrder (ord_id order)) (receivables (committed w)) = None ->
  faults w (writeCount w) = None ->
  faults w (S (writeCount w)) = Some x ->
  let r := syncOrderToAccounting order prev sfx now w in
  let e := saleEntry (idSupply w (nextId w)) sfx now "131" order in
  fst r = Next tt
  /\ journalEntries (committed (snd r)) = journalEntries (committed w) ++ [e]
  /\ receivables (committed (snd r)) = receivables (committed w)
  /\ forall order' prev' sfx' now' w',
       ord_id order' = ord_id order ->
       journalEntries (committed w') = journalEntries (committed (snd r)) ->
       snd (syncOrderToAccounting order' prev' sfx' now' w') = w'.
Proof.
  intros Hcod Hship Hu Hnone Hrcv Hf0 Hf1. cbv zeta.
  assert (E : syncOrderToAccounting order prev sfx now w
              = (Next tt,
                 mkWorld (setJournalEntries
                            (insertDoc (saleEntry (idSupply w (nextId w)) sfx
                                                  now "131" order))
                            (committed w))
                         (staged w) (S (S (nextId w))) (idSupply w)
                         (S (S (writeCount w))) (faults w))).
  { unfold syncOrderToAccounting, tryCatch. cbv zeta.
    unfold bind at 1. unfold dbRead at 1.
    change (view false w) with (committed w). rewrite Hnone, Hcod, Hship.
    cbn [isBankTransfer isCOD andb].
    unfold bind at 1. unfold bind at 1. unfold call at 1.
    unfold createSaleJournalEntry. cbv zeta.
    unfold bind at 1. unfold dbRead at 1.
    change (view false w) with (committed w). rewrite Hnone, Hcod, Hship.
    cbn [isBankTransfer isCOD andb negb fst snd].
    unfold bind at 1. unfold freshId at 1.
    unfold bind at 1. unfold dbWrite at 1. cbn [faults writeCount].
    rewrite Hf0. unfold hasUser. rewrite Hu. cbn [when_ andb].
    unfold bind at 1. unfold bind at 1. unfold call at 1.
    unfold createReceivableFromOrder.
    unfold bind at 1. unfold dbRead at 1.
    cbn [view applyWrite countWrite committed receivables setJournalEntries].
    rewrite Hrcv.
    unfold bind at 1. unfold freshId at 1.
    unfold bind at 1. unfold dbWrite at 1.
    cbn [faults writeCount applyWrite countWrite].
    rewrite Hf1. reflexivity. }
  rewrite E. cbn [fst snd committed]. split; [reflexivity|].
  split; [reflexivity|]. split; [reflexivity|].
  intros order' prev' sfx' now' w' Hid Hj.
  apply (sync_existing_world order' prev' sfx' now' w'
           (saleEntry (idSupply w (nextId w)) sfx now "131" order)).
  rewrite Hj, Hid. cbn [journalEntries setJournalEntries insertDoc].
  apply find_app_none; [exact Hnone|].
  unfold isEntryOfOrder, saleEntry. cbn. rewrite String.eqb_refl. reflexivity.
Qed.

Lemma syncOrderToAccounting_lost_receivable_witness :
  let r := syncOrderToAccounting exOrder (Some paid) "202401-KLMNO" 7000%Z
                                 exHalfWorld in
  fst r = Next tt
  /\ List.length (journalEntries (committed (snd r))) = 2%nat
  /\ receivables (committed (snd r)) = []
  /\ snd (syncOrderToAccounting exOrder (Some paid) "202401-PQRST" 8000%Z
            (mkWorld (committed (snd r)) None 5 exIds 5 noFaults))
     = mkWorld (committed (snd r)) None 5 exIds 5 noFaults.
Proof.
  cbv zeta.
  destruct (syncOrderToAccounting_lost_receivable exOrder (Some paid)
              "202401-KLMNO" 7000%Z exHalfWorld "cust1"
              (Error "write rejected")
              eq_refl eq_refl eq_refl eq_refl eq_refl eq_refl eq_refl)
    as (H1 & H2 & H3 & H4).
  split; [exact H1|]. split; [rewrite H2; reflexivity|].
  split; [rewrite H3; reflexivity|].
  apply H4; reflexivity.
Defined.

(** ** The monthly depreciation script *)

(** Without exactly two accounts 642 / 214 in sight a turn of the
    script's loop does nothing. *)
Lemma script_turn_idle {R} targetMonth monthStart asset results (w : World) :
  List.length (filter (codeIn ["642"; "214"]) (accounts (view true w))) <> 2%nat ->
  @scriptDepreciateAsset R targetMonth monthStart asset results w
  = (Next results, w).
Proof.
  intro H. unfold scriptDepreciateAsset.
  destruct (alreadyDepreciated targetMonth asset); [reflexivity|].
  destruct (Js.ge _ _); [reflexivity|].
  destruct (Js.le _ _); [reflexivity|]. cbv zeta.
  unfold bind at 1. unfold dbRead at 1.
  apply Nat.eqb_neq in H. rewrite H. reflexivity.
Qed.

Lemma script_loop_idle {R} targetMonth monthStart assets results (w : World) :
  List.length (filter (codeIn ["642"; "214"]) (accounts (view true w))) <> 2%nat ->
  forOf assets (@scriptDepreciateAsset R targetMonth monthStart) results w
  = (Next results, w).
Proof.
  intro H. induction assets as [|a assets IH]; [reflexivity|].
  cbn [forOf]. unfold bind. rewrite (script_turn_idle _ _ _ _ _ H). exact IH.
Qed.

(** With the two accounts in sight a turn of the script's loop and a turn
    of the route's loop leave the same world behind and end the same
    way, and the chart stays as it is. *)
Lemma script_turn_route {R R'} targetMonth monthStart asset results results'
      (w : World) :
  List.length (filter (codeIn ["642"; "214"]) (accounts (view true w))) = 2%nat ->
  exists o o' w',
    @scriptDepreciateAsset R targetMonth monthStart asset results w = (o, w')
    /\ @depreciateAsset R' targetMonth monthStart asset results' w = (o', w')
    /\ ((exists a a', o = Next a /\ o' = Next a')
        \/ (exists x, o = Thrown x /\ o' = Thrown x))
    /\ accounts (view true w') = accounts (view true w).
Proof.
  intro H. unfold scriptDepreciateAsset, depreciateAsset.
  destruct (alreadyDepreciated targetMonth asset);
    [do 3 eexists; split; [reflexivity|]; split; [reflexivity|]; eauto 6|].
  destruct (Js.ge _ _);
    [do 3 eexists; split; [reflexivity|]; split; [reflexivity|]; eauto 6|].
  destruct (Js.le _ _);
    [do 3 eexists; split; [reflexivity|]; split; [reflexivity|]; eauto 6|].
  cbv zeta. unfold bind, dbRead, freshId, dbWrite, ret.
  apply Nat.eqb_eq in H. rewrite H. cbn [negb].
  destruct (findOne _ _);
    [do 3 eexists; split; [reflexivity|]; split; [reflexivity|]; eauto 6|].
  cbn [faults writeCount applyWrite countWrite staged].
  destruct (faults w (writeCount w)).
  { do 3 eexists. split; [reflexivity|]. split; [reflexivity|].
    split; [right; eauto|]. reflexivity. }
  destruct (staged w) as [s|] eqn:Es;
    cbn [faults writeCount applyWrite countWrite staged];
    destruct (faults w (S (writeCount w)));
    do 3 eexists; (split; [reflexivity|]); (split; [reflexivity|]);
    (split; [eauto 6|]); unfold view; cbn; rewrite ?Es; reflexivity.
Qed.

Lemma script_loop_route {R R'} targetMonth monthStart assets results results'
      (w : World) :
  List.length (filter (codeIn ["642"; "214"]) (accounts (view true w))) = 2%nat ->
  exists o o' w',
    forOf assets (@scriptDepreciateAsset R targetMonth monthStart) results w
    = (o, w')
    /\ forOf assets (@depreciateAsset R' targetMonth monthStart) results' w
       = (o', w')
    /\ ((exists a a', o = Next a /\ o' = Next a')
        \/ (exists x, o = Thrown x /\ o' = Thrown x)).
Proof.
  revert results results' w.
  induction assets as [|a assets IH]; intros results results' w H.
  - do 3 eexists. split; [reflexivity|]. split; [reflexivity|]. eauto 6.
  - cbn [forOf]. unfold bind.
    destruct (script_turn_route (R:=R) (R':=R') targetMonth monthStart a
                results results' w H)
      as (o & o' & w' & E1 & E2 & [(r & r' & -> & ->)|(x & -> & ->)] & Ha).
    + rewrite E1, E2. apply IH. rewrite Ha. exact H.
    + rewrite E1, E2. do 3 eexists. split; [reflexivity|].
      split; [reflexivity|]. eauto.
Qed.

Lemma script_run_idle (targetMonth : string) (monthStart : Date) (w : World) :
  List.length (filter (codeIn ["642"; "214"]) (accounts (committed w)))
  <> 2%nat ->
  calculateMonthlyDepreciation targetMonth monthStart w
  = (0%nat, endSession w).
Proof.
  intro H. unfold calculateMonthlyDepreciation. cbv zeta.
  unfold bind at 1. unfold dbRead at 1.
  unfold bind at 1. rewrite script_loop_idle by exact H.
  reflexivity.
Qed.

Lemma script_run_route (targetMonth : string) (monthStart : Date) (w : World) :
  List.length (filter (codeIn ["642"; "214"]) (accounts (committed w)))
  = 2%nat ->
  exists c r w',
    calculateMonthlyDepreciation targetMonth monthStart w = (c, w')
    /\ depreciationCalculate "" targetMonth monthStart w = (r, w')
    /\ (c = 0%nat <-> statusCode r = 200%nat).
Proof.
  intro H. unfold calculateMonthlyDepreciation, depreciationCalculate, withSession.
  cbv zeta. cbn [Js.truthyStr].
  unfold bind, dbRead.
  destruct (script_loop_route (R:=nat) (R':=Response (list DepreciationResult))
              targetMonth monthStart
              (filter (fun a => String.eqb (fa_status a) "active")
                      (fixedAssets (view true (startTransaction w))))
              [] [] (startTransaction w) H)
    as (o & o' & w' & E1 & E2 & [(r & r' & -> & ->)|(x & -> & ->)]).
  - rewrite E1, E2. cbn. do 3 eexists. split; [reflexivity|].
    split; [reflexivity|]. split; reflexivity.
  - rewrite E1, E2. cbn. do 3 eexists. split; [reflexivity|].
    split; [reflexivity|]. split; discriminate.
Qed.

(** X20.  The depreciation script posts nothing unless the chart has
    exactly two accounts coded 642 or 214: whatever assets are due, it
    attempts no write, leaves the datastore as it was and still exits
    with code 0. *)
Theorem calculateMonthlyDepreciation_missing_accounts (targetMonth : string)
        (monthStart : Date) (w : World) :
  List.length (filter (codeIn ["642"; "214"]) (accounts (committed w)))
  <> 2%nat ->
  fst (calculateMonthlyDepreciation targetMonth monthStart w) = 0%nat
  /\ committed (snd (calculateMonthlyDepreciation targetMonth monthStart w))
     = committed w
  /\ writeCount (snd (calculateMonthlyDepreciation targetMonth monthStart w))
     = writeCount w.
Proof.
  intro H. rewrite (script_run_idle _ _ _ H). cbn. auto.
Qed.

Lemma calculateMonthlyDepreciation_missing_accounts_witness :
  fst (calculateMonthlyDepreciation "2024-01" 1704067200000%Z exAssetWorld)
  = 0%nat
  /\ committed (snd (calculateMonthlyDepreciation "2024-01" 1704067200000%Z
                                                  exAssetWorld))
     = exAssetStore
  /\ fixedAssets (committed (snd (depreciationCalculate "2024-01" "2024-02"
                                    1704067200000%Z exAssetWorld)))
     <> fixedAssets exAssetStore.
Proof.
  assert (N : List.length (filter (codeIn ["642"; "214"])
                                  (accounts (committed exAssetWorld))) <> 2%nat)
    by (vm_compute; discriminate).
  destruct (calculateMonthlyDepreciation_missing_accounts "2024-01"
              1704067200000%Z exAssetWorld N) as (H1 & H2 & _).
  split; [exact H1|]. split; [exact H2|]. vm_compute. discriminate.
Defined.

(** X21.  With exactly two accounts coded 642 or 214 in the chart the
    depreciation script does to the datastore what the route
    [POST /depreciation/calculate] does when called without a month in
    the same month, whether the datastore accepts the writes or not, and
    it exits with code 0 exactly when the route answers 200. *)
Theorem calculateMonthlyDepreciation_agrees_with_route (targetMonth : string)
        (monthStart : Date) (w : World) :
  List.length (filter (codeIn ["642"; "214"]) (accounts (committed w)))
  = 2%nat ->
  snd (calculateMonthlyDepreciation targetMonth monthStart w)
  = snd (depreciationCalculate "" targetMonth monthStart w)
  /\ (fst (calculateMonthlyDepreciation targetMonth monthStart w) = 0%nat
      <-> statusCode (fst (depreciationCalculate "" targetMonth monthStart w))
          = 200%nat).
Proof.
  intro H.
  destruct (script_run_route targetMonth monthStart w H)
    as (c & r & w' & E1 & E2 & Hc).
  rewrite E1, E2. cbn [fst snd]. split; [reflexivity | exact Hc].
Qed.

Lemma calculateMonthlyDepreciation_agrees_with_route_witness :
  fixedAssets
    (committed (snd (calculateMonthlyDepreciation "2024-01" 1704067200000%Z
                                                  exFullAssetWorld)))
  = [ depreciate "2024-01" 500000 "a-fresh" exAsset; exAssetDone ]
  /\ snd (calculateMonthlyDepreciation "2024-01" 1704067200000%Z
                                       exFullAssetWorld)
     = snd (depreciationCalculate "" "2024-01" 1704067200000%Z
                                  exFullAssetWorld).
Proof.
  split; [vm_compute; reflexivity|].
  apply (calculateMonthlyDepreciation_agrees_with_route "2024-01"
           1704067200000%Z exFullAssetWorld).
  vm_compute. reflexivity.
Defined.

(** ** Account codes of a journal entry *)

(** A selection from a chart without repeated codes has none either. *)
Lemma selection_codes (q : Account -> bool) (accs : list Account) :
  NoDup (map code accs) -> NoDup (map code (filter q accs)).
Proof.
  intro H. induction accs as [|a accs IH]; cbn [filter map]; [constructor|].
  cbn [map] in H. apply NoDup_cons_iff in H. destruct H as [Hn Hr].
  destruct (q a); cbn [map]; [|exact (IH Hr)].
  apply NoDup_cons; [|exact (IH Hr)].
  intro Hin. apply Hn. apply in_map_iff in Hin.
  destruct Hin as (y & Hy & Hf). apply filter_In in Hf.
  apply in_map_iff. exists y. tauto.
Qed.

(** The counting check of the handlers: with no code twice in the chart,
    as many accounts found as distinct codes asked for means every code
    was found. *)
Lemma codes_all_found (codes : list string) (accs : list Account) :
  NoDup codes -> NoDup (map code accs) ->
  List.length (filter (codeIn codes) accs) = List.length codes ->
  forall c, In c codes -> In c (map code accs).
Proof.
  intros Hc Ha Hl c Hin.
  assert (Hi : incl codes (map code (filter (codeIn codes) accs))).
  { apply NoDup_length_incl.
    - apply selection_codes, Ha.
    - rewrite length_map, Hl. apply Nat.le_refl.
    - intros x Hx. apply in_map_iff in Hx. destruct Hx as (a & <- & Hf).
      apply filter_In in Hf. destruct Hf as [_ Hf]. unfold codeIn in Hf.
      apply existsb_exists in Hf. destruct Hf as (y & Hy & E).
      apply String.eqb_eq in E. rewrite E. exact Hy. }
  apply Hi in Hin. apply in_map_iff in Hin. destruct Hin as (a & <- & Hf).
  apply filter_In in Hf. apply in_map. tauto.
Qed.

Lemma input_codes_found (ls : list LineInput) (accs : list Account) :
  NoDup (map code accs) ->
  (List.length (filter (codeIn (accountCodesOf ls)) accs)
   =? List.length (accountCodesOf ls))%nat = true ->
  Forall (fun l => In (accountCode l) (map code accs)) (map toLine ls).
Proof.
  intros Ha Hl. apply Nat.eqb_eq in Hl.
  apply Forall_forall. intros l Hin. apply in_map_iff in Hin.
  destruct Hin as (li & <- & Hli). cbn [toLine accountCode].
  apply (codes_all_found (accountCodesOf ls) accs); auto.
  - apply NoDup_nodup.
  - unfold accountCodesOf. apply nodup_In. apply in_map. exact Hli.
Qed.

Lemma postJournalEntry_201 (b : JournalEntryBody) (w : World) :
  statusCode (fst (postJournalEntry b w)) = 201%nat ->
  exists ls e,
    b_lines b = Some ls
    /\ payload (fst (postJournalEntry b w)) = Some e
    /\ lines e = map toLine ls
    /\ (List.length (filter (codeIn (accountCodesOf ls))
                            (accounts (committed w)))
        =? List.length (accountCodesOf ls))%nat = true.
Proof.
  unfold postJournalEntry, withoutSession.
  destruct (b_date b) as [date|]; [|discriminate].
  destruct (b_lines b) as [ls|]; [|discriminate].
  destruct (_ || _ || _); [discriminate|].
  destruct (inputUnbalanced ls); [discriminate|]. cbv zeta.
  unfold bind, dbRead, freshId, dbWrite, return_, view.
  destruct (List.length _ =? List.length _)%nat eqn:L; [|discriminate].
  cbn [negb faults writeCount].
  destruct (faults w (writeCount w)) as [x|].
  - unfold onDuplicate400. destruct (isDuplicate x); discriminate.
  - intros _. do 2 eexists. cbn [fst payload lines]. auto.
Qed.

Lemma putJournalEntry_200 (id : ObjectId) (b : JournalEntryBody) (w : World)
      (ls : list LineInput) :
  statusCode (fst (putJournalEntry id b w)) = 200%nat ->
  b_lines b = Some ls -> ls <> [] ->
  exists e,
    payload (fst (putJournalEntry id b w)) = Some e
    /\ lines e = map toLine ls
    /\ (List.length (filter (codeIn (accountCodesOf ls))
                            (accounts (committed w)))
        =? List.length (accountCodesOf ls))%nat = true.
Proof.
  intros H Hb Hne. revert H. unfold putJournalEntry, withoutSession.
  rewrite Hb.
  assert (Hlen : (0 <? List.length ls)%nat = true)
    by (destruct ls; [congruence | reflexivity]).
  rewrite Hlen. cbv zeta.
  unfold bind, dbRead, freshId, dbWrite, return_, ret, view.
  destruct (findOne _ _) as [entry|]; [|discriminate].
  destruct (inputUnbalanced ls); [discriminate|].
  destruct (List.length _ =? List.length _)%nat eqn:L; [|discriminate].
  cbn [negb faults writeCount].
  destruct (faults w (writeCount w)) as [x|].
  - unfold onDuplicate400. destruct (isDuplicate x); discriminate.
  - intros _. eexists. cbn [fst payload lines assignHeader withLines]. auto.
Qed.

(** X22.  In a chart where no code occurs twice, a journal entry accepted
    by POST /journal-entries (201), and one whose lines are replaced by
    PUT /journal-entries/:id (200), has every one of its lines on an
    account of the chart. *)
Theorem journalEntry_accounts_exist (id : ObjectId) (b : JournalEntryBody)
        (w : World) :
  NoDup (map code (accounts (committed w))) ->
  (statusCode (fst (postJournalEntry b w)) = 201%nat ->
   exists e,
     payload (fst (postJournalEntry b w)) = Some e
     /\ Forall (fun l => In (accountCode l)
                            (map code (accounts (committed w))))
               (lines e))
  /\ (forall ls,
        statusCode (fst (putJournalEntry id b w)) = 200%nat ->
        b_lines b = Some ls -> ls <> [] ->
        exists e,
          payload (fst (putJournalEntry id b w)) = Some e
          /\ Forall (fun l => In (accountCode l)
                                 (map code (accounts (committed w))))
                    (lines e)).
Proof.
  intro Ha. split.
  - intro H. destruct (postJournalEntry_201 b w H) as (ls & e & _ & P & L & C).
    exists e. split; [exact P|]. rewrite L.
    apply input_codes_found; assumption.
  - intros ls H Hb Hne.
    destruct (putJournalEntry_200 id b w ls H Hb Hne) as (e & P & L & C).
    exists e. split; [exact P|]. rewrite L.
    apply input_codes_found; assumption.
Qed.

Lemma journalEntry_accounts_exist_witness :
  NoDup (map code (accounts (committed exWorld)))
  /\ exists e,
       payload (fst (postJournalEntry exJournalBody exWorld)) = Some e
       /\ Forall (fun l => In (accountCode l)
                              (map code (accounts (committed exWorld))))
                 (lines e)
       /\ map accountCode (lines e) = ["111"; "511"].
Proof.
  assert (N : NoDup (map code (accounts (committed exWorld)))).
  { cbn. repeat constructor; cbn; intuition discriminate. }
  split; [exact N|].
  destruct (journalEntry_accounts_exist "je1" exJournalBody exWorld N)
    as [H _].
  destruct (H eq_refl) as (e & P & F).
  exists e. split; [exact P|]. split; [exact F|].
  vm_compute in P. inversion P. reflexivity.
Defined.

(** ** Editing a transaction *)

Lemma putTransaction_books (id : ObjectId) (p : TransactionPatch) (w : World) :
  exists r w', putTransaction id p w = (r, w')
               /\ sameBooks (committed w) (committed w').
Proof.
  unfold putTransaction, withoutSession, sameBooks.
  unfold bind, dbRead, dbWrite, return_.
  destruct (findOne _ _) as [t|]; [|do 2 eexists; split; [reflexivity|]; auto].
  destruct (_ && _); [do 2 eexists; split; [reflexivity|]; auto|].
  destruct (tp_amount p) as [a|].
  - destruct (Js.le a 0); [do 2 eexists; split; [reflexivity|]; auto|].
    destruct (faults w (writeCount w));
      do 2 eexists; (split; [reflexivity|]); cbn; auto.
  - destruct (faults w (writeCount w));
      do 2 eexists; (split; [reflexivity|]); cbn; auto.
Qed.

Lemma deleteTransaction_books (id : ObjectId) (w : World) :
  exists r w', deleteTransaction id w = (r, w')
               /\ sameBooks (committed w) (committed w').
Proof.
  unfold deleteTransaction, withoutSession, sameBooks.
  unfold bind at 1. unfold dbRead at 1.
  destruct (findOne _ _) as [t|]; [|do 2 eexists; split; [reflexivity|]; auto].
  unfold bind at 1. rewrite checkLockDate_run.
  destruct (isLocked _); [do 2 eexists; split; [reflexivity|]; auto|].
  unfold bind, dbWrite, return_.
  destruct (faults w (writeCount w));
    do 2 eexists; (split; [reflexivity|]); cbn; auto.
Qed.

(** X23.  Updating or deleting a transaction never reaches the books:
    whatever the request and however it is answered, the chart, the
    journal, the receivables and the payables are afterwards what they
    were.  The journal entry and the receivable or payable that were
    posted for an unpaid transaction therefore keep the old amount when
    the transaction is changed, and stay when it is deleted. *)
Theorem transaction_edits_leave_books (id : ObjectId) (p : TransactionPatch)
        (w : World) :
  sameBooks (committed w) (committed (snd (putTransaction id p w)))
  /\ sameBooks (committed w) (committed (snd (deleteTransaction id w))).
Proof.
  split.
  - destruct (putTransaction_books id p w) as (r & w' & E & H).
    rewrite E. exact H.
  - destruct (deleteTransaction_books id w) as (r & w' & E & H).
    rewrite E. exact H.
Qed.

